(** * SME-DT-ERP: the warehouse digital twin of [core.py]

    A shallow embedding of the simulation core: the data model, the bounded
    event buffer, the drift monitor, the metrics accumulator, the calibration
    scan, the resource pools and the order-fulfilment process.

    Conventions.
    - Python [int] is [Z] (or [nat] where the value is a length or a
      capacity); Python [float] is modelled by exact rationals [Q];
      a [datetime] is the number of microseconds since the epoch, in [Z].
    - A [dict] is a [gmap]; a [list] or a [deque] is a [list].
    - A Python exception is [None] in an [option] result. *)

From Stdlib Require Import ZArith QArith Qminmax Qround Lia Lqa.
From stdpp Require Import base option list sorting gmap strings pretty.

Local Open Scope string_scope.
Local Open Scope list_scope.
Set Warnings "-register-all".

(* ===================================================================== *)
(** * Data model *)
(* ===================================================================== *)

(** [class OrderStatus(Enum)] *)
Inductive OrderStatus :=
  | RECEIVED | PICKING | PICKED | PACKING | PACKED | SHIPPING | COMPLETED
  | CANCELLED.

Definition OrderStatus_value (s : OrderStatus) : string :=
  match s with
  | RECEIVED => "received"
  | PICKING => "picking"
  | PICKED => "picked"
  | PACKING => "packing"
  | PACKED => "packed"
  | SHIPPING => "shipping"
  | COMPLETED => "completed"
  | CANCELLED => "cancelled"
  end.

(** [class EventType(Enum)] *)
Inductive EventType :=
  | ORDER_CREATED | ORDER_STATUS_CHANGED | INVENTORY_UPDATED
  | WORKER_ASSIGNED | WORKER_RELEASED | RESOURCE_ALLOCATED
  | RESOURCE_RELEASED | SIMULATION_TICK | SYNC_REQUEST | CALIBRATION_TRIGGER.

Global Instance EventType_eq_dec : EqDecision EventType.
Proof. solve_decision. Defined.

(** The values stored in an event payload ([Dict[str, Any]]). *)
Inductive pyval :=
  | PNone
  | PInt (z : Z)
  | PFloat (q : Q)
  | PStr (s : string)
  | PTime (t : Z)
  | PList (l : list pyval)
  | PDict (d : gmap string pyval).

(** Python truthiness, as used by [if order_id:]. *)
Definition truthy (v : pyval) : bool :=
  match v with
  | PNone => false
  | PInt z => negb (z =? 0)%Z
  | PFloat q => negb (Qeq_bool q 0)
  | PStr s => negb (String.eqb s "")
  | PTime _ => true
  | PList l => negb (Nat.eqb (length l) 0)
  | PDict d => negb (Nat.eqb (size d) 0)
  end.

(** [v == s] for a string constant [s]. *)
Definition py_eq_str (v : pyval) (s : string) : bool :=
  match v with
  | PStr s' => String.eqb s' s
  | _ => false
  end.

(** [@dataclass class InventoryItem]; the float [unit_cost] and the
    [last_updated] time are carried along, no operation below reads them. *)
Record InventoryItem := mkInventoryItem {
  item_sku : string;
  item_name : string;
  item_quantity : Z;
  item_location : string;
  item_min_stock : Z;
  item_max_stock : Z;
  item_unit_cost : Q;
  item_last_updated : Z
}.

(** [@dataclass class OrderLine] *)
Record OrderLine := mkOrderLine {
  line_sku : string;
  line_quantity : Z;
  line_picked_quantity : Z;
  line_location : option string
}.

(** [@dataclass class Order] *)
Record Order := mkOrder {
  order_id : string;
  customer_id : string;
  lines : list OrderLine;
  status : OrderStatus;
  created_at : Z;
  completed_at : option Z;
  priority : Z;
  pick_start_time : option Q;
  pick_end_time : option Q;
  pack_start_time : option Q;
  pack_end_time : option Q
}.

Definition sumZ (l : list Z) : Z := foldr Z.add 0%Z l.

(** [Order.total_items] *)
Definition total_items (o : Order) : Z := sumZ (line_quantity <$> lines o).

(** [Order.picked_items] *)
Definition picked_items (o : Order) : Z :=
  sumZ (line_picked_quantity <$> lines o).

(** [Order.is_fully_picked] *)
Definition is_fully_picked (o : Order) : bool :=
  forallb (fun l => (line_quantity l <=? line_picked_quantity l)%Z) (lines o).

(** [@dataclass class WarehouseEvent] *)
Record WarehouseEvent := mkWarehouseEvent {
  event_id : string;
  event_type : EventType;
  timestamp : Z;
  data : gmap string pyval;
  source : string;
  processed : bool
}.

(** [@dataclass class SimulationConfig] *)
Record SimulationConfig := mkSimulationConfig {
  simulation_time : Q;
  time_unit : string;
  random_seed : Z;
  num_storage_locations : nat;
  num_workers : nat;
  num_forklifts : nat;
  pick_time_mean : Q;
  pick_time_std : Q;
  pack_time_mean : Q;
  pack_time_std : Q;
  transport_time_mean : Q;
  transport_time_std : Q;
  order_arrival_rate : Q;
  items_per_order_mean : Q;
  items_per_order_std : Q;
  erp_sync_interval : Q;
  event_buffer_size : nat;
  sync_threshold : Q;
  calibration_window : Z
}.

(** The defaults of the dataclass. *)
Definition default_config : SimulationConfig :=
  {| simulation_time := 480; time_unit := "minutes"; random_seed := 42;
     num_storage_locations := 100; num_workers := 5; num_forklifts := 2;
     pick_time_mean := 2; pick_time_std := 0.5;
     pack_time_mean := 3; pack_time_std := 0.8;
     transport_time_mean := 1.5; transport_time_std := 0.3;
     order_arrival_rate := 5;
     items_per_order_mean := 3; items_per_order_std := 1.5;
     erp_sync_interval := 60; event_buffer_size := 1000;
     sync_threshold := 0.05; calibration_window := 100 |}.

(* ===================================================================== *)
(** * The event buffer: [deque(maxlen=config.event_buffer_size)] *)
(* ===================================================================== *)

(** [deque.append] on a bounded deque: the item goes to the right end and,
    when the deque is then longer than [maxlen], the leftmost item is
    dropped. *)
Definition deque_append {A} (maxlen : nat) (d : list A) (x : A) : list A :=
  let d' := d ++ [x] in
  if (maxlen <? length d')%nat then tail d' else d'.

(** [f"{n:0wd}"] for [n >= 0]: decimal, padded with zeros on the left to
    [w] characters. *)
Definition format_0d (w n : nat) : string :=
  let s := pretty n in
  String.concat "" (replicate (w - String.length s) "0") +:+ s.

Definition format_06d : nat -> string := format_0d 6.

(** The event built by [_record_event]; [now] is [datetime.now()]. *)
Definition new_event (buf : list WarehouseEvent) (ty : EventType)
    (now : Z) (d : gmap string pyval) : WarehouseEvent :=
  {| event_id := "DT-" +:+ format_06d (length buf);
     event_type := ty;
     timestamp := now;
     data := d;
     source := "simulation";
     processed := false |}.

(** [WarehouseDigitalTwin._record_event] *)
Definition _record_event (cfg : SimulationConfig) (buf : list WarehouseEvent)
    (ty : EventType) (now : Z) (d : gmap string pyval) : list WarehouseEvent :=
  deque_append (event_buffer_size cfg) buf (new_event buf ty now d).

(** A call of [_record_event]: its arguments and the clock reading. *)
Definition record_call : Type := EventType * Z * gmap string pyval.

(** Successive calls of [_record_event], left to right. *)
Definition record_events (cfg : SimulationConfig)
    (buf : list WarehouseEvent) (calls : list record_call)
    : list WarehouseEvent :=
  foldl (fun b c => _record_event cfg b c.1.1 c.1.2 c.2) buf calls.

(** The identifiers given to the events of successive calls, in call order
    (evicted events included). *)
Fixpoint assigned_ids (cfg : SimulationConfig) (buf : list WarehouseEvent)
    (calls : list record_call) : list string :=
  match calls with
  | [] => []
  | c :: cs =>
      event_id (new_event buf c.1.1 c.1.2 c.2)
      :: assigned_ids cfg (_record_event cfg buf c.1.1 c.1.2 c.2) cs
  end.


(** The events built by successive calls, in call order (evicted events
    included). *)
Fixpoint created_events (cfg : SimulationConfig) (buf : list WarehouseEvent)
    (calls : list record_call) : list WarehouseEvent :=
  match calls with
  | [] => []
  | c :: cs =>
      new_event buf c.1.1 c.1.2 c.2
      :: created_events cfg (_record_event cfg buf c.1.1 c.1.2 c.2) cs
  end.

(* ===================================================================== *)
(** * The drift monitor: [calculate_sync_drift] *)
(* ===================================================================== *)

(** What the twin sees of its [ERPAdapterPort]: the [connected] attribute
    and the mapping returned by [fetch_inventory()]. *)
Record ERPAdapter := mkERPAdapter {
  connected : bool;
  fetch_inventory : gmap string InventoryItem
}.

(** One iteration of [for sku, dt_item in self.inventory.items()], on the
    pair [(total_diff, total_items)]. *)
Definition drift_step (erp_inventory : gmap string InventoryItem)
    (acc : Z * Z) (entry : string * InventoryItem) : Z * Z :=
  match erp_inventory !! entry.1 with
  | Some erp_item =>
      let erp_qty := item_quantity erp_item in
      let dt_qty := item_quantity entry.2 in
      (acc.1 + Z.abs (erp_qty - dt_qty),
       acc.2 + Z.max (Z.max erp_qty dt_qty) 1)%Z
  | None => acc
  end.

(** The loop of [calculate_sync_drift] over the items of the twin's
    inventory. *)
Definition drift_totals (erp_inventory : gmap string InventoryItem)
    (items : list (string * InventoryItem)) : Z * Z :=
  foldl (drift_step erp_inventory) (0, 0)%Z items.

(** [total_diff / total_items if total_items > 0 else 0.0] *)
Definition drift_ratio (totals : Z * Z) : Q :=
  if (0 <? totals.2)%Z then (inject_Z totals.1 / inject_Z totals.2)%Q
  else 0%Q.

(** [WarehouseDigitalTwin.calculate_sync_drift]: the returned drift and the
    event buffer after the call. *)
Definition calculate_sync_drift (cfg : SimulationConfig) (now : Z)
    (erp_adapter : ERPAdapter) (inventory : gmap string InventoryItem)
    (buf : list WarehouseEvent) : Q * list WarehouseEvent :=
  if negb (connected erp_adapter) then (1%Q, buf)
  else
    let erp_inventory := fetch_inventory erp_adapter in
    let drift := drift_ratio (drift_totals erp_inventory (map_to_list inventory)) in
    if Qlt_le_dec (sync_threshold cfg) drift then
      (drift,
       _record_event cfg buf CALIBRATION_TRIGGER now
         (<["drift" := PFloat drift]>
            (<["threshold" := PFloat (sync_threshold cfg)]> ∅)))
    else (drift, buf).

(* ===================================================================== *)
(** * Statistics on floats *)
(* ===================================================================== *)

Definition sumQ (l : list Q) : Q := foldr Qplus 0%Q l.

(** Float division: [ZeroDivisionError] when the divisor is zero. *)
Definition pydiv (a b : Q) : option Q :=
  if Qeq_bool b 0 then None else Some (a / b)%Q.

(** Truthiness of an [Optional[float]]: [None] and [0.0] are false. *)
Definition float_truthy (o : option Q) : bool :=
  match o with
  | Some q => negb (Qeq_bool q 0)
  | None => false
  end.

Definition Qmin_list (x : Q) (l : list Q) : Q := foldl Qmin x l.
Definition Qmax_list (x : Q) (l : list Q) : Q := foldl Qmax x l.

Global Instance Qle_rel_dec : RelDecision Qle.
Proof.
  intros x y. destruct (Qlt_le_dec y x) as [H | H].
  - right. apply Qlt_not_le, H.
  - left. exact H.
Defined.

(** [statistics.mean] of a non-empty list. *)
Definition mean (l : list Q) : Q :=
  (sumQ l / inject_Z (Z.of_nat (length l)))%Q.

(** [statistics.median] of a non-empty list. *)
Definition median (l : list Q) : Q :=
  let s := merge_sort Qle l in
  let n := length s in
  if Nat.even n
  then ((nth (n / 2 - 1) s 0 + nth (n / 2) s 0) / 2)%Q
  else nth (n / 2) s 0%Q.

(** [statistics.variance] of a list of at least two values. *)
Definition variance (l : list Q) : Q :=
  let m := mean l in
  (sumQ ((fun x => (x - m) * (x - m)) <$> l)
   / inject_Z (Z.of_nat (length l) - 1))%Q.

Section Float.

(** The float square root: [x ** 0.5] and [math.sqrt], on [x >= 0]. *)
Variable fsqrt : Q -> Q.

(** [statistics.stdev] of a list of at least two values. *)
Definition stdev (l : list Q) : Q := fsqrt (variance l).

(* ===================================================================== *)
(** * The metrics accumulator: [DigitalTwinMetrics] *)
(* ===================================================================== *)

Record DigitalTwinMetrics := mkDigitalTwinMetrics {
  orders_completed : Z;
  total_items_picked : Z;
  total_picking_time : Q;
  total_packing_time : Q;
  total_order_time : Q;
  order_times : list Q;
  pick_times : list Q;
  pack_times : list Q;
  items_per_order : list Z
}.

(** [DigitalTwinMetrics.__init__] *)
Definition new_metrics : DigitalTwinMetrics :=
  {| orders_completed := 0; total_items_picked := 0;
     total_picking_time := 0; total_packing_time := 0;
     total_order_time := 0;
     order_times := []; pick_times := []; pack_times := [];
     items_per_order := [] |}.

(** [DigitalTwinMetrics.record_order_completion] *)
Definition record_order_completion (m : DigitalTwinMetrics) (order : Order)
    (total_time : Q) : DigitalTwinMetrics :=
  let pick :=
    if float_truthy (pick_end_time order) && float_truthy (pick_start_time order)
    then Some (default 0 (pick_end_time order)
               - default 0 (pick_start_time order))%Q
    else None in
  let pack :=
    if float_truthy (pack_end_time order) && float_truthy (pack_start_time order)
    then Some (default 0 (pack_end_time order)
               - default 0 (pack_start_time order))%Q
    else None in
  {| orders_completed := orders_completed m + 1;
     total_items_picked := total_items_picked m + total_items order;
     total_picking_time :=
       match pick with
       | Some t => (total_picking_time m + t)%Q
       | None => total_picking_time m
       end;
     total_packing_time :=
       match pack with
       | Some t => (total_packing_time m + t)%Q
       | None => total_packing_time m
       end;
     total_order_time := (total_order_time m + total_time)%Q;
     order_times := order_times m ++ [total_time];
     pick_times := pick_times m ++ option_list pick;
     pack_times := pack_times m ++ option_list pack;
     items_per_order := items_per_order m ++ [total_items order] |}.

(** The four averages, each divided by [max(1, self.orders_completed)]. *)
Definition completed_floor (m : DigitalTwinMetrics) : Q :=
  inject_Z (Z.max 1 (orders_completed m)).

Definition avg_order_time (m : DigitalTwinMetrics) : Q :=
  (total_order_time m / completed_floor m)%Q.

Definition avg_items_per_order (m : DigitalTwinMetrics) : Q :=
  (inject_Z (total_items_picked m) / completed_floor m)%Q.

(** The entries of [summary] written before the throughput is computed. *)
Definition summary_base (m : DigitalTwinMetrics) : gmap string pyval :=
  let summary : gmap string pyval :=
    <["avg_items_per_order" := PFloat (avg_items_per_order m)]>
    (<["avg_packing_time" := PFloat (total_packing_time m / completed_floor m)]>
    (<["avg_picking_time" := PFloat (total_picking_time m / completed_floor m)]>
    (<["avg_order_time" := PFloat (avg_order_time m)]>
    (<["total_items_picked" := PInt (total_items_picked m)]>
    (<["orders_completed" := PInt (orders_completed m)]> ∅))))) in
  match order_times m with
  | [] => summary
  | t :: ts =>
      <["order_time_median" := PFloat (median (t :: ts))]>
      (<["order_time_max" := PFloat (Qmax_list t ts)]>
      (<["order_time_min" := PFloat (Qmin_list t ts)]>
      (<["order_time_std" :=
           if (1 <? length (t :: ts))%nat then PFloat (stdev (t :: ts))
           else PInt 0]> summary)))
  end.

(** The guard of the throughput entries:
    [self.orders_completed > 0 and self.order_times]. *)
Definition throughput_guard (m : DigitalTwinMetrics) : bool :=
  (0 <? orders_completed m)%Z && negb (Nat.eqb (length (order_times m)) 0).

(** [DigitalTwinMetrics.get_summary]; [None] is [ZeroDivisionError]. *)
Definition get_summary (m : DigitalTwinMetrics)
    : option (gmap string pyval) :=
  let summary := summary_base m in
  if throughput_guard m then
    match pydiv 60 (avg_order_time m) with
    | Some throughput =>
        Some (<["throughput_items_per_hour" :=
                  PFloat (throughput * avg_items_per_order m)]>
              (<["throughput_orders_per_hour" := PFloat throughput]> summary))
    | None => None
    end
  else Some summary.

(* ===================================================================== *)
(** * The calibration engine: [calibrate_from_erp_logs] *)
(* ===================================================================== *)

(** The payload values that can be keys of a [dict]. A float that is a
    whole number hashes and compares as that [int]. *)
Inductive pykey :=
  | KNone
  | KInt (z : Z)
  | KStr (s : string)
  | KFrac (n : Z) (d : positive)
  | KTime (t : Z).

Global Instance pykey_eq_dec : EqDecision pykey.
Proof. solve_decision. Defined.

Definition pykey_encode (k : pykey)
    : unit + Z + string + (Z * positive) + Z :=
  match k with
  | KNone => inl (inl (inl (inl ())))
  | KInt z => inl (inl (inl (inr z)))
  | KStr s => inl (inl (inr s))
  | KFrac n d => inl (inr (n, d))
  | KTime t => inr t
  end.

Definition pykey_decode (x : unit + Z + string + (Z * positive) + Z)
    : pykey :=
  match x with
  | inl (inl (inl (inl _))) => KNone
  | inl (inl (inl (inr z))) => KInt z
  | inl (inl (inr s)) => KStr s
  | inl (inr (n, d)) => KFrac n d
  | inr t => KTime t
  end.

Global Instance pykey_countable : Countable pykey.
Proof.
  apply (inj_countable' pykey_encode pykey_decode).
  intros []; reflexivity.
Defined.

(** Using a payload value as a key; [None] is [TypeError: unhashable type]
    for a [list] or a [dict]. *)
Definition as_key (v : pyval) : option pykey :=
  match v with
  | PNone => Some KNone
  | PInt z => Some (KInt z)
  | PFloat q =>
      let r := Qred q in
      Some (if Pos.eqb (Qden r) 1 then KInt (Qnum r)
            else KFrac (Qnum r) (Qden r))
  | PStr s => Some (KStr s)
  | PTime t => Some (KTime t)
  | PList _ | PDict _ => None
  end.

(** [event.data.get(name)] *)
Definition data_get (event : WarehouseEvent) (name : string) : pyval :=
  default PNone (data event !! name).

(** [(t1 - t0).total_seconds() / 60] on two datetimes. *)
Definition minutes_between (t1 t0 : Z) : Q :=
  (inject_Z (t1 - t0) / 1000000 / 60)%Q.

(** The local variables of the scan. *)
Record calib_state := mkCalibState {
  cal_pick_times : list Q;
  cal_pack_times : list Q;
  cal_order_times : list Q;
  order_starts : gmap pykey Z;
  order_picks : gmap pykey Z;
  order_packs : gmap pykey Z
}.

Definition calib_init : calib_state :=
  {| cal_pick_times := []; cal_pack_times := []; cal_order_times := [];
     order_starts := ∅; order_picks := ∅; order_packs := ∅ |}.

(** The body of [for event in erp_events]. *)
Definition calib_step (st : calib_state) (event : WarehouseEvent)
    : option calib_state :=
  if decide (event_type event = ORDER_CREATED) then
    let order_id := data_get event "order_id" in
    if truthy order_id then
      k ← as_key order_id;
      Some {| cal_pick_times := cal_pick_times st;
              cal_pack_times := cal_pack_times st;
              cal_order_times := cal_order_times st;
              order_starts := <[k := timestamp event]> (order_starts st);
              order_picks := order_picks st;
              order_packs := order_packs st |}
    else Some st
  else if decide (event_type event = ORDER_STATUS_CHANGED) then
    let order_id := data_get event "order_id" in
    let new_status := data_get event "new_status" in
    if truthy order_id && py_eq_str new_status (OrderStatus_value PICKED) then
      k ← as_key order_id;
      match order_starts st !! k with
      | Some t0 =>
          Some {| cal_pick_times :=
                    cal_pick_times st ++ [minutes_between (timestamp event) t0];
                  cal_pack_times := cal_pack_times st;
                  cal_order_times := cal_order_times st;
                  order_starts := order_starts st;
                  order_picks := <[k := timestamp event]> (order_picks st);
                  order_packs := order_packs st |}
      | None => Some st
      end
    else if truthy order_id && py_eq_str new_status (OrderStatus_value PACKED) then
      k ← as_key order_id;
      match order_picks st !! k with
      | Some t0 =>
          Some {| cal_pick_times := cal_pick_times st;
                  cal_pack_times :=
                    cal_pack_times st ++ [minutes_between (timestamp event) t0];
                  cal_order_times := cal_order_times st;
                  order_starts := order_starts st;
                  order_picks := order_picks st;
                  order_packs := <[k := timestamp event]> (order_packs st) |}
      | None => Some st
      end
    else if truthy order_id && py_eq_str new_status (OrderStatus_value COMPLETED) then
      k ← as_key order_id;
      match order_starts st !! k with
      | Some t0 =>
          Some {| cal_pick_times := cal_pick_times st;
                  cal_pack_times := cal_pack_times st;
                  cal_order_times :=
                    cal_order_times st ++ [minutes_between (timestamp event) t0];
                  order_starts := order_starts st;
                  order_picks := order_picks st;
                  order_packs := order_packs st |}
      | None => Some st
      end
    else Some st
  else Some st.

(** The scan of [calibrate_from_erp_logs], from a given state of its
    local variables. *)
Fixpoint calib_scan_from (st : calib_state) (erp_events : list WarehouseEvent)
    : option calib_state :=
  match erp_events with
  | [] => Some st
  | event :: rest => st' ← calib_step st event; calib_scan_from st' rest
  end.

Definition calib_scan (erp_events : list WarehouseEvent)
    : option calib_state :=
  calib_scan_from calib_init erp_events.

(** The [calibrated] dictionary built from the samples. *)
Definition calibrated_params (st : calib_state) : gmap string Q :=
  let calibrated : gmap string Q := ∅ in
  let calibrated :=
    match cal_pick_times st with
    | [] => calibrated
    | l =>
        <["pick_time_std" :=
            if (1 <? length l)%nat then stdev l else 0.5%Q]>
        (<["pick_time_mean" := mean l]> calibrated)
    end in
  match cal_pack_times st with
  | [] => calibrated
  | l =>
      <["pack_time_std" := if (1 <? length l)%nat then stdev l else 0.5%Q]>
      (<["pack_time_mean" := mean l]> calibrated)
  end.

(** An entry of [self.calibration_data]. *)
Record calibration_record := mkCalibrationRecord {
  cr_timestamp : Z;
  cr_num_events : nat;
  cr_calibrated_params : gmap string Q
}.

(** [setattr(self.config, key, value)] for the keys of [calibrated]. *)
Definition apply_calibration (cfg : SimulationConfig)
    (calibrated : gmap string Q) : SimulationConfig :=
  {| simulation_time := simulation_time cfg;
     time_unit := time_unit cfg;
     random_seed := random_seed cfg;
     num_storage_locations := num_storage_locations cfg;
     num_workers := num_workers cfg;
     num_forklifts := num_forklifts cfg;
     pick_time_mean :=
       default (pick_time_mean cfg) (calibrated !! "pick_time_mean");
     pick_time_std :=
       default (pick_time_std cfg) (calibrated !! "pick_time_std");
     pack_time_mean :=
       default (pack_time_mean cfg) (calibrated !! "pack_time_mean");
     pack_time_std :=
       default (pack_time_std cfg) (calibrated !! "pack_time_std");
     transport_time_mean := transport_time_mean cfg;
     transport_time_std := transport_time_std cfg;
     order_arrival_rate := order_arrival_rate cfg;
     items_per_order_mean := items_per_order_mean cfg;
     items_per_order_std := items_per_order_std cfg;
     erp_sync_interval := erp_sync_interval cfg;
     event_buffer_size := event_buffer_size cfg;
     sync_threshold := sync_threshold cfg;
     calibration_window := calibration_window cfg |}.

(** [WarehouseDigitalTwin.calibrate_from_erp_logs]: the returned
    dictionary, the configuration and the calibration history after the
    call. [now] is [datetime.now()]. *)
Definition calibrate_from_erp_logs (cfg : SimulationConfig)
    (calibration_data : list calibration_record) (now : Z)
    (erp_events : list WarehouseEvent)
    : option (gmap string Q * SimulationConfig * list calibration_record) :=
  st ← calib_scan erp_events;
  let calibrated := calibrated_params st in
  Some (calibrated,
        apply_calibration cfg calibrated,
        calibration_data
          ++ [ {| cr_timestamp := now;
                  cr_num_events := length erp_events;
                  cr_calibrated_params := calibrated |} ]).

(** ** The samples of the scan, read off the input sequence *)

(** The key of the order an [ORDER_CREATED] event creates, if any. *)
Definition created_key (event : WarehouseEvent) : option pykey :=
  if decide (event_type event = ORDER_CREATED) then
    if truthy (data_get event "order_id")
    then as_key (data_get event "order_id") else None
  else None.

(** The key of the order an [ORDER_STATUS_CHANGED] event reports as
    picked, if any. *)
Definition picked_key (event : WarehouseEvent) : option pykey :=
  if decide (event_type event = ORDER_STATUS_CHANGED) then
    if truthy (data_get event "order_id")
       && py_eq_str (data_get event "new_status") (OrderStatus_value PICKED)
    then as_key (data_get event "order_id") else None
  else None.

(** The timestamp of the latest created event of order [k] in a prefix of
    the input. *)
Definition last_created (k : pykey) (prefix : list WarehouseEvent)
    : option Z :=
  last (timestamp <$>
        filter (fun event => created_key event = Some k) prefix).

(** The pick sample contributed by [event], which comes after [prefix]. *)
Definition pick_sample_of (prefix : list WarehouseEvent)
    (event : WarehouseEvent) : list Q :=
  match picked_key event with
  | Some k =>
      match last_created k prefix with
      | Some t0 => [minutes_between (timestamp event) t0]
      | None => []
      end
  | None => []
  end.

(** One sample for every picked event that has a created event of its
    order before it in the input. *)
Definition pick_samples_spec (erp_events : list WarehouseEvent) : list Q :=
  flat_map
    (fun i =>
       match erp_events !! i with
       | Some event => pick_sample_of (take i erp_events) event
       | None => []
       end)
    (seq 0 (length erp_events)).

(** The order ids that occur in the input, each once. *)
Definition input_order_ids (erp_events : list WarehouseEvent)
    : list pykey :=
  remove_dups (omap (fun event => as_key (data_get event "order_id"))
                    erp_events).

(** The statement that the scan keeps at most one pick sample per order
    id of its input. *)
Definition at_most_one_pick_sample_per_order
    (erp_events : list WarehouseEvent) : Prop :=
  forall st, calib_scan erp_events = Some st ->
    (length (cal_pick_times st) <= length (input_order_ids erp_events))%nat.

(* ===================================================================== *)
(** * Resource pools: [simpy.Resource] *)
(* ===================================================================== *)

(** A logical process, named by the scheduler. *)
Definition pid : Set := nat.

(** Modelled from the spec: the resource pool ([simpy.Resource], which is
    not part of the sources). A pool has a fixed capacity, the processes
    that hold a token, in the order they got it, and the FIFO queue of the
    processes waiting for one; the in-use count is the number of holders. *)
Record pool := mkPool {
  capacity : nat;
  users : list pid;
  queue : list pid
}.

(** Modelled from the spec: the in-use count of a pool. *)
Definition in_use (r : pool) : nat := length (users r).

(** Modelled from the spec: a new pool ([simpy.Resource(env, capacity)]),
    nothing in use and nobody waiting. *)
Definition new_pool (c : nat) : pool :=
  {| capacity := c; users := []; queue := [] |}.

(** Modelled from the spec: [acquire()] gives a token at once when
    [in_use < capacity], incrementing in-use; otherwise the requesting
    process is enqueued and suspended. *)
Definition acquire (r : pool) (h : pid) : pool :=
  if (in_use r <? capacity r)%nat
  then {| capacity := capacity r; users := users r ++ [h]; queue := queue r |}
  else {| capacity := capacity r; users := users r; queue := queue r ++ [h] |}.

(** Taking the first occurrence of [h] out of a list ([list.remove]);
    [None] when [h] does not occur. *)
Fixpoint list_remove (h : pid) (l : list pid) : option (list pid) :=
  match l with
  | [] => None
  | x :: k =>
      if decide (x = h) then Some k else cons x <$> list_remove h k
  end.

(** Modelled from the spec: [release(token)] decrements in-use and, when
    the wait queue is not empty, grants the freed slot to the head waiter.
    A process that holds no token has nothing to release. *)
Definition release (r : pool) (h : pid) : pool :=
  match list_remove h (users r) with
  | Some rest =>
      match queue r with
      | [] => {| capacity := capacity r; users := rest; queue := [] |}
      | w :: ws =>
          {| capacity := capacity r; users := rest ++ [w]; queue := ws |}
      end
  | None => r
  end.

(** Modelled from the spec: the processes that receive a token by an
    operation, in the order they receive it. *)
Definition granted_by_acquire (r : pool) (h : pid) : list pid :=
  if (in_use r <? capacity r)%nat then [h] else [].

Definition granted_by_release (r : pool) (h : pid) : list pid :=
  match list_remove h (users r), queue r with
  | Some _, w :: _ => [w]
  | _, _ => []
  end.

(** An operation on a pool, by the process [h]. *)
Inductive pool_op :=
  | Acquire (h : pid)
  | Release (h : pid).

Definition pool_apply (r : pool) (op : pool_op) : pool :=
  match op with
  | Acquire h => acquire r h
  | Release h => release r h
  end.

Definition granted_by (r : pool) (op : pool_op) : list pid :=
  match op with
  | Acquire h => granted_by_acquire r h
  | Release h => granted_by_release r h
  end.

(** A sequence of operations, left to right. *)
Definition pool_run (r : pool) (ops : list pool_op) : pool :=
  foldl pool_apply r ops.

(** The processes granted a token during [ops], in grant order. *)
Fixpoint grants (r : pool) (ops : list pool_op) : list pid :=
  match ops with
  | [] => []
  | op :: rest => granted_by r op ++ grants (pool_apply r op) rest
  end.

(** The waiters resumed during [ops]: those granted by a release. *)
Fixpoint resumed (r : pool) (ops : list pool_op) : list pid :=
  match ops with
  | [] => []
  | Acquire h :: rest => resumed (acquire r h) rest
  | Release h :: rest => granted_by_release r h ++ resumed (release r h) rest
  end.

(** The processes that asked for a token during [ops], in request order. *)
Definition requests (ops : list pool_op) : list pid :=
  omap (fun op => match op with Acquire h => Some h | Release _ => None end)
       ops.

(** The processes that had to wait during [ops], in request order. *)
Fixpoint suspended (r : pool) (ops : list pool_op) : list pid :=
  match ops with
  | [] => []
  | Acquire h :: rest =>
      (if (in_use r <? capacity r)%nat then [] else [h])
      ++ suspended (acquire r h) rest
  | Release h :: rest => suspended (release r h) rest
  end.

(** Modelled from the spec: the two facts that every operation keeps: no more holders than the
    capacity, and nobody waits while a token is free. *)
Definition pool_ok (r : pool) : Prop :=
  (in_use r <= capacity r)%nat
  /\ (queue r = [] \/ (capacity r <= in_use r)%nat).

(* ===================================================================== *)
(** * The twin and its processes *)
(* ===================================================================== *)

(** A reference to an [Order] object. The generator, [active_orders], the
    fulfilment process and [completed_orders] share the object. *)
Definition oref : Set := nat.

(** The suspension points of [order_process]: the [yield] it is stopped
    at. A timeout carries the virtual time it ends at; [i] is the index of
    the current line in [for line in order.lines]. *)
Inductive pc :=
  | AtStart
  | AwaitWorkerPick
  | AwaitForklift (i : nat)
  | AwaitTravel (i : nat) (wake : Q)
  | AwaitPick (i : nat) (wake : Q)
  | AwaitWorkerPack
  | AwaitPack (wake : Q)
  | AwaitShip (wake : Q).

(** A running [order_process(order)]: its argument, where it is stopped,
    and its local [order_start]. *)
Record process := mkProcess {
  proc_order : oref;
  proc_pc : pc;
  proc_order_start : Q
}.

(** [WarehouseDigitalTwin], with SimPy present ([self.env] is not [None]).
    [env_now] is [self.env.now]; [heap] holds the order objects;
    [procs] are the fulfilment processes the environment knows;
    [order_count] is the local counter of [order_generator].
    [orders_queue], which [_sync_from_erp] fills and nothing reads, is left
    out; [calibration_data] is an argument of [calibrate_from_erp_logs]. *)
Record twin := mkTwin {
  config : SimulationConfig;
  env_now : Q;
  workers : pool;
  forklifts : pool;
  inventory : gmap string InventoryItem;
  heap : gmap oref Order;
  next_ref : oref;
  active_orders : gmap string oref;
  completed_orders : list oref;
  metrics : DigitalTwinMetrics;
  event_buffer : list WarehouseEvent;
  procs : gmap pid process;
  next_pid : pid;
  order_count : nat
}.

Definition set_env_now (v : Q) (s : twin) : twin :=
  mkTwin (config s) v (workers s) (forklifts s) (inventory s) (heap s)
    (next_ref s) (active_orders s) (completed_orders s) (metrics s)
    (event_buffer s) (procs s) (next_pid s) (order_count s).
Definition set_workers (v : pool) (s : twin) : twin :=
  mkTwin (config s) (env_now s) v (forklifts s) (inventory s) (heap s)
    (next_ref s) (active_orders s) (completed_orders s) (metrics s)
    (event_buffer s) (procs s) (next_pid s) (order_count s).
Definition set_forklifts (v : pool) (s : twin) : twin :=
  mkTwin (config s) (env_now s) (workers s) v (inventory s) (heap s)
    (next_ref s) (active_orders s) (completed_orders s) (metrics s)
    (event_buffer s) (procs s) (next_pid s) (order_count s).
Definition set_inventory (v : gmap string InventoryItem) (s : twin) : twin :=
  mkTwin (config s) (env_now s) (workers s) (forklifts s) v (heap s)
    (next_ref s) (active_orders s) (completed_orders s) (metrics s)
    (event_buffer s) (procs s) (next_pid s) (order_count s).
Definition set_heap (v : gmap oref Order) (s : twin) : twin :=
  mkTwin (config s) (env_now s) (workers s) (forklifts s) (inventory s) v
    (next_ref s) (active_orders s) (completed_orders s) (metrics s)
    (event_buffer s) (procs s) (next_pid s) (order_count s).
Definition set_next_ref (v : oref) (s : twin) : twin :=
  mkTwin (config s) (env_now s) (workers s) (forklifts s) (inventory s)
    (heap s) v (active_orders s) (completed_orders s) (metrics s)
    (event_buffer s) (procs s) (next_pid s) (order_count s).
Definition set_active_orders (v : gmap string oref) (s : twin) : twin :=
  mkTwin (config s) (env_now s) (workers s) (forklifts s) (inventory s)
    (heap s) (next_ref s) v (completed_orders s) (metrics s)
    (event_buffer s) (procs s) (next_pid s) (order_count s).
Definition set_completed_orders (v : list oref) (s : twin) : twin :=
  mkTwin (config s) (env_now s) (workers s) (forklifts s) (inventory s)
    (heap s) (next_ref s) (active_orders s) v (metrics s)
    (event_buffer s) (procs s) (next_pid s) (order_count s).
Definition set_metrics (v : DigitalTwinMetrics) (s : twin) : twin :=
  mkTwin (config s) (env_now s) (workers s) (forklifts s) (inventory s)
    (heap s) (next_ref s) (active_orders s) (completed_orders s) v
    (event_buffer s) (procs s) (next_pid s) (order_count s).
Definition set_event_buffer (v : list WarehouseEvent) (s : twin) : twin :=
  mkTwin (config s) (env_now s) (workers s) (forklifts s) (inventory s)
    (heap s) (next_ref s) (active_orders s) (completed_orders s) (metrics s)
    v (procs s) (next_pid s) (order_count s).
Definition set_procs (v : gmap pid process) (s : twin) : twin :=
  mkTwin (config s) (env_now s) (workers s) (forklifts s) (inventory s)
    (heap s) (next_ref s) (active_orders s) (completed_orders s) (metrics s)
    (event_buffer s) v (next_pid s) (order_count s).
Definition set_next_pid (v : pid) (s : twin) : twin :=
  mkTwin (config s) (env_now s) (workers s) (forklifts s) (inventory s)
    (heap s) (next_ref s) (active_orders s) (completed_orders s) (metrics s)
    (event_buffer s) (procs s) v (order_count s).
Definition set_order_count (v : nat) (s : twin) : twin :=
  mkTwin (config s) (env_now s) (workers s) (forklifts s) (inventory s)
    (heap s) (next_ref s) (active_orders s) (completed_orders s) (metrics s)
    (event_buffer s) (procs s) (next_pid s) v.

(** Assignments to the attributes of an order. *)
Definition set_status (v : OrderStatus) (o : Order) : Order :=
  mkOrder (order_id o) (customer_id o) (lines o) v (created_at o)
    (completed_at o) (priority o) (pick_start_time o) (pick_end_time o)
    (pack_start_time o) (pack_end_time o).
Definition set_lines (v : list OrderLine) (o : Order) : Order :=
  mkOrder (order_id o) (customer_id o) v (status o) (created_at o)
    (completed_at o) (priority o) (pick_start_time o) (pick_end_time o)
    (pack_start_time o) (pack_end_time o).
Definition set_completed_at (v : option Z) (o : Order) : Order :=
  mkOrder (order_id o) (customer_id o) (lines o) (status o) (created_at o)
    v (priority o) (pick_start_time o) (pick_end_time o)
    (pack_start_time o) (pack_end_time o).
Definition set_pick_start_time (v : option Q) (o : Order) : Order :=
  mkOrder (order_id o) (customer_id o) (lines o) (status o) (created_at o)
    (completed_at o) (priority o) v (pick_end_time o)
    (pack_start_time o) (pack_end_time o).
Definition set_pick_end_time (v : option Q) (o : Order) : Order :=
  mkOrder (order_id o) (customer_id o) (lines o) (status o) (created_at o)
    (completed_at o) (priority o) (pick_start_time o) v
    (pack_start_time o) (pack_end_time o).
Definition set_pack_start_time (v : option Q) (o : Order) : Order :=
  mkOrder (order_id o) (customer_id o) (lines o) (status o) (created_at o)
    (completed_at o) (priority o) (pick_start_time o) (pick_end_time o)
    v (pack_end_time o).
Definition set_pack_end_time (v : option Q) (o : Order) : Order :=
  mkOrder (order_id o) (customer_id o) (lines o) (status o) (created_at o)
    (completed_at o) (priority o) (pick_start_time o) (pick_end_time o)
    (pack_start_time o) v.

(** [line.picked_quantity = line.quantity] *)
Definition pick_all (l : OrderLine) : OrderLine :=
  {| line_sku := line_sku l; line_quantity := line_quantity l;
     line_picked_quantity := line_quantity l;
     line_location := line_location l |}.

(** [item.quantity -= n] *)
Definition take_stock (n : Z) (item : InventoryItem) : InventoryItem :=
  mkInventoryItem (item_sku item) (item_name item) (item_quantity item - n)
    (item_location item) (item_min_stock item) (item_max_stock item)
    (item_unit_cost item) (item_last_updated item).

(** An assignment through a reference to an order. *)
Definition update_order (r : oref) (f : Order -> Order) (s : twin) : twin :=
  set_heap (alter f r (heap s)) s.

Definition set_proc (p : pid) (pr : process) (s : twin) : twin :=
  set_procs (<[p := pr]> (procs s)) s.

(** [self._record_event(event_type, data)] in the twin. *)
Definition record_event (ty : EventType) (now : Z) (d : gmap string pyval)
    (s : twin) : twin :=
  set_event_buffer (_record_event (config s) (event_buffer s) ty now d) s.

(** [WarehouseDigitalTwin.__init__] followed by [_sync_from_erp]. *)
Definition init_twin (cfg : SimulationConfig) (erp_adapter : ERPAdapter)
    : twin :=
  {| config := cfg;
     env_now := 0;
     workers := new_pool (num_workers cfg);
     forklifts := new_pool (num_forklifts cfg);
     inventory :=
       if connected erp_adapter then fetch_inventory erp_adapter else ∅;
     heap := ∅; next_ref := 0;
     active_orders := ∅; completed_orders := [];
     metrics := new_metrics;
     event_buffer := [];
     procs := ∅; next_pid := 0;
     order_count := 0 |}.

(** [self._sample_time(mean, std)] with NumPy present:
    [max(0.1, np.random.normal(mean, std))]. [z] is the standard normal
    variate that the generator draws; a negative [std] is [ValueError]. *)
Definition _sample_time (mean std z : Q) : option Q :=
  if Qlt_le_dec std 0 then None else Some (Qmax 0.1 (mean + std * z))%Q.

(** [n ** 0.5] for an [int]. For a negative [n] Python gives a complex
    number, which the sampler rejects ([TypeError]). *)
Definition pow_half (n : Z) : option Q :=
  if (n <? 0)%Z then None else Some (fsqrt (inject_Z n)).

(** The payload of the status events of [order_process]. *)
Definition status_payload (o : Order) (st : OrderStatus) (now : Q)
    : gmap string pyval :=
  <["order_id" := PStr (order_id o)]>
  (<["status" := PStr (OrderStatus_value st)]>
  (<["sim_time" := PFloat now]> ∅)).

Definition at_pc (pr : process) (c : pc) : process :=
  mkProcess (proc_order pr) c (proc_order_start pr).

(** Lines 487-500: from the entry of [order_process] to
    [yield worker_req]. [wall k] is the [k]-th reading of [datetime.now()]
    during the resumption. *)
Definition seg_start (p : pid) (pr : process) (wall : nat -> Z) (s : twin)
    : option twin :=
  let now := env_now s in
  o ← heap s !! proc_order pr;
  let s := update_order (proc_order pr)
             (fun o => set_pick_start_time (Some now) (set_status PICKING o))
             s in
  let s := record_event ORDER_STATUS_CHANGED (wall 0%nat)
             (status_payload o PICKING now) s in
  let s := set_workers (acquire (workers s) p) s in
  Some (set_proc p (mkProcess (proc_order pr) AwaitWorkerPick now) s).

(** The head of [for line in order.lines] at index [i]: lines 507-510 when
    there is a line [i]; otherwise the exit of the worker [with] block and
    lines 537-545, up to the second [yield worker_req]. *)
Definition next_line (p : pid) (pr : process) (i : nat) (s : twin)
    : option twin :=
  let now := env_now s in
  o ← heap s !! proc_order pr;
  if (i <? length (lines o))%nat then
    let s := set_forklifts (acquire (forklifts s) p) s in
    Some (set_proc p (at_pc pr (AwaitForklift i)) s)
  else
    let s := set_workers (release (workers s) p) s in
    let s := update_order (proc_order pr)
               (fun o =>
                  set_pack_start_time (Some now)
                    (set_status PACKING
                       (set_pick_end_time (Some now)
                          (set_status PICKED o))))
               s in
    let s := set_workers (acquire (workers s) p) s in
    Some (set_proc p (at_pc pr AwaitWorkerPack) s).

(** Lines 501-510: the worker is assigned; the loop over the lines
    begins. *)
Definition seg_worker_assigned (p : pid) (pr : process) (wall : nat -> Z)
    (s : twin) : option twin :=
  let now := env_now s in
  o ← heap s !! proc_order pr;
  let s := record_event WORKER_ASSIGNED (wall 0%nat)
             (<["order_id" := PStr (order_id o)]>
              (<["sim_time" := PFloat now]> ∅)) s in
  next_line p pr 0 s.

(** Lines 512-517: the forklift is granted; travel to the location. *)
Definition seg_forklift_granted (p : pid) (pr : process) (i : nat) (z : Q)
    (s : twin) : option twin :=
  travel_time ← _sample_time (transport_time_mean (config s))
                             (transport_time_std (config s)) z;
  Some (set_proc p (at_pc pr (AwaitTravel i (env_now s + travel_time)%Q)) s).

(** Lines 519-524: the travel is over; pick the items of line [i]. *)
Definition seg_travelled (p : pid) (pr : process) (i : nat) (z : Q)
    (s : twin) : option twin :=
  o ← heap s !! proc_order pr;
  line ← lines o !! i;
  root ← pow_half (line_quantity line);
  pick_time ← _sample_time
                (pick_time_mean (config s) * inject_Z (line_quantity line))%Q
                (pick_time_std (config s) * root)%Q z;
  Some (set_proc p (at_pc pr (AwaitPick i (env_now s + pick_time)%Q)) s).

(** Lines 526-535 for line [i], the exit of the forklift [with] block, and
    the next turn of the loop. *)
Definition seg_picked (p : pid) (pr : process) (i : nat) (wall : nat -> Z)
    (s : twin) : option twin :=
  let now := env_now s in
  o ← heap s !! proc_order pr;
  line ← lines o !! i;
  let s := update_order (proc_order pr)
             (fun o => set_lines (<[i := pick_all line]> (lines o)) o) s in
  let s :=
    match inventory s !! line_sku line with
    | Some item =>
        let s := set_inventory
                   (<[line_sku line := take_stock (line_quantity line) item]>
                      (inventory s)) s in
        record_event INVENTORY_UPDATED (wall 0%nat)
          (<["sku" := PStr (line_sku line)]>
           (<["change" := PInt (- line_quantity line)]>
           (<["sim_time" := PFloat now]> ∅))) s
    | None => s
    end in
  let s := set_forklifts (release (forklifts s) p) s in
  next_line p pr (S i) s.

(** Lines 547-551: the worker is granted again; pack the order. *)
Definition seg_pack_start (p : pid) (pr : process) (z : Q) (s : twin)
    : option twin :=
  o ← heap s !! proc_order pr;
  root ← pow_half (total_items o);
  pack_time ← _sample_time
                (pack_time_mean (config s) * inject_Z (total_items o))%Q
                (pack_time_std (config s) * root)%Q z;
  Some (set_proc p (at_pc pr (AwaitPack (env_now s + pack_time)%Q)) s).

(** The exit of the second worker [with] block and lines 553-558. *)
Definition seg_packed (p : pid) (pr : process) (z : Q) (s : twin)
    : option twin :=
  let now := env_now s in
  let s := set_workers (release (workers s) p) s in
  let s := update_order (proc_order pr)
             (fun o =>
                set_status SHIPPING
                  (set_pack_end_time (Some now) (set_status PACKED o))) s in
  handoff ← _sample_time 1 0.2 z;
  Some (set_proc p (at_pc pr (AwaitShip (now + handoff)%Q)) s).

(** Lines 560-578: the order is completed and the process ends. *)
Definition seg_shipped (p : pid) (pr : process) (wall : nat -> Z) (s : twin)
    : option twin :=
  let now := env_now s in
  o ← heap s !! proc_order pr;
  let o := set_completed_at (Some (wall 0%nat)) (set_status COMPLETED o) in
  let s := set_heap (<[proc_order pr := o]> (heap s)) s in
  let total_time := (now - proc_order_start pr)%Q in
  let s := set_metrics (record_order_completion (metrics s) o total_time) s in
  let s := record_event ORDER_STATUS_CHANGED (wall 1%nat)
             (<["total_time" := PFloat total_time]>
                (status_payload o COMPLETED now)) s in
  let s := set_completed_orders (completed_orders s ++ [proc_order pr]) s in
  let s :=
    match active_orders s !! order_id o with
    | Some _ => set_active_orders (delete (order_id o) (active_orders s)) s
    | None => s
    end in
  Some (set_procs (delete p (procs s)) s).

(** The scheduler resumes process [p] at virtual time [now]: the code
    from the [yield] the process is stopped at to the next one. [None] is
    an exception raised by the code. *)
Definition resume (s : twin) (p : pid) (now : Q) (wall : nat -> Z) (z : Q)
    : option twin :=
  pr ← procs s !! p;
  let s := set_env_now now s in
  match proc_pc pr with
  | AtStart => seg_start p pr wall s
  | AwaitWorkerPick => seg_worker_assigned p pr wall s
  | AwaitForklift i => seg_forklift_granted p pr i z s
  | AwaitTravel i _ => seg_travelled p pr i z s
  | AwaitPick i _ => seg_picked p pr i wall s
  | AwaitWorkerPack => seg_pack_start p pr z s
  | AwaitPack _ => seg_packed p pr z s
  | AwaitShip _ => seg_shipped p pr wall s
  end.

(** When the scheduler may resume [p] at time [now]: the clock does not go
    back; a process that asked for a token holds it; a timeout has
    reached its end. *)
Definition enabled (s : twin) (p : pid) (now : Q) : bool :=
  match procs s !! p with
  | None => false
  | Some pr =>
      Qle_bool (env_now s) now &&
      match proc_pc pr with
      | AtStart => true
      | AwaitWorkerPick | AwaitWorkerPack =>
          bool_decide (p ∈ users (workers s))
      | AwaitForklift _ => bool_decide (p ∈ users (forklifts s))
      | AwaitTravel _ wake | AwaitPick _ wake | AwaitPack wake
      | AwaitShip wake => Qeq_bool now wake
      end
  end.

(** [Order.to_dict]. [PTime t] stands for the ISO text of the datetime
    [t]. *)
Definition Order_to_dict (o : Order) : gmap string pyval :=
  <["order_id" := PStr (order_id o)]>
  (<["customer_id" := PStr (customer_id o)]>
  (<["lines" :=
       PList ((fun l =>
                 PDict (<["sku" := PStr (line_sku l)]>
                        (<["quantity" := PInt (line_quantity l)]>
                        (<["picked" := PInt (line_picked_quantity l)]> ∅))))
              <$> lines o)]>
  (<["status" := PStr (OrderStatus_value (status o))]>
  (<["created_at" := PTime (created_at o)]>
  (<["completed_at" :=
       match completed_at o with Some t => PTime t | None => PNone end]>
  (<["priority" := PInt (priority o)]>
  (<["total_items" := PInt (total_items o)]>
  (<["picked_items" := PInt (picked_items o)]> ∅)))))))).

(** [self.env.process(self.order_process(order))]: a new process, stopped
    before its first statement. *)
Definition start_process (r : oref) (s : twin) : twin :=
  set_next_pid (S (next_pid s))
    (set_proc (next_pid s) (mkProcess r AtStart 0) s).

(** A new [Order] object. *)
Definition alloc_order (o : Order) (s : twin) : twin :=
  set_next_ref (S (next_ref s)) (set_heap (<[next_ref s := o]> (heap s)) s).

(** What the random generators hand to one turn of [order_generator]:
    the normal variate behind [num_items], the outcome of
    [random.sample], the outcomes of [random.randint(1, 3)] for the lines,
    of [random.randint(1, 100)] and of [random.randint(1, 5)]. *)
Record draws := mkDraws {
  draw_items : Q;
  draw_skus : list string;
  draw_quantities : list Z;
  draw_customer : nat;
  draw_priority : Z
}.

(** [[sku for sku, item in self.inventory.items() if item.quantity > 0]] *)
Definition available_skus (inventory : gmap string InventoryItem)
    : list string :=
  fst <$> filter (fun e => (0 < item_quantity e.2)%Z) (map_to_list inventory).

(** [max(1, int(self._sample_time(mean, std)))] *)
Definition num_items_of (cfg : SimulationConfig) (z : Q) : option Z :=
  t ← _sample_time (items_per_order_mean cfg) (items_per_order_std cfg) z;
  Some (Z.max 1 (Qfloor t)).

(** The draws are possible outcomes: [random.sample(available, k)] gives
    [k] distinct elements of [available], and the integers are in range. *)
Definition draws_possible (available : list string) (k : nat) (d : draws)
    : bool :=
  bool_decide (length (draw_skus d) = k)
  && bool_decide (NoDup (draw_skus d))
  && forallb (fun sku => bool_decide (sku ∈ available)) (draw_skus d)
  && bool_decide (length (draw_quantities d) = length (draw_skus d))
  && forallb (fun q => (1 <=? q)%Z && (q <=? 3)%Z) (draw_quantities d)
  && (1 <=? draw_customer d)%nat && (draw_customer d <=? 100)%nat
  && (1 <=? draw_priority d)%Z && (draw_priority d <=? 5)%Z.

(** One [OrderLine(sku=sku, quantity=..., location=inventory[sku].location)] *)
Definition make_line (inventory : gmap string InventoryItem)
    (sq : string * Z) : option OrderLine :=
  item ← inventory !! sq.1;
  Some {| line_sku := sq.1; line_quantity := sq.2;
          line_picked_quantity := 0;
          line_location := Some (item_location item) |}.

(** Lines 600-638: one turn of the loop of [order_generator], after its
    timeout. *)
Definition seg_arrival (d : draws) (wall : nat -> Z) (s : twin)
    : option twin :=
  let s := set_order_count (S (order_count s)) s in
  num_items ← num_items_of (config s) (draw_items d);
  let available := available_skus (inventory s) in
  match available with
  | [] => Some s
  | _ =>
      if draws_possible available
           (Nat.min (Z.to_nat num_items) (length available)) d
      then
        lines ← mapM (make_line (inventory s))
                     (zip (draw_skus d) (draw_quantities d));
        let order :=
          {| order_id := "SIM-" +:+ format_06d (order_count s);
             customer_id := "CUST-" +:+ format_0d 4 (draw_customer d);
             lines := lines;
             status := RECEIVED;
             created_at := wall 0%nat;
             completed_at := None;
             priority := draw_priority d;
             pick_start_time := None; pick_end_time := None;
             pack_start_time := None; pack_end_time := None |} in
        let r := next_ref s in
        let s := alloc_order order s in
        let s := set_active_orders (<[order_id order := r]> (active_orders s)) s in
        let s := record_event ORDER_CREATED (wall 1%nat) (Order_to_dict order) s in
        Some (start_process r s)
      else None
  end.

(** What can happen to the twin during a run: the scheduler resumes a
    fulfilment process, the generator wakes up, or a caller starts
    [order_process] on an order of its own. *)
Inductive action :=
  | Resume (p : pid) (now : Q) (wall : nat -> Z) (z : Q)
  | Arrive (now : Q) (wall : nat -> Z) (d : draws)
  | Spawn (o : Order).

(** One action; [None] when the action is not possible in [s] or the code
    raises. *)
Definition step (s : twin) (a : action) : option twin :=
  match a with
  | Resume p now wall z =>
      if enabled s p now then resume s p now wall z else None
  | Arrive now wall d =>
      if Qle_bool (env_now s) now
      then seg_arrival d wall (set_env_now now s)
      else None
  | Spawn o => Some (start_process (next_ref s) (alloc_order o s))
  end.

(** A run: a sequence of actions from a state. *)
Fixpoint run (s : twin) (tr : list action) : option twin :=
  match tr with
  | [] => Some s
  | a :: rest => s' ← step s a; run s' rest
  end.

(** The entries of the result of [run_simulation] that the run computes
    (lines 669-672): the number of completed orders, of orders in
    progress, of recorded events, and the metrics summary. *)
Definition simulation_results (s : twin)
    : nat * nat * nat * option (gmap string pyval) :=
  (length (completed_orders s), size (active_orders s),
   length (event_buffer s), get_summary (metrics s)).

(** ** Readings of the wall clock *)

(** An order without what it holds of the wall clock. *)
Definition scrub_order (o : Order) : Order :=
  mkOrder (order_id o) (customer_id o) (lines o) (status o) 0
    ((fun _ => 0%Z) <$> completed_at o) (priority o) (pick_start_time o)
    (pick_end_time o) (pack_start_time o) (pack_end_time o).

Definition blank_event : WarehouseEvent :=
  mkWarehouseEvent "" SIMULATION_TICK 0 ∅ "" false.

(** A twin without what it holds of the wall clock: the times of its
    orders, and the contents of its events. *)
Definition scrub (s : twin) : twin :=
  set_event_buffer (replicate (length (event_buffer s)) blank_event)
    (set_heap (scrub_order <$> heap s) s).

(** An action with a clock that stands still. *)
Definition scrub_action (a : action) : action :=
  match a with
  | Resume p now _ z => Resume p now (fun _ => 0%Z) z
  | Arrive now _ d => Arrive now (fun _ => 0%Z) d
  | Spawn o => Spawn (scrub_order o)
  end.

End Float.

(* ===================================================================== *)
(** * Invariants of a run *)
(* ===================================================================== *)

(** A line is picked in full. *)
Definition line_picked (l : OrderLine) : Prop :=
  line_picked_quantity l = line_quantity l.

(** The first [n] lines of an order are picked in full. *)
Definition picked_upto (n : nat) (o : Order) : Prop :=
  forall j l, (j < n)%nat -> lines o !! j = Some l -> line_picked l.

Definition all_picked (o : Order) : Prop := Forall line_picked (lines o).

(** The number of lines that a process stopped at [c] has gone through. *)
Definition progress (c : pc) (o : Order) : nat :=
  match c with
  | AtStart | AwaitWorkerPick => 0
  | AwaitForklift i | AwaitTravel i _ | AwaitPick i _ => i
  | AwaitWorkerPack | AwaitPack _ | AwaitShip _ => length (lines o)
  end.

(** A process refers to an order whose lines are picked as far as the
    process has got. *)
Definition proc_ok (h : gmap oref Order) (pr : process) : Prop :=
  exists o, h !! proc_order pr = Some o
            /\ picked_upto (progress (proc_pc pr) o) o.

(** The references from [next_ref] on are free; every process is
    [proc_ok]; every completed order is picked in full. *)
Definition twin_inv (s : twin) : Prop :=
  (forall r, (next_ref s <= r)%nat -> heap s !! r = None)
  /\ (forall p pr, procs s !! p = Some pr -> proc_ok (heap s) pr)
  /\ (forall r, r ∈ completed_orders s ->
        exists o, heap s !! r = Some o /\ all_picked o).

(** [o'] is [o] after some assignments of the fulfilment process: the
    same number of lines, and the lines that were picked are picked. *)
Definition order_le (o o' : Order) : Prop :=
  length (lines o') = length (lines o)
  /\ forall j l, lines o !! j = Some l -> line_picked l ->
       exists l', lines o' !! j = Some l' /\ line_picked l'.

Definition heap_le (h h' : gmap oref Order) : Prop :=
  forall r o, h !! r = Some o -> exists o', h' !! r = Some o' /\ order_le o o'.

(** The pools keep their configured capacities and are never over-used. *)
Definition pools_inv (s : twin) : Prop :=
  pool_ok (workers s) /\ capacity (workers s) = num_workers (config s)
  /\ pool_ok (forklifts s)
  /\ capacity (forklifts s) = num_forklifts (config s).

(** The event buffer of the twin is within its capacity. *)
Definition buffer_inv (s : twin) : Prop :=
  (length (event_buffer s) <= event_buffer_size (config s))%nat.

(* ===================================================================== *)
(** * Concrete inputs *)
(* ===================================================================== *)

(** A buffer of capacity two and four recorded events. *)
Definition small_buffer_config : SimulationConfig :=
  mkSimulationConfig 480 "minutes" 42 100 5 2 2 0.5 3 0.8 1.5 0.3 5 3 1.5 60
    2 0.05 100.

Definition four_calls : list record_call :=
  [ (ORDER_CREATED, 0%Z, ∅); (ORDER_STATUS_CHANGED, 1%Z, ∅);
    (WORKER_ASSIGNED, 2%Z, ∅); (INVENTORY_UPDATED, 3%Z, ∅) ].

(** An item of the mock adapter with a given stock. *)
Definition stock_item (sku : string) (qty : Z) : InventoryItem :=
  mkInventoryItem sku "Product 0" qty "A-00-00" 10 100 5 0.

(** The external system reports one unit of [SKU-0000]; the twin has
    picked three units from a stock of one. *)
Definition erp_one_left : ERPAdapter :=
  mkERPAdapter true {[ "SKU-0000" := stock_item "SKU-0000" 1 ]}.

Definition twin_oversold : gmap string InventoryItem :=
  {[ "SKU-0000" := stock_item "SKU-0000" (-2) ]}.

(** The twin and the external system agree on the SKU they share. *)
Definition erp_in_sync : ERPAdapter :=
  mkERPAdapter true
    (<["SKU-0000" := stock_item "SKU-0000" 40]>
       {[ "SKU-0009" := stock_item "SKU-0009" 7 ]}).

Definition twin_in_sync : gmap string InventoryItem :=
  <["SKU-0000" := stock_item "SKU-0000" 40]>
    {[ "SKU-0001" := stock_item "SKU-0001" 12 ]}.

(** An order of two lines, of two and three units. *)
Definition sample_order : Order :=
  {| order_id := "ORD-000001"; customer_id := "CUST-0001";
     lines := [ mkOrderLine "SKU-0000" 2 0 (Some "A-00-00");
                mkOrderLine "SKU-0001" 3 0 (Some "A-00-01") ];
     status := RECEIVED; created_at := 0; completed_at := None;
     priority := 1;
     pick_start_time := None; pick_end_time := None;
     pack_start_time := None; pack_end_time := None |}.

(** Events of the external system about one order. Times are in
    microseconds: one minute is [60000000]. *)
Definition erp_event (n : nat) (ty : EventType) (t : Z)
    (d : gmap string pyval) : WarehouseEvent :=
  mkWarehouseEvent ("EV-" +:+ pretty n) ty t d "erp" false.

Definition created_event (n : nat) (oid : string) (t : Z) : WarehouseEvent :=
  erp_event n ORDER_CREATED t {[ "order_id" := PStr oid ]}.

Definition status_event (n : nat) (oid : string) (st : OrderStatus) (t : Z)
    : WarehouseEvent :=
  erp_event n ORDER_STATUS_CHANGED t
    (<["order_id" := PStr oid]>
       {[ "new_status" := PStr (OrderStatus_value st) ]}).

(** One order, created once and reported picked twice, after three and
    after five minutes. *)
Definition picked_twice : list WarehouseEvent :=
  [ created_event 0 "CAL-0000" 0;
    status_event 1 "CAL-0000" PICKED 180000000;
    status_event 2 "CAL-0000" PICKED 300000000 ].

(** One order whose picked event carries a timestamp two minutes before
    the timestamp of its created event. *)
Definition picked_before_created : list WarehouseEvent :=
  [ created_event 0 "CAL-0000" 300000000;
    status_event 1 "CAL-0000" PICKED 180000000 ].

(** The trace of one order in the test of the calibration: created,
    picked after three minutes, packed after five, completed. *)
Definition one_order_trace : list WarehouseEvent :=
  [ created_event 0 "CAL-0000" 0;
    status_event 1 "CAL-0000" PICKED 180000000;
    status_event 2 "CAL-0000" PACKED 300000000;
    status_event 3 "CAL-0000" COMPLETED 330000000 ].

(** An order with a line whose SKU the inventory does not have. *)
Definition ghost_order : Order :=
  {| order_id := "ORD-000007"; customer_id := "CUST-0001";
     lines := [ mkOrderLine "SKU-0000" 2 0 (Some "A-00-00");
                mkOrderLine "GHOST" 3 0 None ];
     status := RECEIVED; created_at := 0; completed_at := None;
     priority := 1;
     pick_start_time := None; pick_end_time := None;
     pack_start_time := None; pack_end_time := None |}.

(** A stand-in for the square root and a clock, for running the model. *)
Definition id_sqrt (x : Q) : Q := x.
Definition tick (k : nat) : Z := Z.of_nat k.

(** The fulfilment of [ghost_order] in a twin in sync with the external
    system, every normal variate being zero: the process is started and
    resumed at each of its suspension points. *)
Definition ghost_run : list action :=
  [ Spawn ghost_order;
    Resume 0 0 tick 0; Resume 0 0 tick 0; Resume 0 0 tick 0;
    Resume 0 1.5 tick 0; Resume 0 5.5 tick 0; Resume 0 5.5 tick 0;
    Resume 0 7 tick 0; Resume 0 13 tick 0; Resume 0 13 tick 0;
    Resume 0 28 tick 0; Resume 0 29 tick 0 ].

(** The twin when the process is about to finish the pick of the line
    whose SKU is unknown. *)
Definition ghost_state : twin :=
  default (init_twin default_config erp_in_sync)
    (run id_sqrt (init_twin default_config erp_in_sync) (take 8 ghost_run)).

(* ===================================================================== *)
(** * Sequences of completions *)
(* ===================================================================== *)

(** Successive calls of [record_order_completion(order, total_time)] on
    one accumulator. *)
Definition record_completions (m : DigitalTwinMetrics)
    (calls : list (Order * Q)) : DigitalTwinMetrics :=
  foldl (fun m c => record_order_completion m c.1 c.2) m calls.

(* ===================================================================== *)
(** * The clock of a run *)
(* ===================================================================== *)




(** [ghost_run] again, on another day: the same decisions and draws, with
    a wall clock that reads later. *)
Definition late_tick (k : nat) : Z := (86400000000 + 7 * Z.of_nat k)%Z.

Definition set_wall (wall : nat -> Z) (a : action) : action :=
  match a with
  | Resume p now _ z => Resume p now wall z
  | Arrive now _ d => Arrive now wall d
  | Spawn o => Spawn o
  end.

Definition ghost_run_late : list action := set_wall late_tick <$> ghost_run.

(* ===================================================================== *)
(** * The twin's own events *)
(* ===================================================================== *)

(** An event as the twin records it during a run: its payload has no
    [new_status] entry, and what it has under [order_id] can be a key. *)
Definition twin_event (event : WarehouseEvent) : Prop :=
  data event !! "new_status" = None
  /\ is_Some (as_key (data_get event "order_id")).

Definition twin_events (s : twin) : Prop :=
  Forall twin_event (event_buffer s).

(* ===================================================================== *)
(** * The pack samples of the scan, read off the input sequence *)
(* ===================================================================== *)

(** What [f] gives for every element of a list and the elements before
    it, in order. *)
Definition prefix_flat_map {A B} (f : list A -> A -> list B) (l : list A)
    : list B :=
  flat_map
    (fun i => match l !! i with Some x => f (take i l) x | None => [] end)
    (seq 0 (length l)).

(** The key of the order an [ORDER_STATUS_CHANGED] event reports as
    packed, if any. *)
Definition packed_key (event : WarehouseEvent) : option pykey :=
  if decide (event_type event = ORDER_STATUS_CHANGED) then
    if truthy (data_get event "order_id")
       && py_eq_str (data_get event "new_status") (OrderStatus_value PACKED)
    then as_key (data_get event "order_id") else None
  else None.

(** The timestamps of the picked events of order [k] that come after a
    created event of [k]. *)
Definition counted_pick_times (k : pykey) (erp_events : list WarehouseEvent)
    : list Z :=
  prefix_flat_map
    (fun prefix event =>
       if decide (picked_key event = Some k) then
         match last_created k prefix with
         | Some _ => [timestamp event]
         | None => []
         end
       else [])
    erp_events.

Definition last_counted_pick (k : pykey) (prefix : list WarehouseEvent)
    : option Z :=
  last (counted_pick_times k prefix).

(** The pack sample contributed by [event], which comes after [prefix]. *)
Definition pack_sample_of (prefix : list WarehouseEvent)
    (event : WarehouseEvent) : list Q :=
  match packed_key event with
  | Some k =>
      match last_counted_pick k prefix with
      | Some t0 => [minutes_between (timestamp event) t0]
      | None => []
      end
  | None => []
  end.

(** One sample for every packed event that comes after a counted picked
    event of its order. *)
Definition pack_samples_spec (erp_events : list WarehouseEvent) : list Q :=
  prefix_flat_map pack_sample_of erp_events.

(** One order created, picked and packed; a second order reported packed
    without having been picked. *)
Definition two_order_trace : list WarehouseEvent :=
  [ created_event 0 "CAL-0000" 0;
    created_event 1 "CAL-0001" 0;
    status_event 2 "CAL-0000" PICKED 180000000;
    status_event 3 "CAL-0001" PACKED 240000000;
    status_event 4 "CAL-0000" PACKED 300000000 ].

(** ** Completion reports *)

(** Whether the scan takes [event] as the report that an order is
    completed. *)
Definition reports_completed (event : WarehouseEvent) : bool :=
  bool_decide (event_type event = ORDER_STATUS_CHANGED)
  && truthy (data_get event "order_id")
  && py_eq_str (data_get event "new_status") (OrderStatus_value COMPLETED).

(** The local variables of the scan without the samples of
    [order_times]. *)
Definition forget_order_times (st : calib_state) : calib_state :=
  {| cal_pick_times := cal_pick_times st;
     cal_pack_times := cal_pack_times st;
     cal_order_times := [];
     order_starts := order_starts st;
     order_picks := order_picks st;
     order_packs := order_packs st |}.

(** [two_order_trace] followed by the completion of its first order. *)
Definition completed_trace : list WarehouseEvent :=
  two_order_trace ++ [status_event 5 "CAL-0000" COMPLETED 360000000].

(* ===================================================================== *)
(** * The stock of a run *)
(* ===================================================================== *)

(** The quantities ordered, line by line. *)
Definition quantities (o : Order) : list Z := line_quantity <$> lines o.

(** The orders of [h] are in [h'] with the quantities they ask for. *)
Definition heap_qty (h h' : gmap oref Order) : Prop :=
  forall r o, h !! r = Some o ->
    exists o', h' !! r = Some o' /\ quantities o' = quantities o.

(** A process that waits for the end of the pick of line [i] has a line
    [i], of a quantity that is not negative. *)
Definition proc_qty_ok (h : gmap oref Order) (pr : process) : Prop :=
  match proc_pc pr with
  | AwaitPick i _ =>
      exists o line, h !! proc_order pr = Some o
                     /\ lines o !! i = Some line
                     /\ (0 <= line_quantity line)%Z
  | _ => True
  end.

Definition qty_inv (s : twin) : Prop :=
  forall p pr, procs s !! p = Some pr -> proc_qty_ok (heap s) pr.

(** [item'] is [item] with no more stock, and nothing else changed. *)
Definition item_le (item item' : InventoryItem) : Prop :=
  item_sku item' = item_sku item
  /\ item_name item' = item_name item
  /\ (item_quantity item' <= item_quantity item)%Z
  /\ item_location item' = item_location item
  /\ item_min_stock item' = item_min_stock item
  /\ item_max_stock item' = item_max_stock item
  /\ item_unit_cost item' = item_unit_cost item
  /\ item_last_updated item' = item_last_updated item.

(** [inv'] has the SKUs of [inv], each with no more stock. *)
Definition inventory_le (inv inv' : gmap string InventoryItem) : Prop :=
  forall sku, option_Forall2 item_le (inv !! sku) (inv' !! sku).

(* ===================================================================== *)
(** * Reading a decimal back *)
(* ===================================================================== *)

(** The value of a decimal digit. *)
Definition digit_of (c : Ascii.ascii) : N := (Ascii.N_of_ascii c - 48)%N.

(** [int(s)] on a string of decimal digits, from the accumulator
    [acc]. *)
Fixpoint parse_digits (s : string) (acc : N) : N :=
  match s with
  | EmptyString => acc
  | String c rest => parse_digits rest (acc * 10 + digit_of c)
  end.

(* ===================================================================== *)
(** * The mock adapter: [class MockERPAdapter] *)
(* ===================================================================== *)

Global Instance OrderStatus_eq_dec : EqDecision OrderStatus.
Proof. solve_decision. Defined.

(** A [Dict[str, V]] whose order matters: the entries in insertion
    order. *)
Fixpoint dict_get {V} (d : list (string * V)) (k : string) : option V :=
  match d with
  | [] => None
  | (k', v) :: rest => if decide (k' = k) then Some v else dict_get rest k
  end.

(** [d[k] = v]: an existing key keeps its place, a new key goes to the
    end. *)
Fixpoint dict_set {V} (k : string) (v : V) (d : list (string * V))
    : list (string * V) :=
  match d with
  | [] => [(k, v)]
  | (k', v') :: rest =>
      if decide (k' = k) then (k, v) :: rest
      else (k', v') :: dict_set k v rest
  end.

Module MockERPAdapter.

(** A reference to an [InventoryItem] object. *)
Abbreviation iref := nat (only parsing).

(** A subscriber, as the caller names it. *)
Abbreviation callback := nat (only parsing).

(** One call of [_emit_event]: the event, and the callbacks called with
    it, in order. The callbacks are taken to return. *)
Definition emission : Type := WarehouseEvent * list callback.

(** The attributes of the adapter. [items] holds the [InventoryItem]
    objects, which [inventory] refers to. *)
Record state := mkState {
  connected : bool;
  items : gmap iref InventoryItem;
  inventory : gmap string iref;
  orders : list (string * Order);
  event_callbacks : list callback;
  _event_counter : nat
}.

Definition set_connected (v : bool) (a : state) : state :=
  mkState v (items a) (inventory a) (orders a) (event_callbacks a)
    (_event_counter a).
Definition set_items (v : gmap iref InventoryItem) (a : state) : state :=
  mkState (connected a) v (inventory a) (orders a) (event_callbacks a)
    (_event_counter a).
Definition set_inventory (v : gmap string iref) (a : state) : state :=
  mkState (connected a) (items a) v (orders a) (event_callbacks a)
    (_event_counter a).
Definition set_orders (v : list (string * Order)) (a : state) : state :=
  mkState (connected a) (items a) (inventory a) v (event_callbacks a)
    (_event_counter a).
Definition set_event_callbacks (v : list callback) (a : state) : state :=
  mkState (connected a) (items a) (inventory a) (orders a) v
    (_event_counter a).
Definition set_event_counter (v : nat) (a : state) : state :=
  mkState (connected a) (items a) (inventory a) (orders a)
    (event_callbacks a) v.

(** [self.inventory[sku]], when [sku in self.inventory]. *)
Definition item_at (a : state) (sku : string) : option InventoryItem :=
  r ← inventory a !! sku; items a !! r.

Definition sku_of (i : nat) : string := "SKU-" +:+ format_0d 4 i.

(** The item that [_initialize_mock_data] builds for [i]; [qty] and
    [cost] are the outcomes of [random.randint(10, 100)] and of
    [random.uniform(5.0, 50.0)], [now] is [datetime.now()]. *)
Definition mock_item (i : nat) (qty : Z) (cost : Q) (now : Z)
    : InventoryItem :=
  {| item_sku := sku_of i;
     item_name := "Product " +:+ pretty i;
     item_quantity := qty;
     item_location :=
       "A-" +:+ format_0d 2 (i / 10) +:+ "-" +:+ format_0d 2 (i mod 10);
     item_min_stock := 10;
     item_max_stock := 100;
     item_unit_cost := cost;
     item_last_updated := now |}.

(** One turn of the loop of [_initialize_mock_data]: a new object, and
    the entry of the dictionary that refers to it. *)
Definition add_mock_item (stock : nat -> Z) (cost : nat -> Q)
    (wall : nat -> Z) (a : state) (i : nat) : state :=
  set_inventory (<[sku_of i := i]> (inventory a))
    (set_items (<[i := mock_item i (stock i) (cost i) (wall i)]> (items a))
       a).

(** [MockERPAdapter._initialize_mock_data], on a new adapter. *)
Definition _initialize_mock_data (cfg : SimulationConfig)
    (stock : nat -> Z) (cost : nat -> Q) (wall : nat -> Z) (a : state)
    : state :=
  foldl (add_mock_item stock cost wall) a
    (seq 0 (num_storage_locations cfg)).

(** [MockERPAdapter.__init__] *)
Definition __init__ (cfg : SimulationConfig) (stock : nat -> Z)
    (cost : nat -> Q) (wall : nat -> Z) : state :=
  _initialize_mock_data cfg stock cost wall
    {| connected := false; items := ∅; inventory := ∅; orders := [];
       event_callbacks := []; _event_counter := 0 |}.

(** [MockERPAdapter.connect] *)
Definition connect (a : state) : state * bool := (set_connected true a, true).

(** [MockERPAdapter.disconnect] *)
Definition disconnect (a : state) : state := set_connected false a.

(** [MockERPAdapter.fetch_orders] *)
Definition fetch_orders (a : state) (status_filter : option OrderStatus)
    : list Order :=
  match status_filter with
  | Some st => filter (fun o => status o = st) (snd <$> orders a)
  | None => snd <$> orders a
  end.

(** [MockERPAdapter.fetch_inventory]: a new dictionary that refers to the
    same objects. *)
Definition fetch_inventory (a : state) : gmap string iref := inventory a.

(** [MockERPAdapter._emit_event]; [now] is [datetime.now()]. *)
Definition _emit_event (a : state) (ty : EventType) (now : Z)
    (d : gmap string pyval) : state * emission :=
  let counter := S (_event_counter a) in
  let event :=
    {| event_id := "ERP-" +:+ format_06d counter;
       event_type := ty;
       timestamp := now;
       data := d;
       source := "erp";
       processed := false |} in
  (set_event_counter counter a, (event, event_callbacks a)).

(** [MockERPAdapter.update_order_status] *)
Definition update_order_status (a : state) (order_id : string)
    (st : OrderStatus) (now : Z) : state * bool * list emission :=
  match dict_get (orders a) order_id with
  | Some o =>
      let a := set_orders (dict_set order_id (set_status st o) (orders a))
                 a in
      let '(a, e) :=
        _emit_event a ORDER_STATUS_CHANGED now
          (<["order_id" := PStr order_id]>
           (<["new_status" := PStr (OrderStatus_value st)]> ∅)) in
      (a, true, [e])
  | None => (a, false, [])
  end.

(** [item.quantity += quantity_change; item.last_updated = now] *)
Definition add_stock (quantity_change : Z) (now : Z) (item : InventoryItem)
    : InventoryItem :=
  mkInventoryItem (item_sku item) (item_name item)
    (item_quantity item + quantity_change) (item_location item)
    (item_min_stock item) (item_max_stock item) (item_unit_cost item) now.

(** [MockERPAdapter.update_inventory]; [wall k] is the [k]-th reading of
    [datetime.now()] during the call. *)
Definition update_inventory (a : state) (sku : string)
    (quantity_change : Z) (wall : nat -> Z) : state * bool * list emission :=
  match inventory a !! sku, item_at a sku with
  | Some r, Some item =>
      let a := set_items (alter (add_stock quantity_change (wall 0%nat)) r
                            (items a)) a in
      let '(a, e) :=
        _emit_event a INVENTORY_UPDATED (wall 1%nat)
          (<["sku" := PStr sku]>
           (<["quantity_change" := PInt quantity_change]>
           (<["new_quantity" :=
                PInt (item_quantity item + quantity_change)]> ∅))) in
      (a, true, [e])
  | _, _ => (a, false, [])
  end.

(** [MockERPAdapter.subscribe_to_events] *)
Definition subscribe_to_events (a : state) (cb : callback) : state * bool :=
  (set_event_callbacks (event_callbacks a ++ [cb]) a, true).

(** The lines that [create_order] builds from [items]. *)
Definition order_lines (a : state) (order_items : list (string * Z))
    : list OrderLine :=
  omap (fun it : string * Z =>
          item ← item_at a it.1;
          Some {| line_sku := it.1; line_quantity := it.2;
                  line_picked_quantity := 0;
                  line_location := Some (item_location item) |})
       order_items.

(** [MockERPAdapter.create_order]; [draw] is the outcome of
    [random.randint(1, 5)], [wall 0] the reading of the clock by
    [Order(...)] and [wall 1] that by [_emit_event]. *)
Definition create_order (a : state) (customer : string)
    (order_items : list (string * Z)) (draw : Z) (wall : nat -> Z)
    : state * Order * list emission :=
  let oid := "ORD-" +:+ format_06d (length (orders a) + 1) in
  let order :=
    {| order_id := oid;
       customer_id := customer;
       lines := order_lines a order_items;
       status := RECEIVED;
       created_at := wall 0%nat;
       completed_at := None;
       priority := draw;
       pick_start_time := None; pick_end_time := None;
       pack_start_time := None; pack_end_time := None |} in
  let a := set_orders (dict_set oid order (orders a)) a in
  let '(a, e) := _emit_event a ORDER_CREATED (wall 1%nat)
                   (Order_to_dict order) in
  (a, order, [e]).

(** A call of a method of the adapter. *)
Inductive op :=
  | Connect
  | Disconnect
  | UpdateOrderStatus (order_id : string) (st : OrderStatus) (now : Z)
  | UpdateInventory (sku : string) (quantity_change : Z) (wall : nat -> Z)
  | SubscribeToEvents (cb : callback)
  | CreateOrder (customer : string) (order_items : list (string * Z))
      (draw : Z) (wall : nat -> Z).

(** The adapter after a call, and the events the call emits. *)
Definition step (a : state) (o : op) : state * list emission :=
  match o with
  | Connect => ((connect a).1, [])
  | Disconnect => (disconnect a, [])
  | UpdateOrderStatus order_id st now =>
      let '(a, _, es) := update_order_status a order_id st now in (a, es)
  | UpdateInventory sku quantity_change wall =>
      let '(a, _, es) := update_inventory a sku quantity_change wall in
      (a, es)
  | SubscribeToEvents cb => ((subscribe_to_events a cb).1, [])
  | CreateOrder customer order_items draw wall =>
      let '(a, _, es) := create_order a customer order_items draw wall in
      (a, es)
  end.

(** A sequence of calls, and all the events they emit. *)
Fixpoint run (a : state) (ops : list op) : state * list emission :=
  match ops with
  | [] => (a, [])
  | o :: rest =>
      let '(a1, es1) := step a o in
      let '(a2, es2) := run a1 rest in
      (a2, es1 ++ es2)
  end.

End MockERPAdapter.

(** ** A twin on the mock adapter *)

(** The objects that a dictionary of references gives access to. *)
Definition deref (objs : gmap MockERPAdapter.iref InventoryItem)
    (d : gmap string MockERPAdapter.iref) : gmap string InventoryItem :=
  omap (fun r => objs !! r) d.

(** A mock adapter and the [inventory] dictionary of a twin that was
    built on it. *)
Record world := mkWorld {
  adapter : MockERPAdapter.state;
  twin_inventory : gmap string MockERPAdapter.iref
}.

(** What touches the inventory: a call of the adapter, the twin's
    [_sync_from_erp], and the stock update of [order_process] (lines
    529-530) for a line of [quantity] units of [sku]. *)
Inductive world_op :=
  | AdapterCall (o : MockERPAdapter.op)
  | SyncFromErp
  | Pick (sku : string) (quantity : Z).

Definition world_step (w : world) (o : world_op) : world :=
  match o with
  | AdapterCall o =>
      mkWorld (MockERPAdapter.step (adapter w) o).1 (twin_inventory w)
  | SyncFromErp =>
      if MockERPAdapter.connected (adapter w)
      then mkWorld (adapter w) (MockERPAdapter.fetch_inventory (adapter w))
      else w
  | Pick sku quantity =>
      match twin_inventory w !! sku with
      | Some r =>
          mkWorld
            (MockERPAdapter.set_items
               (alter (take_stock quantity) r
                  (MockERPAdapter.items (adapter w)))
               (adapter w))
            (twin_inventory w)
      | None => w
      end
  end.

Definition world_run (w : world) (ops : list world_op) : world :=
  foldl world_step w ops.

(** What the twin sees of the mock adapter through its port. *)
Definition erp_view (w : world) : ERPAdapter :=
  mkERPAdapter (MockERPAdapter.connected (adapter w))
    (deref (MockERPAdapter.items (adapter w))
       (MockERPAdapter.fetch_inventory (adapter w))).

(** The items of the twin's inventory. *)
Definition twin_view (w : world) : gmap string InventoryItem :=
  deref (MockERPAdapter.items (adapter w)) (twin_inventory w).

(** The twin is built on the adapter [a]: its inventory is empty until
    it synchronises. *)
Definition new_world (a : MockERPAdapter.state) : world := mkWorld a ∅.

(** A small warehouse. *)
Definition three_locations : SimulationConfig :=
  mkSimulationConfig 480 "minutes" 42 3 5 2 2 0.5 3 0.8 1.5 0.3 5 3 1.5 60
    1000 0.05 100.

(** The twin synchronises with a connected adapter, picks five units of
    [SKU-0001] from a stock of two, and the adapter receives four
    units. *)
Definition oversell_ops : list world_op :=
  [ AdapterCall MockERPAdapter.Connect; SyncFromErp; Pick "SKU-0001" 5;
    AdapterCall (MockERPAdapter.UpdateInventory "SKU-0001" 4 tick) ].

(** The identifiers of emitted events. *)
Definition emitted_ids (es : list MockERPAdapter.emission) : list string :=
  (fun e => event_id e.1) <$> es.

Definition is_create (o : MockERPAdapter.op) : bool :=
  match o with
  | MockERPAdapter.CreateOrder _ _ _ _ => true
  | _ => false
  end.

(** The number of calls of [create_order] among [ops]. *)
Definition creations (ops : list MockERPAdapter.op) : nat :=
  length (List.filter is_create ops).

(** The orders of the adapter are filed under their own identifiers,
    which count up from one. *)
Definition orders_numbered (a : MockERPAdapter.state) : Prop :=
  (MockERPAdapter.orders a).*1
  = (fun k => "ORD-" +:+ format_06d (S k))
    <$> seq 0 (length (MockERPAdapter.orders a))
  /\ Forall (fun e : string * Order => order_id e.2 = e.1)
            (MockERPAdapter.orders a).

(** The quantity changes that the calls of [update_inventory] among [ops]
    ask for [sku], in call order. *)
Definition changes_on (sku : string) (ops : list MockERPAdapter.op)
    : list Z :=
  flat_map (fun o => match o with
                     | MockERPAdapter.UpdateInventory sku' change _ =>
                         if decide (sku' = sku) then [change] else []
                     | _ => []
                     end) ops.

(** Two deliveries and a return of [SKU-0001], and a delivery of an
    unknown SKU. *)
Definition stock_ops : list MockERPAdapter.op :=
  [ MockERPAdapter.UpdateInventory "SKU-0001" 10 tick;
    MockERPAdapter.UpdateInventory "SKU-0007" 3 tick;
    MockERPAdapter.CreateOrder "CUST-0001" [("SKU-0001", 2%Z)] 1 tick;
    MockERPAdapter.UpdateInventory "SKU-0001" (-15) tick ].

(* ===================================================================== *)
(** * The configuration as a dictionary *)
(* ===================================================================== *)

(** [SimulationConfig.to_dict] *)
Definition SimulationConfig_to_dict (cfg : SimulationConfig)
    : gmap string pyval :=
  <["simulation_time" := PFloat (simulation_time cfg)]>
  (<["time_unit" := PStr (time_unit cfg)]>
  (<["random_seed" := PInt (random_seed cfg)]>
  (<["num_storage_locations" :=
       PInt (Z.of_nat (num_storage_locations cfg))]>
  (<["num_workers" := PInt (Z.of_nat (num_workers cfg))]>
  (<["num_forklifts" := PInt (Z.of_nat (num_forklifts cfg))]>
  (<["pick_time_mean" := PFloat (pick_time_mean cfg)]>
  (<["pick_time_std" := PFloat (pick_time_std cfg)]>
  (<["pack_time_mean" := PFloat (pack_time_mean cfg)]>
  (<["pack_time_std" := PFloat (pack_time_std cfg)]>
  (<["transport_time_mean" := PFloat (transport_time_mean cfg)]>
  (<["transport_time_std" := PFloat (transport_time_std cfg)]>
  (<["order_arrival_rate" := PFloat (order_arrival_rate cfg)]>
  (<["items_per_order_mean" := PFloat (items_per_order_mean cfg)]>
  (<["items_per_order_std" := PFloat (items_per_order_std cfg)]>
  (<["erp_sync_interval" := PFloat (erp_sync_interval cfg)]>
  (<["event_buffer_size" := PInt (Z.of_nat (event_buffer_size cfg))]>
  (<["sync_threshold" := PFloat (sync_threshold cfg)]>
  (<["calibration_window" := PInt (calibration_window cfg)]>
     ∅)))))))))))))))))).

(** [cls.__dataclass_fields__] *)
Definition dataclass_fields : list string :=
  [ "simulation_time"; "time_unit"; "random_seed"; "num_storage_locations";
    "num_workers"; "num_forklifts"; "pick_time_mean"; "pick_time_std";
    "pack_time_mean"; "pack_time_std"; "transport_time_mean";
    "transport_time_std"; "order_arrival_rate"; "items_per_order_mean";
    "items_per_order_std"; "erp_sync_interval"; "event_buffer_size";
    "sync_threshold"; "calibration_window" ].

(** A value as a [float] field holds it; an [int] counts as its float. *)
Definition as_float (v : pyval) : option Q :=
  match v with
  | PFloat q => Some q
  | PInt z => Some (inject_Z z)
  | _ => None
  end.

Definition as_int (v : pyval) : option Z :=
  match v with PInt z => Some z | _ => None end.

(** A value as a field that counts things holds it. *)
Definition as_count (v : pyval) : option nat :=
  match v with
  | PInt z => if (0 <=? z)%Z then Some (Z.to_nat z) else None
  | _ => None
  end.

Definition as_str (v : pyval) : option string :=
  match v with PStr s => Some s | _ => None end.

(** The argument that the constructor gets for the field [name]: the
    value of the dictionary, or the default of the dataclass. [None] is a
    value that is not of the type of the field: the dataclass stores it
    as it is, which the record [SimulationConfig] cannot. *)
Definition field_of {A} (decode : pyval -> option A)
    (data : gmap string pyval) (name : string) (dflt : A) : option A :=
  match data !! name with
  | Some v => decode v
  | None => Some dflt
  end.

(** [SimulationConfig.from_dict]: the keys of [data] that are fields of
    the dataclass are passed to the constructor, the other keys are
    dropped. *)
Definition SimulationConfig_from_dict (data : gmap string pyval)
    : option SimulationConfig :=
  let data := filter (fun kv => kv.1 ∈ dataclass_fields) data in
  f1 ← field_of as_float data "simulation_time" (simulation_time default_config);
  f2 ← field_of as_str data "time_unit" (time_unit default_config);
  f3 ← field_of as_int data "random_seed" (random_seed default_config);
  f4 ← field_of as_count data "num_storage_locations"
         (num_storage_locations default_config);
  f5 ← field_of as_count data "num_workers" (num_workers default_config);
  f6 ← field_of as_count data "num_forklifts" (num_forklifts default_config);
  f7 ← field_of as_float data "pick_time_mean" (pick_time_mean default_config);
  f8 ← field_of as_float data "pick_time_std" (pick_time_std default_config);
  f9 ← field_of as_float data "pack_time_mean" (pack_time_mean default_config);
  f10 ← field_of as_float data "pack_time_std" (pack_time_std default_config);
  f11 ← field_of as_float data "transport_time_mean"
          (transport_time_mean default_config);
  f12 ← field_of as_float data "transport_time_std"
          (transport_time_std default_config);
  f13 ← field_of as_float data "order_arrival_rate"
          (order_arrival_rate default_config);
  f14 ← field_of as_float data "items_per_order_mean"
          (items_per_order_mean default_config);
  f15 ← field_of as_float data "items_per_order_std"
          (items_per_order_std default_config);
  f16 ← field_of as_float data "erp_sync_interval"
          (erp_sync_interval default_config);
  f17 ← field_of as_count data "event_buffer_size"
          (event_buffer_size default_config);
  f18 ← field_of as_float data "sync_threshold" (sync_threshold default_config);
  f19 ← field_of as_int data "calibration_window"
          (calibration_window default_config);
  Some (mkSimulationConfig f1 f2 f3 f4 f5 f6 f7 f8 f9 f10 f11 f12 f13 f14
          f15 f16 f17 f18 f19).

(** The dictionary of [small_buffer_config] with a key that is not a
    field. *)
Definition annotated_config : gmap string pyval :=
  <["comment" := PStr "two events"]>
    (SimulationConfig_to_dict small_buffer_config).

(* ===================================================================== *)
(** * The orders of the generator *)
(* ===================================================================== *)

(** The orders of [h] are in [h'] under their identifiers. *)
Definition heap_ids (h h' : gmap oref Order) : Prop :=
  forall r o, h !! r = Some o ->
    exists o', h' !! r = Some o' /\ order_id o' = order_id o.






(* ===================================================================== *)
(** * Properties of the event buffer *)
(* ===================================================================== *)

Section EventBuffer.

Context {A : Type}.
Implicit Types (d : list A) (x : A) (maxlen : nat).

Lemma deque_append_length d x maxlen :
  (length d <= maxlen)%nat -> (length (deque_append maxlen d x) <= maxlen)%nat.
Proof.
  intros Hd. unfold deque_append. rewrite length_app. simpl.
  destruct (Nat.ltb_spec maxlen (length d + 1)) as [Hlt | Hge].
  - destruct d as [| y d']; simpl in *; [lia |].
    rewrite length_app. simpl. lia.
  - rewrite length_app. simpl. lia.
Qed.

(** A full deque loses its head and keeps the rest in order. *)
Lemma deque_append_full d x maxlen :
  length d = maxlen -> deque_append maxlen d x = tail (d ++ [x]).
Proof.
  intros Hd. unfold deque_append. rewrite length_app. simpl.
  destruct (Nat.ltb_spec maxlen (length d + 1)); [reflexivity | lia].
Qed.

Lemma deque_append_room d x maxlen :
  (length d < maxlen)%nat -> deque_append maxlen d x = d ++ [x].
Proof.
  intros Hd. unfold deque_append. rewrite length_app. simpl.
  destruct (Nat.ltb_spec maxlen (length d + 1)); [lia | reflexivity].
Qed.

Lemma deque_append_drop d x maxlen :
  (length d <= maxlen)%nat ->
  deque_append maxlen d x = drop (length d + 1 - maxlen) (d ++ [x]).
Proof.
  intros Hd.
  destruct (decide (length d = maxlen)) as [Heq | Hne].
  - rewrite deque_append_full by assumption.
    replace (length d + 1 - maxlen)%nat with 1%nat by lia.
    destruct (d ++ [x]); reflexivity.
  - rewrite deque_append_room by lia.
    replace (length d + 1 - maxlen)%nat with 0%nat by lia. reflexivity.
Qed.

End EventBuffer.

Lemma record_event_length cfg buf ty now d :
  (length buf <= event_buffer_size cfg)%nat ->
  (length (_record_event cfg buf ty now d) <= event_buffer_size cfg)%nat.
Proof. apply deque_append_length. Qed.

Lemma created_events_length cfg calls :
  forall buf, length (created_events cfg buf calls) = length calls.
Proof. induction calls as [| c cs IH]; intros buf; simpl; [| rewrite IH]; reflexivity. Qed.

(** From any buffer within its bound: the buffer after the calls is the
    end of the old contents followed by the new events. *)
Lemma record_events_suffix cfg calls :
  forall buf,
    (length buf <= event_buffer_size cfg)%nat ->
    record_events cfg buf calls
    = drop (length buf + length calls - event_buffer_size cfg)
           (buf ++ created_events cfg buf calls).
Proof.
  induction calls as [| c cs IH]; intros buf Hbuf; simpl.
  - rewrite app_nil_r.
    replace (length buf + 0 - event_buffer_size cfg)%nat with 0%nat by lia.
    reflexivity.
  - set (e := new_event buf c.1.1 c.1.2 c.2).
    set (buf' := _record_event cfg buf c.1.1 c.1.2 c.2).
    assert (Hlen' : (length buf' <= event_buffer_size cfg)%nat)
      by (apply record_event_length, Hbuf).
    change (foldl _ _ cs) with (record_events cfg buf' cs).
    rewrite (IH buf' Hlen').
    assert (Hbuf' : buf' = drop (length buf + 1 - event_buffer_size cfg)
                                (buf ++ [e]))
      by (apply deque_append_drop, Hbuf).
    assert (Hl : length buf'
                 = (length buf + 1
                    - (length buf + 1 - event_buffer_size cfg))%nat).
    { rewrite Hbuf', length_drop, length_app. simpl. lia. }
    rewrite Hl. rewrite Hbuf' at 1.
    rewrite <- drop_app_le by (rewrite length_app; simpl; lia).
    rewrite drop_drop, <- app_assoc. simpl.
    f_equal. lia.
Qed.

(** C5: after any sequence of appends to the event buffer of a new twin,
    the buffer is never longer than the configured capacity, and it holds
    the newest events in their order: what is evicted is always the
    oldest entry, the head. *)
Theorem event_buffer_bounded_fifo (cfg : SimulationConfig)
    (calls : list record_call) :
  (length (record_events cfg [] calls) <= event_buffer_size cfg)%nat
  /\ record_events cfg [] calls
     = drop (length calls - event_buffer_size cfg)
            (created_events cfg [] calls).
Proof.
  pose proof (record_events_suffix cfg calls [] (Nat.le_0_l _)) as Hs.
  simpl in Hs. split; [| exact Hs].
  rewrite Hs, length_drop, created_events_length. lia.
Qed.

(** While the buffer has room, the identifier is the number of the event. *)
Lemma new_event_id buf ty now d :
  event_id (new_event buf ty now d) = "DT-" +:+ format_06d (length buf).
Proof. reflexivity. Qed.

(** Once the buffer is full, the next call gives the identifier that the
    call before it gave. *)
Lemma record_event_id_stalls cfg buf ty now d ty' now' d' :
  length buf = event_buffer_size cfg ->
  event_id (new_event (_record_event cfg buf ty now d) ty' now' d')
  = event_id (new_event buf ty now d).
Proof.
  intros Hfull. rewrite !new_event_id. do 2 f_equal.
  unfold _record_event. rewrite deque_append_full by assumption.
  destruct buf as [| e b]; simpl; [reflexivity |].
  rewrite length_app. simpl. lia.
Qed.

(** C6: with [event_buffer_size = 2], the third and the fourth recorded
    event both get the identifier [DT-000002]: the identifier is the
    length of the buffer, which stops growing at the capacity. *)
Theorem record_event_repeats_id_at_capacity :
  assigned_ids small_buffer_config [] four_calls
  = ["DT-000000"; "DT-000001"; "DT-000002"; "DT-000002"]
  /\ ~ NoDup (assigned_ids small_buffer_config [] four_calls).
Proof.
  assert (H : assigned_ids small_buffer_config [] four_calls
              = ["DT-000000"; "DT-000001"; "DT-000002"; "DT-000002"])
    by (vm_compute; reflexivity).
  split; [exact H |].
  rewrite H. intros Hnd.
  apply NoDup_cons in Hnd as [_ Hnd].
  apply NoDup_cons in Hnd as [_ Hnd].
  apply NoDup_cons in Hnd as [Hin _].
  apply Hin. left.
Qed.

(* ===================================================================== *)
(** * Properties of the drift monitor *)
(* ===================================================================== *)

Section Drift.

Variable erp_inventory : gmap string InventoryItem.

(** Where the quantities of the shared SKUs agree, the loop adds nothing
    to [total_diff]. *)
Lemma drift_fold_equal (items : list (string * InventoryItem)) :
  forall acc : Z * Z,
    (forall sku dt erp, (sku, dt) ∈ items ->
       erp_inventory !! sku = Some erp ->
       item_quantity erp = item_quantity dt) ->
    (foldl (drift_step erp_inventory) acc items).1 = acc.1.
Proof.
  induction items as [| [sku dt] items IH]; intros acc Heq; simpl.
  - reflexivity.
  - rewrite IH.
    + unfold drift_step. simpl.
      destruct (erp_inventory !! sku) as [erp |] eqn:Herp; simpl; [| reflexivity].
      rewrite (Heq sku dt erp); [lia | left | exact Herp].
    + intros sku' dt' erp' Hin. apply Heq. right. exact Hin.
Qed.

(** Where no quantity is negative, [total_diff] stays between zero and
    [total_items]. *)
Lemma drift_fold_bounds (items : list (string * InventoryItem)) :
  forall acc : Z * Z,
    (0 <= acc.1 <= acc.2)%Z ->
    (forall sku dt, (sku, dt) ∈ items -> (0 <= item_quantity dt)%Z) ->
    (forall sku erp, erp_inventory !! sku = Some erp ->
       (0 <= item_quantity erp)%Z) ->
    (0 <= (foldl (drift_step erp_inventory) acc items).1
       <= (foldl (drift_step erp_inventory) acc items).2)%Z.
Proof.
  induction items as [| [sku dt] items IH]; intros acc Hacc Hdt Herp; simpl.
  - exact Hacc.
  - apply IH.
    + unfold drift_step. simpl.
      destruct (erp_inventory !! sku) as [erp |] eqn:Hlk; simpl; [| exact Hacc].
      pose proof (Hdt sku dt ltac:(left)).
      pose proof (Herp sku erp Hlk). lia.
    + intros sku' dt' Hin. apply (Hdt sku'). right. exact Hin.
    + exact Herp.
Qed.

End Drift.

Lemma drift_ratio_zero (t : Z) : (drift_ratio (0%Z, t) == 0)%Q.
Proof.
  unfold drift_ratio. simpl. destruct (0 <? t)%Z; [| reflexivity].
  unfold Qdiv. apply Qmult_0_l.
Qed.

Lemma drift_ratio_unit (totals : Z * Z) :
  (0 <= totals.1 <= totals.2)%Z ->
  (0 <= drift_ratio totals /\ drift_ratio totals <= 1)%Q.
Proof.
  intros [H0 H1]. unfold drift_ratio.
  destruct (Z.ltb_spec 0 totals.2) as [Hpos | Hnpos].
  - assert (Hq : (0 < inject_Z totals.2)%Q)
      by (change 0%Q with (inject_Z 0); rewrite <- Zlt_Qlt; exact Hpos).
    split.
    + apply Qle_shift_div_l; [exact Hq |].
      rewrite Qmult_0_l. change 0%Q with (inject_Z 0).
      rewrite <- Zle_Qle. exact H0.
    + apply Qle_shift_div_r; [exact Hq |].
      rewrite Qmult_1_l. rewrite <- Zle_Qle. exact H1.
  - split; [apply Qle_refl | discriminate].
Qed.

(** The drift that [calculate_sync_drift] returns does not depend on the
    threshold test that follows its computation. *)
Lemma calculate_sync_drift_value cfg now erp_adapter inventory buf :
  connected erp_adapter = true ->
  (calculate_sync_drift cfg now erp_adapter inventory buf).1
  = drift_ratio (drift_totals (fetch_inventory erp_adapter)
                              (map_to_list inventory)).
Proof.
  intros Hc. unfold calculate_sync_drift. rewrite Hc. simpl.
  destruct (Qlt_le_dec _ _); reflexivity.
Qed.

(** With stock levels that are not negative on both sides, the drift is
    in the unit interval. *)
Lemma sync_drift_unit_interval_nonneg cfg now erp_adapter
    (inventory : gmap string InventoryItem) buf :
  (forall sku dt, inventory !! sku = Some dt -> (0 <= item_quantity dt)%Z) ->
  (forall sku erp, fetch_inventory erp_adapter !! sku = Some erp ->
     (0 <= item_quantity erp)%Z) ->
  (0 <= (calculate_sync_drift cfg now erp_adapter inventory buf).1
   /\ (calculate_sync_drift cfg now erp_adapter inventory buf).1 <= 1)%Q.
Proof.
  intros Hdt Herp.
  destruct (connected erp_adapter) eqn:Hc.
  - rewrite calculate_sync_drift_value by exact Hc.
    apply drift_ratio_unit. unfold drift_totals.
    apply drift_fold_bounds; [simpl; lia | | exact Herp].
    intros sku dt Hin. apply (Hdt sku).
    apply elem_of_map_to_list. exact Hin.
  - unfold calculate_sync_drift. rewrite Hc. simpl.
    split; [discriminate | apply Qle_refl].
Qed.

(** C3: a twin that has picked three units of a SKU from a stock of one
    holds [-2] units; against an external stock of one unit the drift is
    [|1 - (-2)| / max(1, -2, 1) = 3.0], above [1.0]. *)
Theorem sync_drift_exceeds_one_on_negative_stock :
  ((calculate_sync_drift default_config 0 erp_one_left twin_oversold []).1
   == 3)%Q
  /\ ~ ((calculate_sync_drift default_config 0 erp_one_left twin_oversold []).1
        <= 1)%Q.
Proof.
  assert (H : (calculate_sync_drift default_config 0 erp_one_left
                 twin_oversold []).1 = 3%Q)
    by (vm_compute; reflexivity).
  rewrite H. split; [reflexivity |].
  intros Hle. apply Qle_bool_iff in Hle. discriminate Hle.
Qed.

(** C7: a twin whose adapter is not connected returns exactly [1.0],
    whatever the inventories are, and records nothing; a twin whose
    adapter is connected, and that agrees with the external inventory on
    the quantity of every SKU they share, returns [0.0]. *)
Theorem sync_drift_disconnected_and_in_sync cfg now erp_adapter
    (inventory : gmap string InventoryItem) buf :
  match connected erp_adapter with
  | false =>
      calculate_sync_drift cfg now erp_adapter inventory buf = (1%Q, buf)
  | true =>
      (forall sku dt erp,
         inventory !! sku = Some dt ->
         fetch_inventory erp_adapter !! sku = Some erp ->
         item_quantity erp = item_quantity dt) ->
      ((calculate_sync_drift cfg now erp_adapter inventory buf).1 == 0)%Q
  end.
Proof.
  destruct (connected erp_adapter) eqn:Hc.
  - intros Heq. rewrite calculate_sync_drift_value by exact Hc.
    pose proof (drift_fold_equal (fetch_inventory erp_adapter)
                  (map_to_list inventory) (0, 0)%Z) as Hfold.
    unfold drift_totals.
    destruct (foldl _ _ _) as [diff items] eqn:Hf. simpl in Hfold.
    rewrite Hfold.
    + apply drift_ratio_zero.
    + intros sku dt erp Hin. apply Heq.
      apply elem_of_map_to_list. exact Hin.
  - unfold calculate_sync_drift. rewrite Hc. reflexivity.
Qed.

Lemma erp_in_sync_agrees :
  forall sku dt erp,
    twin_in_sync !! sku = Some dt ->
    fetch_inventory erp_in_sync !! sku = Some erp ->
    item_quantity erp = item_quantity dt.
Proof.
  intros sku dt erp Hdt Herp. unfold twin_in_sync, erp_in_sync in *.
  simpl in Herp.
  apply lookup_insert_Some in Hdt as [[<- <-] | [Hne Hdt]].
  - rewrite lookup_insert_eq in Herp. by inversion Herp.
  - apply lookup_singleton_Some in Hdt as [<- <-].
    rewrite lookup_insert_ne in Herp by done.
    apply lookup_singleton_Some in Herp as [Heq _]. discriminate Heq.
Qed.

Lemma sync_drift_disconnected_and_in_sync_witness :
  (forall sku dt erp,
     twin_in_sync !! sku = Some dt ->
     fetch_inventory erp_in_sync !! sku = Some erp ->
     item_quantity erp = item_quantity dt)
  /\ ((calculate_sync_drift default_config 0 erp_in_sync twin_in_sync []).1
      == 0)%Q.
Proof.
  split; [exact erp_in_sync_agrees |].
  exact (sync_drift_disconnected_and_in_sync default_config 0 erp_in_sync
           twin_in_sync [] erp_in_sync_agrees).
Defined.

(* ===================================================================== *)
(** * Properties of the metrics accumulator *)
(* ===================================================================== *)

Section Metrics.

Variable fsqrt : Q -> Q.


(** [get_summary] raises exactly when the throughput is computed and the
    average order time is zero. *)
Lemma get_summary_raises_iff m :
  get_summary fsqrt m = None
  <-> throughput_guard m = true /\ (avg_order_time m == 0)%Q.
Proof.
  unfold get_summary, pydiv.
  destruct (throughput_guard m); [| split; [discriminate | intros [? _]; discriminate]].
  destruct (Qeq_bool (avg_order_time m) 0) eqn:Hz.
  - split; [| reflexivity]. intros _. split; [reflexivity |].
    apply Qeq_bool_iff. exact Hz.
  - split; [discriminate |]. intros [_ Heq].
    apply Qeq_bool_iff in Heq. congruence.
Qed.

(** Where the summary is returned and the throughput is computed, the
    throughput is 60 divided by the average order time, which is not
    zero. *)
Lemma get_summary_throughput m summary :
  get_summary fsqrt m = Some summary ->
  throughput_guard m = true ->
  ~ (avg_order_time m == 0)%Q
  /\ summary !! "throughput_orders_per_hour"
     = Some (PFloat (60 / avg_order_time m)%Q).
Proof.
  unfold get_summary, pydiv. intros Hs Hg. rewrite Hg in Hs.
  destruct (Qeq_bool (avg_order_time m) 0) eqn:Hz; [discriminate |].
  inversion Hs; subst. split.
  - intros Heq. apply Qeq_bool_iff in Heq. congruence.
  - rewrite lookup_insert_ne by done. apply lookup_insert_eq.
Qed.

(** Without a completed order, no throughput entry is written. *)
Lemma get_summary_no_throughput m :
  throughput_guard m = false ->
  exists summary,
    get_summary fsqrt m = Some summary
    /\ summary !! "throughput_orders_per_hour" = None.
Proof.
  intros Hg. exists (summary_base fsqrt m).
  unfold get_summary. rewrite Hg. split; [reflexivity |].
  unfold summary_base.
  destruct (order_times m);
    repeat (rewrite lookup_insert_ne by done); apply lookup_empty.
Qed.

(** C4: one completed order recorded with a total time of [0.0] passes the
    guard [orders_completed > 0 and order_times], the average order time
    is [0.0], and [get_summary] raises [ZeroDivisionError] at
    [60.0 / avg_order_time]. *)
Theorem get_summary_divides_by_zero (order : Order) :
  throughput_guard (record_order_completion new_metrics order 0) = true
  /\ (avg_order_time (record_order_completion new_metrics order 0) == 0)%Q
  /\ get_summary fsqrt (record_order_completion new_metrics order 0) = None.
Proof.
  split; [reflexivity |]. split; [reflexivity |].
  apply get_summary_raises_iff. split; reflexivity.
Qed.

End Metrics.

(* ===================================================================== *)
(** * Properties of the calibration scan *)
(* ===================================================================== *)

Lemma calib_scan_from_app l1 : forall st l2,
  calib_scan_from st (l1 ++ l2)
  = calib_scan_from st l1 ≫= fun st' => calib_scan_from st' l2.
Proof.
  induction l1 as [| e l1 IH]; intros st l2; simpl; [reflexivity |].
  destruct (calib_step st e) as [st' |]; simpl; [apply IH | reflexivity].
Qed.

(** What one turn of the loop does to [order_starts] and to
    [pick_times]. *)
Lemma calib_step_spec st event st' :
  calib_step st event = Some st' ->
  order_starts st'
  = match created_key event with
    | Some k => <[k := timestamp event]> (order_starts st)
    | None => order_starts st
    end
  /\ cal_pick_times st'
     = cal_pick_times st
       ++ match picked_key event with
          | Some k =>
              match order_starts st !! k with
              | Some t0 => [minutes_between (timestamp event) t0]
              | None => []
              end
          | None => []
          end.
Proof.
  unfold calib_step, created_key, picked_key.
  destruct (decide (event_type event = ORDER_CREATED)) as [Hc | Hc].
  - destruct (decide (event_type event = ORDER_STATUS_CHANGED)) as [Hs | _];
      [congruence |].
    destruct (truthy (data_get event "order_id")).
    + destruct (as_key (data_get event "order_id")) as [k |]; simpl;
        [| discriminate].
      intros [= <-]. simpl. rewrite app_nil_r. done.
    + intros [= <-]. rewrite app_nil_r. done.
  - destruct (decide (event_type event = ORDER_STATUS_CHANGED)) as [Hs | _].
    2: { intros [= <-]. rewrite app_nil_r. done. }
    destruct (truthy (data_get event "order_id")); simpl.
    2: { intros [= <-]. rewrite app_nil_r. done. }
    destruct (py_eq_str (data_get event "new_status") "picked").
    { destruct (as_key (data_get event "order_id")) as [k |]; simpl;
        [| discriminate].
      destruct (order_starts st !! k); intros [= <-]; simpl;
        [| rewrite app_nil_r]; done. }
    destruct (py_eq_str (data_get event "new_status") "packed").
    { destruct (as_key (data_get event "order_id")) as [k |]; simpl;
        [| discriminate].
      destruct (order_picks st !! k); intros [= <-]; simpl;
        rewrite app_nil_r; done. }
    destruct (py_eq_str (data_get event "new_status") "completed").
    { destruct (as_key (data_get event "order_id")) as [k |]; simpl;
        [| discriminate].
      destruct (order_starts st !! k); intros [= <-]; simpl;
        rewrite app_nil_r; done. }
    intros [= <-]. rewrite app_nil_r. done.
Qed.

(** A turn of the loop raises only on an order id that cannot be a key. *)
Lemma calib_step_total st event :
  is_Some (as_key (data_get event "order_id")) ->
  is_Some (calib_step st event).
Proof.
  intros [k Hk]. unfold calib_step. rewrite Hk. simpl.
  repeat match goal with
         | |- is_Some (Some _) => eexists; reflexivity
         | |- is_Some (if ?c then _ else _) => destruct c
         | |- is_Some (match ?o with Some _ => _ | None => _ end) =>
             destruct o
         end.
Qed.

Lemma last_created_snoc k prefix event :
  last_created k (prefix ++ [event])
  = if decide (created_key event = Some k) then Some (timestamp event)
    else last_created k prefix.
Proof.
  unfold last_created. rewrite filter_app, fmap_app.
  rewrite filter_cons, filter_nil.
  destruct (decide (created_key event = Some k)); simpl.
  - apply last_snoc.
  - rewrite app_nil_r. reflexivity.
Qed.

Lemma flat_map_agree {A B} (f g : A -> list B) (l : list A) :
  (forall a, In a l -> f a = g a) -> flat_map f l = flat_map g l.
Proof.
  induction l as [| a l IH]; intros H; simpl; [reflexivity |].
  rewrite (H a) by (left; reflexivity).
  rewrite IH; [reflexivity |]. intros b Hb. apply H. right. exact Hb.
Qed.

Lemma pick_samples_spec_snoc prefix event :
  pick_samples_spec (prefix ++ [event])
  = pick_samples_spec prefix ++ pick_sample_of prefix event.
Proof.
  unfold pick_samples_spec.
  rewrite length_app. simpl. rewrite seq_app, flat_map_app. simpl.
  rewrite app_nil_r. f_equal.
  - apply flat_map_agree. intros i Hi. apply in_seq in Hi.
    rewrite lookup_app_l by lia.
    destruct (prefix !! i); [| reflexivity].
    rewrite take_app_le by lia. reflexivity.
  - rewrite list_lookup_middle by reflexivity.
    rewrite take_app_length. reflexivity.
Qed.

(** The scan keeps, for every order, the timestamp of its latest created
    event, and its pick samples are those read off the input. *)
Lemma calib_scan_spec erp_events : forall st,
  calib_scan erp_events = Some st ->
  (forall k, order_starts st !! k = last_created k erp_events)
  /\ cal_pick_times st = pick_samples_spec erp_events.
Proof.
  unfold calib_scan.
  induction erp_events as [| event prefix IH] using rev_ind; intros st Hscan.
  - injection Hscan as <-. split; [intros k; apply lookup_empty | reflexivity].
  - rewrite calib_scan_from_app in Hscan.
    destruct (calib_scan_from calib_init prefix) as [st0 |] eqn:Hpre;
      [| discriminate].
    simpl in Hscan.
    destruct (calib_step st0 event) as [st1 |] eqn:Hstep; [| discriminate].
    simpl in Hscan. injection Hscan as <-.
    destruct (IH st0 eq_refl) as [Hstarts Hpicks].
    apply calib_step_spec in Hstep as [Hs1 Hp1]. split.
    + intros k. rewrite Hs1, last_created_snoc.
      destruct (created_key event) as [k' |].
      * destruct (decide (Some k' = Some k)) as [[= ->] | Hne].
        -- apply lookup_insert_eq.
        -- rewrite lookup_insert_ne by congruence. apply Hstarts.
      * destruct (decide (None = Some k)); [discriminate | apply Hstarts].
    + rewrite Hp1, Hpicks, pick_samples_spec_snoc. f_equal.
      unfold pick_sample_of.
      destruct (picked_key event) as [k |]; [| reflexivity].
      rewrite Hstarts. reflexivity.
Qed.

Lemma calib_scan_from_total erp_events : forall st,
  Forall (fun event => is_Some (as_key (data_get event "order_id")))
         erp_events ->
  is_Some (calib_scan_from st erp_events).
Proof.
  induction erp_events as [| event rest IH]; intros st Hall; simpl.
  - eexists; reflexivity.
  - apply Forall_cons in Hall as [Hk Hrest].
    destruct (calib_step_total st event Hk) as [st' ->]. simpl.
    apply IH, Hrest.
Qed.

(** C8, as amended: on an input whose order ids can be dictionary keys,
    the scan ends, and it records one pick-duration sample for every
    picked status-change event that has a created event of its order id
    before it in the input: the minutes from the latest such created
    event to the picked event. A picked event with no created event of
    its order id before it contributes no sample. *)
Theorem calibration_pick_samples (erp_events : list WarehouseEvent) :
  Forall (fun event => is_Some (as_key (data_get event "order_id")))
         erp_events ->
  exists st,
    calib_scan erp_events = Some st
    /\ cal_pick_times st = pick_samples_spec erp_events.
Proof.
  intros Hall.
  destruct (calib_scan_from_total erp_events calib_init Hall) as [st Hst].
  exists st. split; [exact Hst |].
  apply (calib_scan_spec erp_events st Hst).
Qed.

Lemma calibration_pick_samples_witness :
  Forall (fun event => is_Some (as_key (data_get event "order_id")))
         one_order_trace
  /\ exists st,
       calib_scan one_order_trace = Some st
       /\ cal_pick_times st = pick_samples_spec one_order_trace.
Proof.
  assert (H : Forall (fun event => is_Some (as_key (data_get event "order_id")))
                     one_order_trace)
    by (repeat constructor; eexists; vm_compute; reflexivity).
  split; [exact H | exact (calibration_pick_samples one_order_trace H)].
Defined.

(** C8: an order that is created once and reported picked twice gives two
    pick-duration samples, not one. *)
Lemma calibration_two_samples_for_one_order :
  ~ at_most_one_pick_sample_per_order picked_twice.
Proof.
  unfold at_most_one_pick_sample_per_order. intros H.
  destruct (calib_scan picked_twice) as [st |] eqn:Hscan;
    [| vm_compute in Hscan; discriminate].
  specialize (H st eq_refl).
  vm_compute in Hscan. injection Hscan as <-.
  vm_compute in H. lia.
Qed.

(** The samples of the two inputs above: three and five minutes for the
    order picked twice; minus two minutes for the order whose picked event
    is stamped before its created event. *)
Example pick_samples_picked_twice :
  pick_samples_spec picked_twice
  = [minutes_between 180000000 0; minutes_between 300000000 0].
Proof. vm_compute. reflexivity. Qed.

Example pick_samples_picked_before_created :
  cal_pick_times <$> calib_scan picked_before_created
  = Some [minutes_between 180000000 300000000]
  /\ (minutes_between 180000000 300000000 == -2)%Q.
Proof. split; vm_compute; reflexivity. Qed.

(* ===================================================================== *)
(** * Properties of the resource pools *)
(* ===================================================================== *)

Lemma list_remove_length h l rest :
  list_remove h l = Some rest -> length l = S (length rest).
Proof.
  revert rest. induction l as [| x k IH]; intros rest; simpl; [discriminate |].
  destruct (decide (x = h)).
  - intros [= <-]. reflexivity.
  - destruct (list_remove h k) as [k' |]; simpl; [| discriminate].
    intros [= <-]. simpl. f_equal. apply IH. reflexivity.
Qed.

Lemma list_remove_elem_of h l :
  is_Some (list_remove h l) <-> h ∈ l.
Proof.
  induction l as [| x k IH]; simpl.
  - split; [intros [? [=]] | intros H; inversion H].
  - destruct (decide (x = h)) as [-> | Hne].
    + split; [intros _; left | intros _; eexists; reflexivity].
    + rewrite fmap_is_Some, IH. split; [intros H; right; exact H |].
      intros H. apply elem_of_cons in H as [-> | H]; [congruence | exact H].
Qed.

Lemma new_pool_ok c : pool_ok (new_pool c).
Proof. unfold pool_ok, in_use. simpl. split; [lia | left; reflexivity]. Qed.

Lemma acquire_capacity r h : capacity (acquire r h) = capacity r.
Proof. unfold acquire. destruct (_ <? _)%nat; reflexivity. Qed.

Lemma release_capacity r h : capacity (release r h) = capacity r.
Proof.
  unfold release. destruct (list_remove h (users r)); [| reflexivity].
  destruct (queue r); reflexivity.
Qed.

Lemma acquire_ok r h : pool_ok r -> pool_ok (acquire r h).
Proof.
  intros [Hle Hq]. unfold acquire, pool_ok, in_use in *.
  destruct (Nat.ltb_spec (length (users r)) (capacity r)) as [Hlt | Hge];
    simpl.
  - rewrite length_app. simpl. split; [lia |].
    destruct Hq as [Hq | Hq]; [left; exact Hq | lia].
  - split; [exact Hle | right; exact Hge].
Qed.

Lemma release_ok r h : pool_ok r -> pool_ok (release r h).
Proof.
  intros [Hle Hq]. unfold release, pool_ok, in_use in *.
  destruct (list_remove h (users r)) as [rest |] eqn:Hrm;
    [| split; assumption].
  apply list_remove_length in Hrm.
  destruct (queue r) as [| w ws]; simpl.
  - split; [lia | left; reflexivity].
  - rewrite length_app. simpl.
    destruct Hq as [Hq | Hq]; [discriminate |]. split; [lia | right; lia].
Qed.

Lemma pool_apply_ok r op : pool_ok r -> pool_ok (pool_apply r op).
Proof. destruct op; [apply acquire_ok | apply release_ok]. Qed.

Lemma pool_apply_capacity r op : capacity (pool_apply r op) = capacity r.
Proof. destruct op; [apply acquire_capacity | apply release_capacity]. Qed.

Lemma pool_run_ok ops : forall r, pool_ok r -> pool_ok (pool_run r ops).
Proof.
  induction ops as [| op ops IH]; intros r Hr; simpl; [exact Hr |].
  apply IH, pool_apply_ok, Hr.
Qed.

Lemma pool_run_capacity ops : forall r,
  capacity (pool_run r ops) = capacity r.
Proof.
  induction ops as [| op ops IH]; intros r; simpl; [reflexivity |].
  unfold pool_run in IH. rewrite IH. apply pool_apply_capacity.
Qed.

(** The waiters leave the queue in the order they entered it: those who
    wait at the start, then those suspended during the operations, are
    those resumed during the operations, then those who still wait. *)
Lemma pool_waiters_fifo ops : forall r,
  queue r ++ suspended r ops = resumed r ops ++ queue (pool_run r ops).
Proof.
  induction ops as [| [h | h] ops IH]; intros r; simpl.
  - rewrite app_nil_r. reflexivity.
  - rewrite <- IH. unfold acquire.
    destruct (in_use r <? capacity r)%nat; simpl; [reflexivity |].
    rewrite <- app_assoc. reflexivity.
  - rewrite <- app_assoc, <- IH. unfold release, granted_by_release.
    destruct (list_remove h (users r)); [| reflexivity].
    destruct (queue r); reflexivity.
Qed.

(** Tokens are granted in the order they are asked for. *)
Lemma pool_grants_fifo ops : forall r,
  pool_ok r ->
  queue r ++ requests ops = grants r ops ++ queue (pool_run r ops).
Proof.
  induction ops as [| [h | h] ops IH]; intros r Hr; simpl.
  - rewrite app_nil_r. reflexivity.
  - rewrite <- app_assoc, <- (IH _ (acquire_ok r h Hr)).
    unfold granted_by_acquire, acquire.
    destruct Hr as [Hle Hq].
    destruct (Nat.ltb_spec (in_use r) (capacity r)) as [Hlt | Hge]; simpl.
    + destruct Hq as [-> | Hq]; [reflexivity | lia].
    + rewrite <- app_assoc. reflexivity.
  - rewrite <- app_assoc, <- (IH _ (release_ok r h Hr)).
    unfold granted_by_release, release.
    destruct (list_remove h (users r)); [| reflexivity].
    destruct (queue r); reflexivity.
Qed.

(** C2: after any sequence of acquire and release operations on a new
    pool, the in-use count is at most the configured capacity, and the
    waiters are resumed in the order in which they were suspended: the
    suspended processes are the resumed ones, in that order, followed by
    those that still wait. *)
Theorem pool_bounded_fifo (c : nat) (ops : list pool_op) :
  (in_use (pool_run (new_pool c) ops) <= c)%nat
  /\ suspended (new_pool c) ops
     = resumed (new_pool c) ops ++ queue (pool_run (new_pool c) ops).
Proof.
  split.
  - pose proof (pool_run_ok ops (new_pool c) (new_pool_ok c)) as [Hle _].
    rewrite pool_run_capacity in Hle. exact Hle.
  - exact (pool_waiters_fifo ops (new_pool c)).
Qed.

(** The pool in a small run: one token, three processes. *)
Example pool_one_token :
  let ops := [Acquire 1; Acquire 2; Acquire 3; Release 1; Release 2] in
  users (pool_run (new_pool 1) ops) = [3]
  /\ suspended (new_pool 1) ops = [2; 3]
  /\ resumed (new_pool 1) ops = [2; 3]
  /\ grants (new_pool 1) ops = [1; 2; 3].
Proof. repeat split. Qed.
(* ===================================================================== *)
(** * Invariants of a run *)
(* ===================================================================== *)

Lemma order_le_refl o : order_le o o.
Proof. split; [reflexivity | eauto]. Qed.

Lemma order_le_trans o1 o2 o3 :
  order_le o1 o2 -> order_le o2 o3 -> order_le o1 o3.
Proof.
  intros [Hl1 H1] [Hl2 H2]. split; [congruence |].
  intros j l Hj Hp. destruct (H1 j l Hj Hp) as (l' & Hj' & Hp'). eauto.
Qed.

(** An assignment that leaves the lines alone. *)
Lemma order_le_same_lines o o' : lines o' = lines o -> order_le o o'.
Proof. intros Heq. split; rewrite Heq; eauto. Qed.

(** [line.picked_quantity = line.quantity] on line [i]. *)
Lemma order_le_pick o i line :
  order_le o (set_lines (<[i := pick_all line]> (lines o)) o).
Proof.
  split; simpl; [apply length_insert |].
  intros j l Hj Hp. destruct (decide (i = j)) as [-> | Hne].
  - exists (pick_all line). split; [| reflexivity].
    apply list_lookup_insert_eq. eapply lookup_lt_Some, Hj.
  - exists l. split; [| exact Hp]. rewrite list_lookup_insert_ne; done.
Qed.

Lemma picked_upto_le n o o' :
  order_le o o' -> picked_upto n o -> picked_upto n o'.
Proof.
  intros [Hlen Hle] Hup j l' Hj Hl'.
  assert (Hlt : (j < length (lines o))%nat)
    by (rewrite <- Hlen; eapply lookup_lt_Some, Hl').
  apply lookup_lt_is_Some in Hlt as [l Hl].
  destruct (Hle j l Hl (Hup j l Hj Hl)) as (l'' & Hl'' & Hp).
  congruence.
Qed.

Lemma all_picked_upto o : all_picked o <-> picked_upto (length (lines o)) o.
Proof.
  unfold all_picked, picked_upto. rewrite Forall_lookup. split.
  - intros H j l _ Hl. exact (H j l Hl).
  - intros H j l Hl. apply (H j l); [eapply lookup_lt_Some, Hl | exact Hl].
Qed.

Lemma picked_upto_all n o :
  (length (lines o) <= n)%nat -> picked_upto n o -> all_picked o.
Proof.
  intros Hn Hup. apply all_picked_upto. intros j l Hj Hl.
  apply (Hup j l); [lia | exact Hl].
Qed.

Lemma picked_upto_succ i o line :
  lines o !! i = Some line -> line_picked line ->
  picked_upto i o -> picked_upto (S i) o.
Proof.
  intros Hi Hp Hup j l Hj Hl.
  destruct (decide (j = i)) as [-> | Hne]; [congruence |].
  apply (Hup j l); [lia | exact Hl].
Qed.

Lemma all_picked_le o o' : order_le o o' -> all_picked o -> all_picked o'.
Proof.
  intros Hle. rewrite !all_picked_upto. destruct Hle as [Hlen Hle].
  rewrite Hlen. apply picked_upto_le. split; assumption.
Qed.

Lemma proc_ok_le h h' pr : heap_le h h' -> proc_ok h pr -> proc_ok h' pr.
Proof.
  intros Hle (o & Ho & Hup). destruct (Hle _ _ Ho) as (o' & Ho' & Hoo).
  exists o'. split; [exact Ho' |].
  destruct (proc_pc pr); simpl in *;
    try (eapply picked_upto_le; [exact Hoo | exact Hup]).
  all: destruct Hoo as [Hlen Hoo]; rewrite Hlen;
    eapply picked_upto_le; [split; eassumption | exact Hup].
Qed.

Lemma heap_le_refl h : heap_le h h.
Proof. intros r o Ho. exists o. split; [exact Ho | apply order_le_refl]. Qed.

Lemma heap_le_trans h1 h2 h3 : heap_le h1 h2 -> heap_le h2 h3 -> heap_le h1 h3.
Proof.
  intros H1 H2 r o Ho. destruct (H1 r o Ho) as (o' & Ho' & Hle).
  destruct (H2 r o' Ho') as (o'' & Ho'' & Hle').
  exists o''. split; [exact Ho'' | eapply order_le_trans; eassumption].
Qed.

Lemma heap_le_alter h r (f : Order -> Order) :
  (forall o, order_le o (f o)) -> heap_le h (alter f r h).
Proof.
  intros Hf r' o Ho. destruct (decide (r = r')) as [-> | Hne].
  - exists (f o). rewrite lookup_alter_eq, Ho. split; [reflexivity | apply Hf].
  - exists o. rewrite lookup_alter_ne by done.
    split; [exact Ho | apply order_le_refl].
Qed.

Lemma heap_le_insert h r o o' :
  h !! r = Some o -> order_le o o' -> heap_le h (<[r := o']> h).
Proof.
  intros Hr Hle r' o0 Ho. destruct (decide (r = r')) as [-> | Hne].
  - exists o'. rewrite lookup_insert_eq. split; [reflexivity | congruence].
  - exists o0. rewrite lookup_insert_ne by done.
    split; [exact Ho | apply order_le_refl].
Qed.

Lemma heap_le_alloc h r o : h !! r = None -> heap_le h (<[r := o]> h).
Proof.
  intros Hr r' o0 Ho. exists o0. split; [| apply order_le_refl].
  rewrite lookup_insert_ne; [exact Ho | congruence].
Qed.

(** The shape of every step: the heap only grows in the sense of
    [heap_le]; the references stay below [next_ref]; a new completed order
    is picked in full; a new or moved process is [proc_ok]. *)
Lemma twin_inv_step s s' :
  twin_inv s ->
  heap_le (heap s) (heap s') ->
  (forall r, (next_ref s' <= r)%nat -> heap s' !! r = None) ->
  (forall r, r ∈ completed_orders s' ->
     r ∈ completed_orders s
     \/ exists o, heap s' !! r = Some o /\ all_picked o) ->
  (forall p pr, procs s' !! p = Some pr ->
     procs s !! p = Some pr \/ proc_ok (heap s') pr) ->
  twin_inv s'.
Proof.
  intros (Hfresh & Hprocs & Hdone) Hle Hfresh' Hdone' Hprocs'.
  split; [exact Hfresh' |]. split.
  - intros p pr Hp. destruct (Hprocs' p pr Hp) as [Hold | Hnew];
      [| exact Hnew].
    eapply proc_ok_le; [exact Hle | eapply Hprocs, Hold].
  - intros r Hr. destruct (Hdone' r Hr) as [Hold | Hnew]; [| exact Hnew].
    destruct (Hdone r Hold) as (o & Ho & Hall).
    destruct (Hle r o Ho) as (o' & Ho' & Hoo).
    exists o'. split; [exact Ho' | eapply all_picked_le; eassumption].
Qed.
Ltac twin_fields :=
  unfold start_process, alloc_order, set_proc, record_event, update_order;
  simpl.

(** What the head of the loop does at index [i]. *)
Lemma next_line_spec p pr i s s' :
  next_line p pr i s = Some s' ->
  exists o c,
    heap s !! proc_order pr = Some o
    /\ heap_le (heap s) (heap s')
    /\ (forall r, heap s !! r = None -> heap s' !! r = None)
    /\ next_ref s' = next_ref s
    /\ completed_orders s' = completed_orders s
    /\ inventory s' = inventory s
    /\ event_buffer s' = event_buffer s
    /\ procs s' = <[p := at_pc pr c]> (procs s)
    /\ ((c = AwaitForklift i /\ (i < length (lines o))%nat)
        \/ (c = AwaitWorkerPack /\ (length (lines o) <= i)%nat)).
Proof.
  unfold next_line. intros Hn.
  apply bind_Some in Hn as (o & Ho & Hn).
  destruct (Nat.ltb_spec i (length (lines o))) as [Hlt | Hge];
    injection Hn as <-; twin_fields.
  - exists o, (AwaitForklift i).
    repeat split; auto using heap_le_refl.
  - exists o, AwaitWorkerPack.
    split; [exact Ho |]. split.
    { apply heap_le_alter. intros o'. apply order_le_same_lines. reflexivity. }
    split.
    { intros r Hr. apply lookup_alter_None. exact Hr. }
    repeat split; auto.
Qed.

Lemma picked_upto_weaken n m o :
  (m <= n)%nat -> picked_upto n o -> picked_upto m o.
Proof. intros Hmn Hup j l Hj. apply Hup. lia. Qed.

(** A step that moves one process and touches no other: the invariant
    holds again when the lines the process has gone through are picked. *)
Lemma twin_inv_move s s' p pr pr' :
  twin_inv s ->
  procs s !! p = Some pr ->
  proc_order pr' = proc_order pr ->
  heap_le (heap s) (heap s') ->
  (forall r, heap s !! r = None -> heap s' !! r = None) ->
  next_ref s' = next_ref s ->
  completed_orders s' = completed_orders s ->
  procs s' = <[p := pr']> (procs s) ->
  (forall o, heap s' !! proc_order pr = Some o ->
     picked_upto (progress (proc_pc pr) o) o ->
     picked_upto (progress (proc_pc pr') o) o) ->
  twin_inv s'.
Proof.
  intros Hinv Hp Hord Hle Hnone Hnext Hdone Hprocs Hmove.
  pose proof Hinv as (Hfresh & Hpr & _).
  apply (twin_inv_step s s' Hinv Hle).
  - intros r Hr. apply Hnone, Hfresh. lia.
  - intros r Hr. left. congruence.
  - intros q prq Hq. rewrite Hprocs in Hq.
    apply lookup_insert_Some in Hq as [[<- <-] | [Hne Hq]];
      [right | left; exact Hq].
    destruct (proc_ok_le _ _ pr Hle (Hpr p pr Hp)) as (o & Ho & Hup).
    exists o. rewrite Hord. split; [exact Ho | apply Hmove; assumption].
Qed.

Section Run.

Variable fsqrt : Q -> Q.

Lemma seg_start_inv p pr wall s s' :
  procs s !! p = Some pr ->
  seg_start p pr wall s = Some s' -> twin_inv s -> twin_inv s'.
Proof.
  unfold seg_start. intros Hp Hseg Hinv.
  apply bind_Some in Hseg as (o & Ho & Hseg). injection Hseg as <-.
  apply (twin_inv_move s _ p pr (mkProcess (proc_order pr) AwaitWorkerPick
                                   (env_now s)) Hinv Hp);
    twin_fields; auto.
  - apply heap_le_alter. intros o'. apply order_le_same_lines. reflexivity.
  - intros r Hr. apply lookup_alter_None. exact Hr.
  - intros o' _ _ j l Hj. lia.
Qed.

Lemma seg_worker_assigned_inv p pr wall s s' :
  procs s !! p = Some pr ->
  seg_worker_assigned p pr wall s = Some s' -> twin_inv s -> twin_inv s'.
Proof.
  unfold seg_worker_assigned. intros Hp Hseg Hinv.
  apply bind_Some in Hseg as (o & Ho & Hseg).
  apply next_line_spec in Hseg
    as (o1 & c & Ho1 & Hle & Hnone & Hnext & Hdone & _ & _ & Hprocs & Hc).
  revert Ho1 Hle Hnone Hnext Hdone Hprocs. twin_fields.
  intros Ho1 Hle Hnone Hnext Hdone Hprocs.
  apply (twin_inv_move s s' p pr (at_pc pr c) Hinv Hp); auto.
  intros o' Ho' _.
  destruct (Hle _ _ Ho1) as (o'' & Ho'' & [Hlen _]).
  assert (o'' = o') as -> by congruence.
  destruct Hc as [[-> _] | [-> Hge]]; simpl; intros j l Hj; lia.
Qed.

Lemma seg_keep_heap_inv p pr c s :
  procs s !! p = Some pr ->
  (forall o, progress c o = progress (proc_pc pr) o) ->
  twin_inv s -> twin_inv (set_proc p (at_pc pr c) s).
Proof.
  intros Hp Hc Hinv.
  apply (twin_inv_move s _ p pr (at_pc pr c) Hinv Hp);
    twin_fields; auto using heap_le_refl.
  intros o _. rewrite Hc. auto.
Qed.

Lemma seg_forklift_granted_inv p pr i z s s' :
  procs s !! p = Some pr -> proc_pc pr = AwaitForklift i ->
  seg_forklift_granted p pr i z s = Some s' -> twin_inv s -> twin_inv s'.
Proof.
  unfold seg_forklift_granted. intros Hp Hpc Hseg Hinv.
  apply bind_Some in Hseg as (t & _ & Hseg). injection Hseg as <-.
  apply seg_keep_heap_inv; auto. intros o. rewrite Hpc. reflexivity.
Qed.

Lemma seg_travelled_inv p pr i w z s s' :
  procs s !! p = Some pr -> proc_pc pr = AwaitTravel i w ->
  seg_travelled fsqrt p pr i z s = Some s' -> twin_inv s -> twin_inv s'.
Proof.
  unfold seg_travelled. intros Hp Hpc Hseg Hinv.
  apply bind_Some in Hseg as (o & _ & Hseg).
  apply bind_Some in Hseg as (line & _ & Hseg).
  apply bind_Some in Hseg as (root & _ & Hseg).
  apply bind_Some in Hseg as (t & _ & Hseg). injection Hseg as <-.
  apply seg_keep_heap_inv; auto. intros o'. rewrite Hpc. reflexivity.
Qed.

Lemma seg_pack_start_inv p pr z s s' :
  procs s !! p = Some pr -> proc_pc pr = AwaitWorkerPack ->
  seg_pack_start fsqrt p pr z s = Some s' -> twin_inv s -> twin_inv s'.
Proof.
  unfold seg_pack_start. intros Hp Hpc Hseg Hinv.
  apply bind_Some in Hseg as (o & _ & Hseg).
  apply bind_Some in Hseg as (root & _ & Hseg).
  apply bind_Some in Hseg as (t & _ & Hseg). injection Hseg as <-.
  apply seg_keep_heap_inv; auto. intros o'. rewrite Hpc. reflexivity.
Qed.

Lemma seg_packed_inv p pr w z s s' :
  procs s !! p = Some pr -> proc_pc pr = AwaitPack w ->
  seg_packed p pr z s = Some s' -> twin_inv s -> twin_inv s'.
Proof.
  unfold seg_packed. intros Hp Hpc Hseg Hinv.
  apply bind_Some in Hseg as (t & _ & Hseg). injection Hseg as <-.
  apply (twin_inv_move s _ p pr (at_pc pr (AwaitShip (env_now s + t)%Q))
           Hinv Hp);
    twin_fields; auto.
  - apply heap_le_alter. intros o'. apply order_le_same_lines. reflexivity.
  - intros r Hr. apply lookup_alter_None. exact Hr.
  - intros o' _. rewrite Hpc. auto.
Qed.

Lemma seg_picked_inv p pr i w wall s s' :
  procs s !! p = Some pr -> proc_pc pr = AwaitPick i w ->
  seg_picked p pr i wall s = Some s' -> twin_inv s -> twin_inv s'.
Proof.
  unfold seg_picked. intros Hp Hpc Hseg Hinv.
  apply bind_Some in Hseg as (o & Ho & Hseg).
  apply bind_Some in Hseg as (line & Hline & Hseg).
  apply next_line_spec in Hseg
    as (o1 & c & Ho1 & Hle & Hnone & Hnext & Hdone & _ & _ & Hprocs & Hc).
  revert Ho1 Hle Hnone Hnext Hdone Hprocs. twin_fields.
  destruct (inventory s !! line_sku line) as [item |]; twin_fields;
    rewrite lookup_alter_eq, Ho; simpl;
    intros [= <-] Hle Hnone Hnext Hdone Hprocs.
  all: apply (twin_inv_move s s' p pr (at_pc pr c) Hinv Hp); auto.
  all: try (eapply heap_le_trans; [| exact Hle];
            apply heap_le_alter; intros o'; apply order_le_pick).
  all: try (intros r Hr; apply Hnone, lookup_alter_None; exact Hr).
  all: intros o' Ho' Hup; rewrite Hpc in Hup; simpl in Hup.
  all: destruct (Hle (proc_order pr)
                   (set_lines (<[i := pick_all line]> (lines o)) o))
         as (o'' & Ho'' & Hlen & Hoo);
         [rewrite lookup_alter_eq, Ho; reflexivity |].
  all: assert (o'' = o') as -> by congruence.
  all: destruct (Hoo i (pick_all line)) as (l' & Hl' & Hpl');
         [simpl; apply list_lookup_insert_eq; eapply lookup_lt_Some, Hline
         | reflexivity |].
  all: pose proof (picked_upto_succ i o' l' Hl' Hpl' Hup) as Hsucc.
  all: destruct Hc as [[-> _] | [-> Hge]]; simpl; [exact Hsucc |].
  all: eapply picked_upto_weaken; [| exact Hsucc].
  all: rewrite Hlen; simpl in *; rewrite length_insert in Hge |- *; lia.
Qed.

Lemma seg_shipped_inv p pr w wall s s' :
  procs s !! p = Some pr -> proc_pc pr = AwaitShip w ->
  seg_shipped p pr wall s = Some s' -> twin_inv s -> twin_inv s'.
Proof.
  unfold seg_shipped. intros Hp Hpc Hseg Hinv.
  apply bind_Some in Hseg as (o & Ho & Hseg). injection Hseg as <-.
  pose proof Hinv as (Hfresh & Hprocs & _).
  destruct (Hprocs p pr Hp) as (o0 & Ho0 & Hup).
  assert (o0 = o) as -> by congruence.
  rewrite Hpc in Hup. simpl in Hup.
  set (o' := set_completed_at (Some (wall 0%nat)) (set_status COMPLETED o)).
  assert (Hle : heap_le (heap s) (<[proc_order pr := o']> (heap s))).
  { eapply heap_le_insert; [exact Ho |].
    apply order_le_same_lines. reflexivity. }
  apply (twin_inv_step s _ Hinv).
  - destruct (active_orders _ !! _); twin_fields; exact Hle.
  - destruct (active_orders _ !! _); twin_fields; intros r Hr;
      (rewrite lookup_insert_ne;
       [apply Hfresh, Hr
       | intros <-; rewrite Hfresh in Ho by exact Hr; discriminate]).
  - destruct (active_orders _ !! _); twin_fields; intros r Hr;
      (apply elem_of_app in Hr as [Hr | Hr]; [left; exact Hr | right];
       apply list_elem_of_singleton in Hr as ->;
       exists o'; rewrite lookup_insert_eq; split; [reflexivity |];
       apply all_picked_upto; exact Hup).
  - destruct (active_orders _ !! _); twin_fields; intros q prq Hq;
      apply lookup_delete_Some in Hq as [_ Hq]; left; exact Hq.
Qed.

(** A new order object and a process for it. *)
Lemma spawn_inv o s :
  twin_inv s -> twin_inv (start_process (next_ref s) (alloc_order o s)).
Proof.
  intros Hinv. pose proof Hinv as (Hfresh & _ & _).
  assert (Hnew : heap s !! next_ref s = None) by (apply Hfresh; lia).
  apply (twin_inv_step s _ Hinv); twin_fields.
  - apply heap_le_alloc, Hnew.
  - intros r Hr. rewrite lookup_insert_ne by lia. apply Hfresh. lia.
  - intros r Hr. left. exact Hr.
  - intros q prq Hq.
    apply lookup_insert_Some in Hq as [[<- <-] | [_ Hq]];
      [right | left; exact Hq].
    exists o. simpl. rewrite lookup_insert_eq. split; [reflexivity |].
    intros j l Hj. lia.
Qed.

Lemma twin_inv_fields s s' :
  heap s' = heap s -> next_ref s' = next_ref s ->
  completed_orders s' = completed_orders s -> procs s' = procs s ->
  twin_inv s -> twin_inv s'.
Proof.
  unfold twin_inv. intros -> -> -> ->. auto.
Qed.

Lemma seg_arrival_inv d wall s s' :
  seg_arrival d wall s = Some s' -> twin_inv s -> twin_inv s'.
Proof.
  unfold seg_arrival. intros Hseg Hinv.
  apply bind_Some in Hseg as (n & _ & Hseg). simpl in Hseg.
  destruct (available_skus (inventory s)) as [| sku skus].
  { injection Hseg as <-. revert Hinv. apply twin_inv_fields; reflexivity. }
  destruct (draws_possible _ _ d); [| discriminate].
  apply bind_Some in Hseg as (ls & _ & Hseg). injection Hseg as <-.
  match goal with
  | |- twin_inv (start_process _ (record_event _ _ _
                   (set_active_orders _ (alloc_order ?o ?s0)))) =>
      pose proof (spawn_inv o s0) as Hsp
  end.
  revert Hsp. unfold twin_inv. twin_fields. intros Hsp. apply Hsp, Hinv.
Qed.

(** Every step keeps the invariant. *)
Lemma resume_inv s p now wall z s' :
  resume fsqrt s p now wall z = Some s' -> twin_inv s -> twin_inv s'.
Proof.
  unfold resume. intros Hres Hinv.
  apply bind_Some in Hres as (pr & Hp & Hres).
  assert (Hinv0 : twin_inv (set_env_now now s)) by exact Hinv.
  assert (Hp0 : procs (set_env_now now s) !! p = Some pr) by exact Hp.
  destruct (proc_pc pr) eqn:Hpc.
  - eapply seg_start_inv; eassumption.
  - eapply seg_worker_assigned_inv; eassumption.
  - eapply seg_forklift_granted_inv; eassumption.
  - eapply seg_travelled_inv; eassumption.
  - eapply seg_picked_inv; eassumption.
  - eapply seg_pack_start_inv; eassumption.
  - eapply seg_packed_inv; eassumption.
  - eapply seg_shipped_inv; eassumption.
Qed.

Lemma step_inv s a s' :
  step fsqrt s a = Some s' -> twin_inv s -> twin_inv s'.
Proof.
  destruct a as [p now wall z | now wall d | o]; simpl.
  - destruct (enabled s p now); [apply resume_inv | discriminate].
  - destruct (Qle_bool (env_now s) now); [| discriminate].
    intros Hseg Hinv. eapply seg_arrival_inv; [exact Hseg | exact Hinv].
  - intros [= <-]. apply spawn_inv.
Qed.

Lemma run_inv tr : forall s s',
  run fsqrt s tr = Some s' -> twin_inv s -> twin_inv s'.
Proof.
  induction tr as [| a tr IH]; intros s s' Hrun Hinv; simpl in Hrun.
  - injection Hrun as <-. exact Hinv.
  - apply bind_Some in Hrun as (s1 & Hstep & Hrun).
    eapply IH; [exact Hrun |]. eapply step_inv; eassumption.
Qed.

Lemma init_twin_inv cfg erp_adapter : twin_inv (init_twin cfg erp_adapter).
Proof.
  unfold twin_inv. simpl. split; [| split].
  - intros r _. apply lookup_empty.
  - intros p pr Hp. rewrite lookup_empty in Hp. discriminate.
  - intros r Hr. inversion Hr.
Qed.
End Run.
(** Taking a successful segment apart: its binds and its tests. *)
Ltac unbind H :=
  repeat (let x := fresh "x" in
          let Hx := fresh "Hx" in
          apply bind_Some in H as (x & Hx & H); simpl in H).

Ltac seg_cases H :=
  unfold seg_start, seg_worker_assigned, seg_forklift_granted,
    seg_travelled, seg_picked, seg_pack_start, seg_packed, seg_shipped,
    next_line in H;
  unbind H;
  repeat match type of H with
         | (if ?c then _ else _) = Some _ => destruct c
         end;
  try discriminate H; try (injection H as <-).

Section Pools.

Variable fsqrt : Q -> Q.

Ltac pools_auto :=
  unfold pools_inv in *; twin_fields;
  rewrite ?acquire_capacity, ?release_capacity;
  intuition (auto using acquire_ok, release_ok).

Lemma resume_pools s p now wall z s' :
  resume fsqrt s p now wall z = Some s' -> pools_inv s -> pools_inv s'.
Proof.
  unfold resume. intros H Hinv. unbind H.
  destruct (proc_pc x); seg_cases H;
    repeat match goal with
           | |- context [match ?o with Some _ => _ | None => _ end] =>
               destruct o
           end; pools_auto.
Qed.

Lemma step_pools s a s' :
  step fsqrt s a = Some s' -> pools_inv s -> pools_inv s'.
Proof.
  destruct a as [p now wall z | now wall d | o]; simpl.
  - destruct (enabled s p now); [apply resume_pools | discriminate].
  - destruct (Qle_bool (env_now s) now); [| discriminate].
    unfold seg_arrival. intros H Hinv. unbind H.
    destruct (available_skus _); [injection H as <-; pools_auto |].
    destruct (draws_possible _ _ _); [| discriminate].
    unbind H. injection H as <-. pools_auto.
  - intros [= <-]. pools_auto.
Qed.

Lemma step_config s a s' :
  step fsqrt s a = Some s' -> config s' = config s.
Proof.
  destruct a as [p now wall z | now wall d | o]; simpl.
  - destruct (enabled s p now); [| discriminate].
    unfold resume. intros H. unbind H.
    destruct (proc_pc x); seg_cases H; twin_fields;
      repeat match goal with
             | |- context [match ?o with Some _ => _ | None => _ end] =>
                 destruct o
             end; reflexivity.
  - destruct (Qle_bool (env_now s) now); [| discriminate].
    unfold seg_arrival. intros H. unbind H.
    destruct (available_skus _); [injection H as <-; reflexivity |].
    destruct (draws_possible _ _ _); [| discriminate].
    unbind H. injection H as <-. reflexivity.
  - intros [= <-]. reflexivity.
Qed.

(** In every state of a run, no pool has more tokens out than the
    configuration gives it. *)
Lemma run_pools_bounded cfg erp_adapter tr : forall s,
  run fsqrt (init_twin cfg erp_adapter) tr = Some s ->
  (in_use (workers s) <= num_workers cfg)%nat
  /\ (in_use (forklifts s) <= num_forklifts cfg)%nat.
Proof.
  assert (Hgen : forall tr s0 s,
            run fsqrt s0 tr = Some s -> pools_inv s0 ->
            pools_inv s /\ config s = config s0).
  { clear tr. induction tr as [| a tr IH]; intros s0 s Hrun Hinv;
      simpl in Hrun.
    - injection Hrun as <-. split; [exact Hinv | reflexivity].
    - apply bind_Some in Hrun as (s1 & Hstep & Hrun).
      destruct (IH s1 s Hrun (step_pools _ _ _ Hstep Hinv)) as [Hp Hc].
      split; [exact Hp |]. rewrite Hc. eapply step_config, Hstep. }
  intros s Hrun.
  destruct (Hgen tr _ s Hrun) as [(Hw & Hwc & Hf & Hfc) Hcfg].
  { unfold pools_inv. simpl. auto using new_pool_ok. }
  rewrite Hcfg in Hwc, Hfc. simpl in Hwc, Hfc.
  destruct Hw as [Hw _], Hf as [Hf _]. rewrite Hwc in Hw. rewrite Hfc in Hf.
  split; assumption.
Qed.

End Pools.
(* ===================================================================== *)
(** * Properties of the fulfilment process *)
(* ===================================================================== *)

Lemma all_picked_items o : all_picked o -> picked_items o = total_items o.
Proof.
  unfold all_picked, picked_items, total_items, sumZ.
  induction 1 as [| l ls Hl _ IH]; [reflexivity |].
  rewrite !fmap_cons. cbn [foldr].
  unfold line_picked in Hl. rewrite IH, Hl. reflexivity.
Qed.

Lemma all_picked_fully o : all_picked o -> is_fully_picked o = true.
Proof.
  unfold all_picked, is_fully_picked.
  induction 1 as [| l ls Hl _ IH]; simpl; [reflexivity |].
  unfold line_picked in Hl. rewrite IH, Hl, Z.leb_refl. reflexivity.
Qed.

Section Fulfilment.

Variable fsqrt : Q -> Q.

(** C9: when the process wakes up after the pick of a line whose SKU the
    inventory does not have, the resumption raises nothing and runs to
    the next suspension point (the forklift request of the next line, or
    the worker request of the packing phase); the picked quantity of the
    line is its ordered quantity; the inventory is left as it was and no
    event is recorded. *)
Theorem pick_of_unknown_sku (s : twin) (p : pid) (pr : process) (i : nat)
    (wake : Q) (o : Order) (line : OrderLine) (now : Q) (wall : nat -> Z)
    (z : Q) :
  procs s !! p = Some pr ->
  proc_pc pr = AwaitPick i wake ->
  heap s !! proc_order pr = Some o ->
  lines o !! i = Some line ->
  inventory s !! line_sku line = None ->
  exists s' o' line' pr',
    resume fsqrt s p now wall z = Some s'
    /\ heap s' !! proc_order pr = Some o'
    /\ lines o' !! i = Some line'
    /\ line_sku line' = line_sku line
    /\ line_quantity line' = line_quantity line
    /\ line_picked_quantity line' = line_quantity line
    /\ inventory s' = inventory s
    /\ event_buffer s' = event_buffer s
    /\ procs s' !! p = Some pr'
    /\ (proc_pc pr' = AwaitForklift (S i) \/ proc_pc pr' = AwaitWorkerPack).
Proof.
  intros Hp Hpc Ho Hline Hsku.
  assert (Hi : (i < length (lines o))%nat) by (eapply lookup_lt_Some, Hline).
  unfold resume. rewrite Hp. simpl. rewrite Hpc.
  unfold seg_picked. twin_fields. rewrite Ho. simpl. rewrite Hline. simpl.
  rewrite Hsku. unfold next_line. twin_fields.
  rewrite lookup_alter_eq, Ho. simpl. rewrite length_insert.
  destruct (S i <? length (lines o))%nat.
  - eexists _, _, (pick_all line), _. split; [reflexivity |]. twin_fields.
    rewrite lookup_alter_eq, Ho. simpl.
    split; [reflexivity |]. split; [apply list_lookup_insert_eq, Hi |].
    rewrite lookup_insert_eq. repeat split; auto.
  - eexists _, _, (pick_all line), _. split; [reflexivity |]. twin_fields.
    rewrite !lookup_alter_eq, Ho. simpl.
    split; [reflexivity |]. split; [apply list_lookup_insert_eq, Hi |].
    rewrite lookup_insert_eq. repeat split; auto.
Qed.

(** C10: in every state of a run of the twin, every order of
    [completed_orders] has each of its lines picked in full, so its
    [picked_items] equals its [total_items] and [is_fully_picked] holds. *)
Theorem completed_orders_fully_picked (cfg : SimulationConfig)
    (erp_adapter : ERPAdapter) (tr : list action) (s : twin) (r : oref) :
  run fsqrt (init_twin cfg erp_adapter) tr = Some s ->
  r ∈ completed_orders s ->
  exists o,
    heap s !! r = Some o
    /\ (forall l, l ∈ lines o -> line_picked_quantity l = line_quantity l)
    /\ picked_items o = total_items o
    /\ is_fully_picked o = true.
Proof.
  intros Hrun Hr.
  pose proof (run_inv fsqrt tr _ _ Hrun (init_twin_inv cfg erp_adapter))
    as (_ & _ & Hdone).
  destruct (Hdone r Hr) as (o & Ho & Hall).
  exists o. split; [exact Ho |]. split; [| split].
  - intros l Hl. unfold all_picked in Hall. rewrite Forall_forall in Hall.
    apply Hall. exact Hl.
  - apply all_picked_items, Hall.
  - apply all_picked_fully, Hall.
Qed.

End Fulfilment.

Lemma pick_of_unknown_sku_witness :
  exists s' o' line' pr',
    resume id_sqrt ghost_state 0 13 tick 0 = Some s'
    /\ heap s' !! 0%nat = Some o'
    /\ lines o' !! 1%nat = Some line'
    /\ line_sku line' = "GHOST"
    /\ line_quantity line' = 3%Z
    /\ line_picked_quantity line' = 3%Z
    /\ inventory s' = inventory ghost_state
    /\ event_buffer s' = event_buffer ghost_state
    /\ procs s' !! 0%nat = Some pr'
    /\ (proc_pc pr' = AwaitForklift 2 \/ proc_pc pr' = AwaitWorkerPack).
Proof.
  apply (pick_of_unknown_sku id_sqrt ghost_state 0
           (mkProcess 0 (AwaitPick 1 13.0) 0) 1 13.0
           (set_pick_start_time (Some 0%Q)
              (set_status PICKING
                 (set_lines
                    [ mkOrderLine "SKU-0000" 2 2 (Some "A-00-00");
                      mkOrderLine "GHOST" 3 0 None ] ghost_order)))
           (mkOrderLine "GHOST" 3 0 None) 13 tick 0);
    vm_compute; reflexivity.
Defined.

Lemma completed_orders_fully_picked_witness :
  exists s o,
    run id_sqrt (init_twin default_config erp_in_sync) ghost_run = Some s
    /\ 0%nat ∈ completed_orders s
    /\ heap s !! 0%nat = Some o
    /\ (forall l, l ∈ lines o -> line_picked_quantity l = line_quantity l)
    /\ picked_items o = total_items o
    /\ is_fully_picked o = true.
Proof.
  destruct (run id_sqrt (init_twin default_config erp_in_sync) ghost_run)
    as [s |] eqn:Hrun; [| vm_compute in Hrun; discriminate].
  assert (Hin : 0%nat ∈ completed_orders s).
  { vm_compute in Hrun. injection Hrun as <-. simpl. left. }
  destruct (completed_orders_fully_picked id_sqrt default_config erp_in_sync
              ghost_run s 0%nat Hrun Hin) as (o & Ho & Hlines & Hsum & Hfull).
  exists s, o. split; [reflexivity |]. split; [exact Hin |].
  split; [exact Ho |]. split; [exact Hlines |].
  split; [exact Hsum | exact Hfull].
Defined.

Section Buffer.

Variable fsqrt : Q -> Q.

Ltac buffer_auto :=
  unfold buffer_inv in *; twin_fields;
  repeat match goal with
         | |- context [match ?o with Some _ => _ | None => _ end] =>
             destruct o
         end;
  twin_fields; repeat apply record_event_length; assumption.

Lemma step_buffer s a s' :
  step fsqrt s a = Some s' -> buffer_inv s -> buffer_inv s'.
Proof.
  destruct a as [p now wall z | now wall d | o]; simpl.
  - destruct (enabled s p now); [| discriminate].
    unfold resume. intros H Hinv. unbind H.
    destruct (proc_pc x); seg_cases H; buffer_auto.
  - destruct (Qle_bool (env_now s) now); [| discriminate].
    unfold seg_arrival. intros H Hinv. unbind H.
    destruct (available_skus _); [injection H as <-; buffer_auto |].
    destruct (draws_possible _ _ _); [| discriminate].
    unbind H. injection H as <-. buffer_auto.
  - intros [= <-]. intros Hinv. buffer_auto.
Qed.

(** X8: in every state of a run the event buffer is within its capacity. *)
Lemma run_event_buffer_bounded cfg erp_adapter tr : forall s,
  run fsqrt (init_twin cfg erp_adapter) tr = Some s ->
  (length (event_buffer s) <= event_buffer_size cfg)%nat.
Proof.
  assert (Hgen : forall tr s0 s,
            run fsqrt s0 tr = Some s -> buffer_inv s0 ->
            buffer_inv s /\ config s = config s0).
  { clear tr. induction tr as [| a tr IH]; intros s0 s Hrun Hinv;
      simpl in Hrun.
    - injection Hrun as <-. split; [exact Hinv | reflexivity].
    - apply bind_Some in Hrun as (s1 & Hstep & Hrun).
      destruct (IH s1 s Hrun (step_buffer _ _ _ Hstep Hinv)) as [Hp Hc].
      split; [exact Hp |]. rewrite Hc. eapply step_config, Hstep. }
  intros s Hrun.
  destruct (Hgen tr _ s Hrun) as [Hb Hcfg].
  { unfold buffer_inv. simpl. lia. }
  unfold buffer_inv in Hb. rewrite Hcfg in Hb. exact Hb.
Qed.

End Buffer.

(** The generator draws three units of the only SKU, of which one is in
    stock; the pick leaves the twin with a stock of [-2]. *)
Example oversold_is_reachable :
  inventory
    <$> run id_sqrt (init_twin default_config erp_one_left)
          [ Arrive 12 tick (mkDraws 0 ["SKU-0000"] [3%Z] 1 1);
            Resume 0 12 tick 0; Resume 0 12 tick 0; Resume 0 12 tick 0;
            Resume 0 13.5 tick 0; Resume 0 19.5 tick 0 ]
  = Some twin_oversold.
Proof. vm_compute. reflexivity. Qed.
(* ===================================================================== *)
(** * The wall clock and the results of a run *)
(* ===================================================================== *)

Lemma scrub_order_idem o : scrub_order (scrub_order o) = scrub_order o.
Proof. unfold scrub_order. simpl. destruct (completed_at o); reflexivity. Qed.

Lemma scrub_heap_alter (f : Order -> Order) r (h : gmap oref Order) :
  (forall o, scrub_order (f (scrub_order o)) = scrub_order (f o)) ->
  scrub_order <$> alter f r (scrub_order <$> h)
  = scrub_order <$> alter f r h.
Proof.
  intros Hf. apply map_eq. intros k. rewrite !lookup_fmap.
  destruct (decide (r = k)) as [-> | Hne].
  - rewrite !lookup_alter_eq, lookup_fmap.
    destruct (h !! k); simpl; [rewrite Hf |]; reflexivity.
  - rewrite !lookup_alter_ne, lookup_fmap by done.
    destruct (h !! k); simpl; [rewrite scrub_order_idem |]; reflexivity.
Qed.

Lemma scrub_heap_insert r o o' (h : gmap oref Order) :
  scrub_order o = scrub_order o' ->
  scrub_order <$> <[r := o]> (scrub_order <$> h)
  = scrub_order <$> <[r := o']> h.
Proof.
  intros Ho. apply map_eq. intros k. rewrite !lookup_fmap.
  destruct (decide (r = k)) as [-> | Hne].
  - rewrite !lookup_insert_eq. simpl. rewrite Ho. reflexivity.
  - rewrite !lookup_insert_ne, lookup_fmap by done.
    destruct (h !! k); simpl; [rewrite scrub_order_idem |]; reflexivity.
Qed.

Lemma scrub_heap_idem (h : gmap oref Order) :
  scrub_order <$> (scrub_order <$> h) = scrub_order <$> h.
Proof.
  apply map_eq. intros k. rewrite !lookup_fmap.
  destruct (h !! k); simpl; [rewrite scrub_order_idem |]; reflexivity.
Qed.

Lemma deque_append_length_eq {A B} maxlen (d : list A) (d' : list B) x y :
  length d = length d' ->
  length (deque_append maxlen d x) = length (deque_append maxlen d' y).
Proof.
  intros Hl. unfold deque_append. rewrite !length_app, Hl. simpl.
  destruct (maxlen <? _)%nat; [| rewrite !length_app, Hl; reflexivity].
  destruct d, d'; simpl in *; try discriminate; [reflexivity |].
  rewrite !length_app. simpl. lia.
Qed.

Lemma scrub_buffer_record cfg buf ty now d ty' now' d' :
  replicate (length (_record_event cfg
                       (replicate (length buf) blank_event) ty now d))
            blank_event
  = replicate (length (_record_event cfg buf ty' now' d')) blank_event.
Proof.
  f_equal. apply deque_append_length_eq. apply length_replicate.
Qed.

Lemma twin_ext (s1 s2 : twin) :
  config s1 = config s2 -> env_now s1 = env_now s2 ->
  workers s1 = workers s2 -> forklifts s1 = forklifts s2 ->
  inventory s1 = inventory s2 -> heap s1 = heap s2 ->
  next_ref s1 = next_ref s2 -> active_orders s1 = active_orders s2 ->
  completed_orders s1 = completed_orders s2 -> metrics s1 = metrics s2 ->
  event_buffer s1 = event_buffer s2 -> procs s1 = procs s2 ->
  next_pid s1 = next_pid s2 -> order_count s1 = order_count s2 ->
  s1 = s2.
Proof. destruct s1, s2. simpl. intros. subst. reflexivity. Qed.

Section Clock.

Variable fsqrt : Q -> Q.

Ltac scrub_order_simpl :=
  let o := fresh "o" in
  intros o; unfold scrub_order, compose; simpl;
  destruct (completed_at o); reflexivity.

Ltac scrub_field :=
  lazymatch goal with
  | |- scrub_order <$> (scrub_order <$> _) = _ => apply scrub_heap_idem
  | |- scrub_order <$> alter _ _ (scrub_order <$> _) = _ =>
      apply scrub_heap_alter; scrub_order_simpl
  | |- scrub_order <$> alter _ _ (alter _ _ (scrub_order <$> _)) = _ =>
      rewrite !alter_alter_eq; apply scrub_heap_alter; scrub_order_simpl
  | |- scrub_order <$> _ = scrub_order <$> _ => idtac
  | |- replicate _ _ = replicate _ _ =>
      rewrite ?length_replicate;
      first [ apply scrub_buffer_record | reflexivity ]
  | |- _ => reflexivity
  end.

Ltac scrub_twin :=
  apply (f_equal Some); apply twin_ext; unfold scrub; twin_fields;
  scrub_field.

Lemma enabled_scrub s p now : enabled (scrub s) p now = enabled s p now.
Proof. reflexivity. Qed.

Lemma next_line_scrub p pr i s :
  scrub <$> next_line p pr i (scrub s) = scrub <$> next_line p pr i s.
Proof.
  unfold next_line. twin_fields. rewrite lookup_fmap.
  destruct (heap s !! proc_order pr) as [o |]; simpl; [| reflexivity].
  destruct (i <? length (lines o))%nat; simpl; scrub_twin.
Qed.

Lemma seg_start_scrub p pr wall s :
  scrub <$> seg_start p pr (fun _ => 0%Z) (scrub s)
  = scrub <$> seg_start p pr wall s.
Proof.
  unfold seg_start. twin_fields. rewrite lookup_fmap.
  destruct (heap s !! proc_order pr) as [o |]; simpl; [| reflexivity].
  scrub_twin.
Qed.

Lemma seg_worker_assigned_scrub p pr wall s :
  scrub <$> seg_worker_assigned p pr (fun _ => 0%Z) (scrub s)
  = scrub <$> seg_worker_assigned p pr wall s.
Proof.
  unfold seg_worker_assigned, next_line. twin_fields. rewrite lookup_fmap.
  destruct (heap s !! proc_order pr) as [o |]; simpl; [| reflexivity].
  destruct (0 <? length (lines o))%nat; simpl; scrub_twin.
Qed.

Lemma seg_forklift_granted_scrub p pr i z s :
  scrub <$> seg_forklift_granted p pr i z (scrub s)
  = scrub <$> seg_forklift_granted p pr i z s.
Proof.
  unfold seg_forklift_granted. twin_fields.
  destruct (_sample_time _ _ z); simpl; [| reflexivity]. scrub_twin.
Qed.

Lemma seg_travelled_scrub p pr i z s :
  scrub <$> seg_travelled fsqrt p pr i z (scrub s)
  = scrub <$> seg_travelled fsqrt p pr i z s.
Proof.
  unfold seg_travelled. twin_fields. rewrite lookup_fmap.
  destruct (heap s !! proc_order pr) as [o |]; simpl; [| reflexivity].
  destruct (lines o !! i) as [line |]; simpl; [| reflexivity].
  destruct (pow_half fsqrt (line_quantity line)); simpl; [| reflexivity].
  destruct (_sample_time _ _ z); simpl; [| reflexivity]. scrub_twin.
Qed.

Lemma seg_picked_scrub p pr i wall s :
  scrub <$> seg_picked p pr i (fun _ => 0%Z) (scrub s)
  = scrub <$> seg_picked p pr i wall s.
Proof.
  unfold seg_picked, next_line. twin_fields. rewrite lookup_fmap.
  destruct (heap s !! proc_order pr) as [o |] eqn:Ho; simpl; [| reflexivity].
  destruct (lines o !! i) as [line |]; simpl; [| reflexivity].
  destruct (inventory s !! line_sku line) as [item |]; twin_fields;
    rewrite !lookup_alter_eq, lookup_fmap, Ho; simpl;
    rewrite length_insert;
    destruct (S i <? length (lines o))%nat; simpl; scrub_twin.
Qed.

Lemma seg_pack_start_scrub p pr z s :
  scrub <$> seg_pack_start fsqrt p pr z (scrub s)
  = scrub <$> seg_pack_start fsqrt p pr z s.
Proof.
  unfold seg_pack_start. twin_fields. rewrite lookup_fmap.
  destruct (heap s !! proc_order pr) as [o |]; simpl; [| reflexivity].
  change (total_items (scrub_order o)) with (total_items o).
  destruct (pow_half fsqrt (total_items o)); simpl; [| reflexivity].
  destruct (_sample_time _ _ z); simpl; [| reflexivity]. scrub_twin.
Qed.

Lemma seg_packed_scrub p pr z s :
  scrub <$> seg_packed p pr z (scrub s) = scrub <$> seg_packed p pr z s.
Proof.
  unfold seg_packed.
  destruct (_sample_time 1 0.2 z) as [t |]; [| reflexivity].
  twin_fields. scrub_twin.
Qed.

Lemma seg_shipped_scrub p pr wall s :
  scrub <$> seg_shipped p pr (fun _ => 0%Z) (scrub s)
  = scrub <$> seg_shipped p pr wall s.
Proof.
  unfold seg_shipped. twin_fields. rewrite lookup_fmap.
  destruct (heap s !! proc_order pr) as [o |]; simpl; [| reflexivity].
  destruct (active_orders s !! order_id o); scrub_twin.
  all: apply scrub_heap_insert; unfold scrub_order; simpl;
    destruct (completed_at o); reflexivity.
Qed.

Lemma resume_scrub s p now wall z :
  scrub <$> resume fsqrt (scrub s) p now (fun _ => 0%Z) z
  = scrub <$> resume fsqrt s p now wall z.
Proof.
  unfold resume.
  change (procs (scrub s)) with (procs s).
  destruct (procs s !! p) as [pr |]; simpl; [| reflexivity].
  change (set_env_now now (scrub s)) with (scrub (set_env_now now s)).
  destruct (proc_pc pr).
  - apply seg_start_scrub.
  - apply seg_worker_assigned_scrub.
  - apply seg_forklift_granted_scrub.
  - apply seg_travelled_scrub.
  - apply seg_picked_scrub.
  - apply seg_pack_start_scrub.
  - apply seg_packed_scrub.
  - apply seg_shipped_scrub.
Qed.

Lemma seg_arrival_scrub d wall s :
  scrub <$> seg_arrival d (fun _ => 0%Z) (scrub s)
  = scrub <$> seg_arrival d wall s.
Proof.
  unfold seg_arrival. twin_fields.
  destruct (num_items_of (config s) (draw_items d)) as [n |]; simpl;
    [| reflexivity].
  destruct (available_skus (inventory s)) as [| sku skus]; [scrub_twin |].
  destruct (draws_possible _ _ d); [| reflexivity].
  destruct (mapM _ _) as [ls |]; simpl; [| reflexivity].
  scrub_twin. apply scrub_heap_insert. reflexivity.
Qed.

Lemma step_scrub s a :
  scrub <$> step fsqrt (scrub s) (scrub_action a) = scrub <$> step fsqrt s a.
Proof.
  destruct a as [p now wall z | now wall d | o]; simpl.
  - rewrite enabled_scrub. destruct (enabled s p now); [| reflexivity].
    apply resume_scrub.
  - change (env_now (scrub s)) with (env_now s).
    destruct (Qle_bool (env_now s) now); [| reflexivity].
    change (set_env_now now (scrub s)) with (scrub (set_env_now now s)).
    apply seg_arrival_scrub.
  - scrub_twin. apply scrub_heap_insert, scrub_order_idem.
Qed.

Lemma scrub_action_idem a : scrub_action (scrub_action a) = scrub_action a.
Proof. destruct a; simpl; [| | rewrite scrub_order_idem]; reflexivity. Qed.

Lemma scrub_idem s : scrub (scrub s) = scrub s.
Proof.
  apply twin_ext; unfold scrub; twin_fields;
    rewrite ?length_replicate; try reflexivity.
  apply scrub_heap_idem.
Qed.

(** From two states that differ in clock readings only, a run and the
    same run with the clock standing still end in two such states. *)
Lemma run_scrub_from tr : forall s1 s2,
  scrub s1 = scrub s2 ->
  scrub <$> run fsqrt s1 (scrub_action <$> tr) = scrub <$> run fsqrt s2 tr.
Proof.
  induction tr as [| a tr IH]; intros s1 s2 Hs; simpl.
  - rewrite Hs. reflexivity.
  - assert (Hstep : scrub <$> step fsqrt s1 (scrub_action a)
                    = scrub <$> step fsqrt s2 a).
    { rewrite <- (step_scrub s2 a), <- Hs.
      rewrite <- (step_scrub s1 (scrub_action a)), scrub_action_idem.
      reflexivity. }
    destruct (step fsqrt s1 (scrub_action a)) as [s1' |];
      destruct (step fsqrt s2 a) as [s2' |];
      simpl in *; try discriminate; [| reflexivity].
    apply IH. apply (inj Some) in Hstep. exact Hstep.
Qed.

Lemma run_scrub tr s :
  scrub <$> run fsqrt (scrub s) (scrub_action <$> tr)
  = scrub <$> run fsqrt s tr.
Proof. apply run_scrub_from, scrub_idem. Qed.

Lemma simulation_results_scrub s :
  simulation_results fsqrt (scrub s) = simulation_results fsqrt s.
Proof.
  unfold simulation_results, scrub. twin_fields.
  rewrite length_replicate. reflexivity.
Qed.

(** X9: two runs of a twin that take the same decisions of the scheduler and
    the same random draws, and differ only in what the wall clock reads,
    give the same results: the same numbers of completed orders, of
    orders in progress and of events, and the same metrics summary. *)
Lemma results_ignore_wall_clock (s : twin) (tr1 tr2 : list action) :
  scrub_action <$> tr1 = scrub_action <$> tr2 ->
  simulation_results fsqrt <$> run fsqrt s tr1
  = simulation_results fsqrt <$> run fsqrt s tr2.
Proof.
  intros Htr.
  assert (H : forall tr,
            simulation_results fsqrt <$> run fsqrt s tr
            = simulation_results fsqrt
                <$> (scrub <$> run fsqrt (scrub s) (scrub_action <$> tr))).
  { intros tr. rewrite run_scrub.
    destruct (run fsqrt s tr); simpl; [| reflexivity].
    rewrite simulation_results_scrub. reflexivity. }
  rewrite (H tr1), (H tr2), Htr. reflexivity.
Qed.

End Clock.
(* ===================================================================== *)
(** * Further properties of the drift monitor *)
(* ===================================================================== *)

Section DriftMore.

Variable erp_inventory : gmap string InventoryItem.

(** The loop only adds: both totals grow, and a shared SKU adds its
    difference to the first and at least one to the second. *)
Lemma drift_fold_grows (items : list (string * InventoryItem)) :
  forall acc : Z * Z,
    (acc.1 <= (foldl (drift_step erp_inventory) acc items).1)%Z
    /\ (acc.2 <= (foldl (drift_step erp_inventory) acc items).2)%Z.
Proof.
  induction items as [| [sku dt] items IH]; intros acc; simpl; [lia |].
  destruct (IH (drift_step erp_inventory acc (sku, dt))) as [H1 H2].
  unfold drift_step in *. simpl in *.
  destruct (erp_inventory !! sku); simpl in *; lia.
Qed.

Lemma drift_fold_shared (items : list (string * InventoryItem)) :
  forall (acc : Z * Z) sku dt erp,
    (sku, dt) ∈ items ->
    erp_inventory !! sku = Some erp ->
    (acc.1 + Z.abs (item_quantity erp - item_quantity dt)
       <= (foldl (drift_step erp_inventory) acc items).1)%Z
    /\ (acc.2 + 1 <= (foldl (drift_step erp_inventory) acc items).2)%Z.
Proof.
  induction items as [| [sku' dt'] items IH]; intros acc sku dt erp Hin Herp.
  - inversion Hin.
  - simpl. apply elem_of_cons in Hin as [[= <- <-] | Hin].
    + pose proof (drift_fold_grows items
                    (drift_step erp_inventory acc (sku, dt))) as [H1 H2].
      unfold drift_step in *. simpl in *. rewrite Herp in *. simpl in *. lia.
    + destruct (IH (drift_step erp_inventory acc (sku', dt')) sku dt erp
                  Hin Herp) as [H1 H2].
      unfold drift_step in *. simpl in *.
      destruct (erp_inventory !! sku'); simpl in *; lia.
Qed.

End DriftMore.

Lemma drift_ratio_zero_inv (totals : Z * Z) :
  (0 < totals.2)%Z -> (drift_ratio totals == 0)%Q -> totals.1 = 0%Z.
Proof.
  intros Hpos. unfold drift_ratio.
  destruct (Z.ltb_spec 0 totals.2) as [_ | Hle]; [| lia].
  intros Hz.
  assert (Hne : ~ (inject_Z totals.2 == 0)%Q).
  { unfold Qeq. simpl. lia. }
  assert (H : (inject_Z totals.1 == 0)%Q).
  { transitivity (inject_Z totals.2 * (inject_Z totals.1 / inject_Z totals.2))%Q.
    - symmetry. apply Qmult_div_r. exact Hne.
    - rewrite Hz. apply Qmult_0_r. }
  unfold Qeq in H. simpl in H. lia.
Qed.

(** X1: a connected twin whose drift is [0.0] agrees with the external
    inventory on the quantity of every SKU they share. *)
Theorem sync_drift_zero_means_in_sync cfg now erp_adapter
    (inventory : gmap string InventoryItem) buf sku dt erp :
  connected erp_adapter = true ->
  ((calculate_sync_drift cfg now erp_adapter inventory buf).1 == 0)%Q ->
  inventory !! sku = Some dt ->
  fetch_inventory erp_adapter !! sku = Some erp ->
  item_quantity erp = item_quantity dt.
Proof.
  intros Hc Hz Hdt Herp.
  rewrite calculate_sync_drift_value in Hz by exact Hc.
  assert (Hin : (sku, dt) ∈ map_to_list inventory)
    by (apply elem_of_map_to_list; exact Hdt).
  destruct (drift_fold_shared (fetch_inventory erp_adapter)
              (map_to_list inventory) (0, 0)%Z sku dt erp Hin Herp)
    as [H1 H2].
  unfold drift_totals in Hz. simpl in H1, H2.
  apply drift_ratio_zero_inv in Hz; [lia | lia].
Qed.

Lemma sync_drift_zero_means_in_sync_witness :
  item_quantity (stock_item "SKU-0000" 40)
  = item_quantity (stock_item "SKU-0000" 40).
Proof.
  apply (sync_drift_zero_means_in_sync default_config 0 erp_in_sync
           twin_in_sync [] "SKU-0000").
  - reflexivity.
  - vm_compute. reflexivity.
  - vm_compute. reflexivity.
  - vm_compute. reflexivity.
Defined.

Lemma drift_step_comm erp_inventory (acc : Z * Z) x y :
  drift_step erp_inventory (drift_step erp_inventory acc x) y
  = drift_step erp_inventory (drift_step erp_inventory acc y) x.
Proof.
  unfold drift_step.
  destruct (erp_inventory !! x.1), (erp_inventory !! y.1); simpl;
    try reflexivity.
  f_equal; lia.
Qed.

(** The totals do not depend on the order in which the dictionary is
    walked. *)
Lemma drift_fold_perm erp_inventory (l l' : list (string * InventoryItem)) :
  l ≡ₚ l' ->
  forall acc, foldl (drift_step erp_inventory) acc l
              = foldl (drift_step erp_inventory) acc l'.
Proof.
  induction 1 as [| x l l' _ IH | x y l | l l' l'' _ IH1 _ IH2];
    intros acc; simpl.
  - reflexivity.
  - apply IH.
  - rewrite drift_step_comm. reflexivity.
  - rewrite IH1. apply IH2.
Qed.

Lemma drift_fold_ext erp1 erp2 (l : list (string * InventoryItem)) :
  (forall sku dt, (sku, dt) ∈ l -> erp1 !! sku = erp2 !! sku) ->
  forall acc, foldl (drift_step erp1) acc l = foldl (drift_step erp2) acc l.
Proof.
  induction l as [| [sku dt] l IH]; intros Hext acc; simpl; [reflexivity |].
  rewrite IH by (intros sku' dt' Hin; apply (Hext sku' dt'); right; exact Hin).
  unfold drift_step. simpl. rewrite (Hext sku dt) by left. reflexivity.
Qed.

(** An item that the external inventory lacks adds nothing. *)
Lemma drift_totals_unshared erp_inventory
    (inventory : gmap string InventoryItem) sku :
  erp_inventory !! sku = None ->
  drift_totals erp_inventory (map_to_list inventory)
  = drift_totals erp_inventory (map_to_list (delete sku inventory)).
Proof.
  intros Herp. unfold drift_totals.
  destruct (inventory !! sku) as [item |] eqn:Hinv.
  - rewrite (drift_fold_perm erp_inventory _
               ((sku, item) :: map_to_list (delete sku inventory))).
    + simpl. unfold drift_step at 2. simpl. rewrite Herp. reflexivity.
    + rewrite <- map_to_list_insert by apply lookup_delete_eq.
      rewrite insert_delete_eq, insert_id by exact Hinv. reflexivity.
  - rewrite delete_id by exact Hinv. reflexivity.
Qed.

(** X2: the drift looks only at the SKUs that both inventories have. A SKU
    that the external inventory lacks can be put into the twin's
    inventory, and a SKU that the twin lacks into the external inventory,
    without changing the drift. *)
Theorem sync_drift_ignores_unshared cfg now erp_adapter
    (inventory : gmap string InventoryItem) buf sku item :
  connected erp_adapter = true ->
  (fetch_inventory erp_adapter !! sku = None ->
   (calculate_sync_drift cfg now erp_adapter (<[sku := item]> inventory)
      buf).1
   = (calculate_sync_drift cfg now erp_adapter inventory buf).1)
  /\ (inventory !! sku = None ->
      (calculate_sync_drift cfg now
         (mkERPAdapter true (<[sku := item]> (fetch_inventory erp_adapter)))
         inventory buf).1
      = (calculate_sync_drift cfg now erp_adapter inventory buf).1).
Proof.
  intros Hc. split; intros Hnone.
  - rewrite !calculate_sync_drift_value by exact Hc. f_equal.
    rewrite (drift_totals_unshared _ (<[sku := item]> inventory) sku Hnone).
    rewrite (drift_totals_unshared _ inventory sku Hnone).
    rewrite delete_insert_eq. reflexivity.
  - rewrite !calculate_sync_drift_value by (exact Hc || reflexivity).
    f_equal. simpl. unfold drift_totals. apply drift_fold_ext.
    intros sku' dt Hin. apply elem_of_map_to_list in Hin.
    apply lookup_insert_ne. congruence.
Qed.

Lemma sync_drift_ignores_unshared_witness :
  (calculate_sync_drift default_config 0 erp_in_sync
     (<["SKU-7777" := stock_item "SKU-7777" 5]> twin_in_sync) []).1
  = (calculate_sync_drift default_config 0 erp_in_sync twin_in_sync []).1
  /\ (calculate_sync_drift default_config 0
        (mkERPAdapter true
           (<["SKU-7777" := stock_item "SKU-7777" 5]>
              (fetch_inventory erp_in_sync)))
        twin_in_sync []).1
     = (calculate_sync_drift default_config 0 erp_in_sync twin_in_sync []).1.
Proof.
  destruct (sync_drift_ignores_unshared default_config 0 erp_in_sync
              twin_in_sync [] "SKU-7777" (stock_item "SKU-7777" 5) eq_refl)
    as [H1 H2].
  split; [apply H1 | apply H2]; vm_compute; reflexivity.
Defined.

(** X3: when no quantity is negative, in the twin's inventory or in the
    external one, the drift is between [0.0] and [1.0]. *)
Theorem sync_drift_in_unit_interval cfg now erp_adapter
    (inventory : gmap string InventoryItem) buf :
  (forall sku dt, inventory !! sku = Some dt -> (0 <= item_quantity dt)%Z) ->
  (forall sku erp, fetch_inventory erp_adapter !! sku = Some erp ->
     (0 <= item_quantity erp)%Z) ->
  (0 <= (calculate_sync_drift cfg now erp_adapter inventory buf).1
   /\ (calculate_sync_drift cfg now erp_adapter inventory buf).1 <= 1)%Q.
Proof.
  intros Hdt Herp.
  destruct (connected erp_adapter) eqn:Hc.
  - rewrite calculate_sync_drift_value by exact Hc.
    apply drift_ratio_unit. unfold drift_totals.
    apply drift_fold_bounds; [simpl; lia | | exact Herp].
    intros sku dt Hin. apply (Hdt sku).
    apply elem_of_map_to_list. exact Hin.
  - unfold calculate_sync_drift. rewrite Hc. simpl.
    split; [discriminate | apply Qle_refl].
Qed.

Lemma twin_in_sync_nonneg sku dt :
  twin_in_sync !! sku = Some dt -> (0 <= item_quantity dt)%Z.
Proof.
  unfold twin_in_sync. intros H.
  apply lookup_insert_Some in H as [[_ <-] | [_ H]]; [simpl; lia |].
  apply lookup_singleton_Some in H as [_ <-]. simpl. lia.
Qed.

Lemma erp_in_sync_nonneg sku erp :
  fetch_inventory erp_in_sync !! sku = Some erp -> (0 <= item_quantity erp)%Z.
Proof.
  simpl. intros H.
  apply lookup_insert_Some in H as [[_ <-] | [_ H]]; [simpl; lia |].
  apply lookup_singleton_Some in H as [_ <-]. simpl. lia.
Qed.

Lemma sync_drift_in_unit_interval_witness :
  (0 <= (calculate_sync_drift default_config 0 erp_in_sync twin_in_sync []).1
   /\ (calculate_sync_drift default_config 0 erp_in_sync twin_in_sync []).1
      <= 1)%Q.
Proof.
  exact (sync_drift_in_unit_interval default_config 0 erp_in_sync
           twin_in_sync [] twin_in_sync_nonneg erp_in_sync_nonneg).
Defined.
(* ===================================================================== *)
(** * Further properties of the metrics accumulator *)
(* ===================================================================== *)

Lemma sumQ_snoc l t : (sumQ (l ++ [t]) == sumQ l + t)%Q.
Proof.
  induction l as [| x l IH]; simpl.
  - ring.
  - rewrite IH. ring.
Qed.

Lemma sumZ_snoc l z : sumZ (l ++ [z]) = (sumZ l + z)%Z.
Proof.
  unfold sumZ. induction l as [| x l IH]; simpl; [lia |]. rewrite IH. lia.
Qed.

Lemma record_completions_snoc m calls c :
  record_completions m (calls ++ [c])
  = record_order_completion (record_completions m calls) c.1 c.2.
Proof. unfold record_completions. rewrite foldl_app. reflexivity. Qed.

(** X4: after any sequence of completions recorded on a new accumulator,
    the counters agree with the recorded sequences: [orders_completed] is
    the number of calls, [order_times] and [items_per_order] hold the
    arguments in call order, the two totals are the sums of these
    sequences, and there are at most as many pick and pack durations as
    orders. *)
Theorem metrics_counters_consistent (calls : list (Order * Q)) :
  let m := record_completions new_metrics calls in
  orders_completed m = Z.of_nat (length calls)
  /\ order_times m = snd <$> calls
  /\ items_per_order m = (fun c => total_items c.1) <$> calls
  /\ total_items_picked m = sumZ (items_per_order m)
  /\ (total_order_time m == sumQ (order_times m))%Q
  /\ (length (pick_times m) <= length calls)%nat
  /\ (length (pack_times m) <= length calls)%nat.
Proof.
  induction calls as [| c calls IH] using rev_ind.
  - simpl. repeat split; try reflexivity; lia.
  - rewrite !record_completions_snoc. simpl in IH.
    destruct IH as (Hn & Ht & Hi & Hs & Hq & Hp & Hk).
    set (m := record_completions new_metrics calls) in *.
    simpl. rewrite !fmap_app, !length_app. simpl.
    split; [rewrite Hn; lia |].
    split; [rewrite Ht; reflexivity |].
    split; [rewrite Hi; reflexivity |].
    split; [rewrite sumZ_snoc, Hs; reflexivity |].
    split; [rewrite sumQ_snoc, Hq; reflexivity |].
    split.
    + destruct (_ && _); simpl; lia.
    + destruct (_ && _); simpl; lia.
Qed.

Lemma sumQ_nonneg l : Forall (fun t => (0 < t)%Q) l -> (0 <= sumQ l)%Q.
Proof.
  induction 1 as [| t l Ht _ IH]; simpl; [apply Qle_refl |].
  apply Qlt_le_weak in Ht.
  rewrite <- (Qplus_0_l 0). apply Qplus_le_compat; assumption.
Qed.

Lemma sumQ_pos l :
  l <> [] -> Forall (fun t => (0 < t)%Q) l -> (0 < sumQ l)%Q.
Proof.
  intros Hne Hall. destruct Hall as [| t l Ht Hall]; [congruence |]. simpl.
  rewrite <- (Qplus_0_l 0).
  apply Qplus_lt_le_compat; [exact Ht | apply sumQ_nonneg, Hall].
Qed.

Section MetricsMore.

Variable fsqrt : Q -> Q.


(** X6: when every recorded total time is positive, [get_summary] returns
    a summary; its throughput entry is absent for an empty accumulator
    and is 60 divided by the average order time otherwise, and that
    average is the mean of the recorded times. *)
Theorem get_summary_defined_on_positive_times (calls : list (Order * Q)) :
  Forall (fun c => (0 < c.2)%Q) calls ->
  let m := record_completions new_metrics calls in
  exists summary,
    get_summary fsqrt m = Some summary
    /\ summary !! "throughput_orders_per_hour"
       = match calls with
         | [] => None
         | _ => Some (PFloat (60 / avg_order_time m)%Q)
         end
    /\ (calls <> [] -> (avg_order_time m == mean (snd <$> calls))%Q).
Proof.
  intros Hpos m.
  destruct (metrics_counters_consistent calls)
    as (Hn & Ht & _ & _ & Hq & _ & _).
  fold m in Hn, Ht, Hq.
  destruct calls as [| c calls].
  - destruct (get_summary_no_throughput fsqrt m) as (summary & Hs & Hnone).
    { reflexivity. }
    exists summary. split; [exact Hs |]. split; [exact Hnone | congruence].
  - assert (Hguard : throughput_guard m = true).
    { unfold throughput_guard. rewrite Hn, Ht. simpl. reflexivity. }
    assert (Havg : (avg_order_time m == mean (snd <$> c :: calls))%Q).
    { unfold avg_order_time, mean, completed_floor.
      rewrite Hq, Ht, Hn, length_fmap.
      rewrite Z.max_r by (simpl; lia). reflexivity. }
    assert (Hgt : (0 < avg_order_time m)%Q).
    { rewrite Havg. unfold mean. apply Qlt_shift_div_l.
      - change 0%Q with (inject_Z 0). rewrite <- Zlt_Qlt. simpl. lia.
      - rewrite Qmult_0_l. apply sumQ_pos; [discriminate |].
        apply Forall_fmap. exact Hpos. }
    destruct (get_summary fsqrt m) as [summary |] eqn:Hs.
    + exists summary. split; [reflexivity |].
      destruct (get_summary_throughput fsqrt m summary Hs Hguard) as [_ Hth].
      split; [exact Hth | intros _; exact Havg].
    + apply get_summary_raises_iff in Hs as [_ Hz].
      rewrite Hz in Hgt. apply Qlt_irrefl in Hgt. contradiction.
Qed.

End MetricsMore.

Lemma get_summary_defined_on_positive_times_witness :
  exists summary,
    get_summary id_sqrt
      (record_completions new_metrics [(sample_order, 25%Q)])
    = Some summary
    /\ summary !! "throughput_orders_per_hour"
       = Some (PFloat (60 / avg_order_time
                              (record_completions new_metrics
                                 [(sample_order, 25%Q)]))%Q)
    /\ ([(sample_order, 25%Q)] <> [] ->
        (avg_order_time (record_completions new_metrics
                           [(sample_order, 25%Q)])
         == mean (snd <$> [(sample_order, 25%Q)]))%Q).
Proof.
  apply (get_summary_defined_on_positive_times id_sqrt [(sample_order, 25%Q)]).
  repeat constructor.
Defined.
(* ===================================================================== *)
(** * The clock of a run and the metrics *)
(* ===================================================================== *)






Section RunClock.

Variable fsqrt : Q -> Q.








End RunClock.

Lemma run_event_buffer_bounded_witness :
  exists s,
    run id_sqrt (init_twin default_config erp_in_sync) ghost_run = Some s
    /\ (length (event_buffer s) <= event_buffer_size default_config)%nat.
Proof.
  destruct (run id_sqrt (init_twin default_config erp_in_sync) ghost_run)
    as [s |] eqn:Hrun; [| vm_compute in Hrun; discriminate].
  exists s. split; [reflexivity |].
  exact (run_event_buffer_bounded id_sqrt default_config erp_in_sync
           ghost_run s Hrun).
Defined.

Lemma results_ignore_wall_clock_witness :
  scrub_action <$> ghost_run = scrub_action <$> ghost_run_late
  /\ simulation_results id_sqrt
       <$> run id_sqrt (init_twin default_config erp_in_sync) ghost_run
     = simulation_results id_sqrt
         <$> run id_sqrt (init_twin default_config erp_in_sync)
               ghost_run_late.
Proof.
  assert (H : scrub_action <$> ghost_run = scrub_action <$> ghost_run_late)
    by reflexivity.
  split; [exact H |].
  exact (results_ignore_wall_clock id_sqrt
           (init_twin default_config erp_in_sync) ghost_run ghost_run_late H).
Defined.
(* ===================================================================== *)
(** * Further properties of the event buffer and of orders *)
(* ===================================================================== *)

Lemma record_event_length_min cfg buf ty now d :
  (length buf <= event_buffer_size cfg)%nat ->
  length (_record_event cfg buf ty now d)
  = Nat.min (length buf + 1) (event_buffer_size cfg).
Proof.
  intros Hle. unfold _record_event.
  rewrite deque_append_drop by exact Hle.
  rewrite length_drop, length_app. simpl. lia.
Qed.

Lemma assigned_ids_from cfg calls : forall buf,
  (length buf <= event_buffer_size cfg)%nat ->
  assigned_ids cfg buf calls
  = (fun k => "DT-" +:+ format_06d
                (Nat.min (length buf + k) (event_buffer_size cfg)))
    <$> seq 0 (length calls).
Proof.
  induction calls as [| c calls IH]; intros buf Hle; simpl; [reflexivity |].
  f_equal.
  - rewrite Nat.add_0_r, Nat.min_l by exact Hle. reflexivity.
  - rewrite IH by (apply record_event_length, Hle).
    rewrite <- fmap_S_seq, <- list_fmap_compose.
    apply list_fmap_ext. intros i k _. simpl. do 2 f_equal.
    rewrite record_event_length_min by exact Hle. lia.
Qed.

(** X10: the identifier of the [k]-th event recorded by a new twin
    (counting from zero) is [DT-] followed by the smaller of [k] and the
    capacity of the buffer, on six digits: the identifiers count up while
    the buffer fills and stay at the capacity afterwards. *)
Theorem record_event_ids (cfg : SimulationConfig) (calls : list record_call) :
  assigned_ids cfg [] calls
  = (fun k => "DT-" +:+ format_06d (Nat.min k (event_buffer_size cfg)))
    <$> seq 0 (length calls).
Proof. apply (assigned_ids_from cfg calls []). simpl. lia. Qed.

Lemma sum_picked_le ls :
  Forall (fun l => (0 <= line_picked_quantity l <= line_quantity l)%Z) ls ->
  (sumZ (line_picked_quantity <$> ls) <= sumZ (line_quantity <$> ls))%Z
  /\ (forallb (fun l => (line_quantity l <=? line_picked_quantity l)%Z) ls
      = true
      <-> sumZ (line_picked_quantity <$> ls) = sumZ (line_quantity <$> ls)).
Proof.
  unfold sumZ. induction 1 as [| l ls Hl _ [IHle IHiff]].
  - simpl. split; [lia | split; reflexivity].
  - rewrite !fmap_cons. cbn [foldr forallb]. split; [lia |].
    rewrite andb_true_iff, Z.leb_le, IHiff. split; [intros [? ?]; lia |].
    intros Heq. split; lia.
Qed.

(** X11: for an order none of whose lines is picked beyond its ordered
    quantity or below zero, [picked_items] is at most [total_items], and
    [is_fully_picked] holds exactly when the two are equal. *)
Theorem order_pick_counts (o : Order) :
  Forall (fun l => (0 <= line_picked_quantity l <= line_quantity l)%Z)
         (lines o) ->
  (picked_items o <= total_items o)%Z
  /\ (is_fully_picked o = true <-> picked_items o = total_items o).
Proof. intros H. exact (sum_picked_le (lines o) H). Qed.

Lemma order_pick_counts_witness :
  (picked_items sample_order <= total_items sample_order)%Z
  /\ (is_fully_picked sample_order = true
      <-> picked_items sample_order = total_items sample_order).
Proof.
  apply (order_pick_counts sample_order).
  repeat constructor; simpl; lia.
Defined.
(* ===================================================================== *)
(** * Calibration from the twin's own events *)
(* ===================================================================== *)

Lemma deque_append_Forall {A} (P : A -> Prop) maxlen d x :
  Forall P d -> P x -> Forall P (deque_append maxlen d x).
Proof.
  intros Hd Hx. unfold deque_append.
  assert (H : Forall P (d ++ [x])).
  { apply Forall_app. split; [exact Hd | repeat constructor; exact Hx]. }
  destruct (maxlen <? _)%nat; [| exact H].
  destruct (d ++ [x]); [constructor |]. simpl.
  apply Forall_cons in H as [_ H]. exact H.
Qed.

Lemma record_event_twin cfg buf ty now d :
  Forall twin_event buf ->
  d !! "new_status" = None ->
  is_Some (as_key (default PNone (d !! "order_id"))) ->
  Forall twin_event (_record_event cfg buf ty now d).
Proof.
  intros Hbuf Hns Hid. apply deque_append_Forall; [exact Hbuf |].
  split; assumption.
Qed.

(** A turn of the scan on an event of the twin changes neither sample
    list. *)
Lemma calib_step_twin_event st event :
  twin_event event ->
  exists st',
    calib_step st event = Some st'
    /\ cal_pick_times st' = cal_pick_times st
    /\ cal_pack_times st' = cal_pack_times st.
Proof.
  intros [Hns [k Hk]]. unfold calib_step.
  assert (Hnone : data_get event "new_status" = PNone)
    by (unfold data_get; rewrite Hns; reflexivity).
  rewrite Hnone, Hk. simpl. rewrite !andb_false_r.
  destruct (decide (event_type event = ORDER_CREATED)).
  - destruct (truthy _); eexists; repeat split; reflexivity.
  - destruct (decide (event_type event = ORDER_STATUS_CHANGED));
      eexists; repeat split; reflexivity.
Qed.

Lemma calib_scan_twin_events erp_events : forall st,
  Forall twin_event erp_events ->
  exists st',
    calib_scan_from st erp_events = Some st'
    /\ cal_pick_times st' = cal_pick_times st
    /\ cal_pack_times st' = cal_pack_times st.
Proof.
  induction erp_events as [| event rest IH]; intros st Hall; simpl.
  - exists st. repeat split; reflexivity.
  - apply Forall_cons in Hall as [Hev Hrest].
    destruct (calib_step_twin_event st event Hev) as (st1 & -> & Hp & Hk).
    simpl. destruct (IH st1 Hrest) as (st' & Hscan & Hp' & Hk').
    exists st'. split; [exact Hscan |]. split; congruence.
Qed.

Lemma apply_calibration_empty cfg : apply_calibration cfg ∅ = cfg.
Proof. destruct cfg. reflexivity. Qed.

Ltac payload_none :=
  unfold status_payload, Order_to_dict;
  repeat (rewrite lookup_insert_ne by done); apply lookup_empty.

Ltac payload_key :=
  unfold status_payload, Order_to_dict;
  repeat (rewrite lookup_insert_ne by done);
  first [ rewrite lookup_insert_eq | rewrite lookup_empty ];
  simpl; eexists; reflexivity.

Ltac twin_events_auto :=
  unfold twin_events in *; twin_fields;
  repeat match goal with
         | |- context [match ?o with Some _ => _ | None => _ end] =>
             destruct o
         end;
  twin_fields;
  first [ assumption
        | apply record_event_twin; [assumption | payload_none | payload_key] ].

Section TwinEvents.

Variable fsqrt : Q -> Q.

Lemma step_twin_events s a s' :
  step fsqrt s a = Some s' -> twin_events s -> twin_events s'.
Proof.
  destruct a as [p now wall z | now wall d | o]; simpl.
  - destruct (enabled s p now); [| discriminate].
    unfold resume. intros H Hinv. unbind H.
    destruct (proc_pc x); seg_cases H; twin_events_auto.
  - destruct (Qle_bool (env_now s) now); [| discriminate].
    unfold seg_arrival. intros H Hinv. unbind H.
    destruct (available_skus _); [injection H as <-; twin_events_auto |].
    destruct (draws_possible _ _ _); [| discriminate].
    unbind H. injection H as <-. twin_events_auto.
  - intros [= <-] Hinv. twin_events_auto.
Qed.

Lemma run_twin_events tr : forall s s',
  run fsqrt s tr = Some s' -> twin_events s -> twin_events s'.
Proof.
  induction tr as [| a tr IH]; intros s s' Hrun Hinv; simpl in Hrun.
  - injection Hrun as <-. exact Hinv.
  - apply bind_Some in Hrun as (s1 & Hstep & Hrun).
    eapply IH; [exact Hrun |]. eapply step_twin_events; eassumption.
Qed.

(** X12: calibrating from the events that the twin itself has recorded
    during a run changes nothing: the fulfilment process writes the
    status of an order under the key [status], the scan reads
    [new_status], so no sample is found, the returned dictionary is empty
    and the configuration is left as it was; the history gets one record
    with the number of events. *)
Theorem calibration_from_own_events (cfg : SimulationConfig)
    (erp_adapter : ERPAdapter) (tr : list action) (s : twin)
    (calibration_data : list calibration_record) (now : Z) :
  run fsqrt (init_twin cfg erp_adapter) tr = Some s ->
  calibrate_from_erp_logs fsqrt (config s) calibration_data now
    (event_buffer s)
  = Some (∅, config s,
          calibration_data
            ++ [ {| cr_timestamp := now;
                    cr_num_events := length (event_buffer s);
                    cr_calibrated_params := ∅ |} ]).
Proof.
  intros Hrun.
  assert (Hev : twin_events s).
  { eapply run_twin_events; [exact Hrun |]. constructor. }
  destruct (calib_scan_twin_events (event_buffer s) calib_init Hev)
    as (st & Hscan & Hp & Hk).
  unfold calibrate_from_erp_logs, calib_scan. rewrite Hscan. simpl.
  unfold calibrated_params. rewrite Hp, Hk. simpl.
  rewrite apply_calibration_empty. reflexivity.
Qed.

End TwinEvents.

Lemma calibration_from_own_events_witness :
  exists s,
    run id_sqrt (init_twin default_config erp_in_sync) ghost_run = Some s
    /\ calibrate_from_erp_logs id_sqrt (config s) [] 0 (event_buffer s)
       = Some (∅, config s,
               [ {| cr_timestamp := 0;
                    cr_num_events := length (event_buffer s);
                    cr_calibrated_params := ∅ |} ]).
Proof.
  destruct (run id_sqrt (init_twin default_config erp_in_sync) ghost_run)
    as [s |] eqn:Hrun; [| vm_compute in Hrun; discriminate].
  exists s. split; [reflexivity |].
  exact (calibration_from_own_events id_sqrt default_config erp_in_sync
           ghost_run s [] 0 Hrun).
Defined.
(* ===================================================================== *)
(** * The pack samples of the calibration scan *)
(* ===================================================================== *)

Lemma prefix_flat_map_snoc {A B} (f : list A -> A -> list B) l x :
  prefix_flat_map f (l ++ [x]) = prefix_flat_map f l ++ f l x.
Proof.
  unfold prefix_flat_map.
  rewrite length_app. simpl. rewrite seq_app, flat_map_app. simpl.
  rewrite app_nil_r. f_equal.
  - apply flat_map_agree. intros i Hi. apply in_seq in Hi.
    rewrite lookup_app_l by lia.
    destruct (l !! i); [| reflexivity].
    rewrite take_app_le by lia. reflexivity.
  - rewrite list_lookup_middle by reflexivity.
    rewrite take_app_length. reflexivity.
Qed.

Lemma last_counted_pick_snoc k prefix event :
  last_counted_pick k (prefix ++ [event])
  = if decide (picked_key event = Some k) then
      match last_created k prefix with
      | Some _ => Some (timestamp event)
      | None => last_counted_pick k prefix
      end
    else last_counted_pick k prefix.
Proof.
  unfold last_counted_pick, counted_pick_times.
  rewrite prefix_flat_map_snoc.
  destruct (decide (picked_key event = Some k)).
  - destruct (last_created k prefix).
    + apply last_snoc.
    + rewrite app_nil_r. reflexivity.
  - rewrite app_nil_r. reflexivity.
Qed.

(** What one turn of the loop does to [order_picks] and to
    [pack_times]. *)
Lemma calib_step_pack_spec st event st' :
  calib_step st event = Some st' ->
  order_picks st'
  = match picked_key event with
    | Some k =>
        match order_starts st !! k with
        | Some _ => <[k := timestamp event]> (order_picks st)
        | None => order_picks st
        end
    | None => order_picks st
    end
  /\ cal_pack_times st'
     = cal_pack_times st
       ++ match packed_key event with
          | Some k =>
              match order_picks st !! k with
              | Some t0 => [minutes_between (timestamp event) t0]
              | None => []
              end
          | None => []
          end.
Proof.
  unfold calib_step, picked_key, packed_key.
  destruct (decide (event_type event = ORDER_CREATED)) as [Hc | Hc].
  - destruct (decide (event_type event = ORDER_STATUS_CHANGED)) as [Hs | _];
      [congruence |].
    destruct (truthy (data_get event "order_id")).
    + destruct (as_key (data_get event "order_id")) as [k |]; simpl;
        [| discriminate].
      intros [= <-]. simpl. rewrite app_nil_r. done.
    + intros [= <-]. rewrite app_nil_r. done.
  - destruct (decide (event_type event = ORDER_STATUS_CHANGED)) as [Hs | _].
    2: { intros [= <-]. rewrite app_nil_r. done. }
    destruct (truthy (data_get event "order_id")); simpl.
    2: { intros [= <-]. rewrite app_nil_r. done. }
    destruct (data_get event "new_status") as [| | | status | | |]; simpl;
      try (intros [= <-]; rewrite app_nil_r; done).
    destruct (String.eqb status "picked") eqn:Hpicked.
    { apply String.eqb_eq in Hpicked as ->. simpl.
      destruct (as_key (data_get event "order_id")) as [k |]; simpl;
        [| discriminate].
      destruct (order_starts st !! k); intros [= <-]; simpl;
        rewrite app_nil_r; done. }
    destruct (String.eqb status "packed").
    { destruct (as_key (data_get event "order_id")) as [k |]; simpl;
        [| discriminate].
      destruct (order_picks st !! k); intros [= <-]; simpl;
        [| rewrite app_nil_r]; done. }
    destruct (String.eqb status "completed").
    { destruct (as_key (data_get event "order_id")) as [k |]; simpl;
        [| discriminate].
      destruct (order_starts st !! k); intros [= <-]; simpl;
        rewrite app_nil_r; done. }
    intros [= <-]. rewrite app_nil_r. done.
Qed.

(** The scan keeps, for every order, the timestamp of its latest counted
    picked event, and its pack samples are those read off the input. *)
Lemma calib_scan_pack_spec erp_events : forall st,
  calib_scan erp_events = Some st ->
  (forall k, order_picks st !! k = last_counted_pick k erp_events)
  /\ cal_pack_times st = pack_samples_spec erp_events.
Proof.
  induction erp_events as [| event prefix IH] using rev_ind; intros st Hscan.
  - injection Hscan as <-. split; [intros k; apply lookup_empty | reflexivity].
  - unfold calib_scan in Hscan. rewrite calib_scan_from_app in Hscan.
    destruct (calib_scan_from calib_init prefix) as [st0 |] eqn:Hpre;
      [| discriminate].
    simpl in Hscan.
    destruct (calib_step st0 event) as [st1 |] eqn:Hstep; [| discriminate].
    simpl in Hscan. injection Hscan as <-.
    destruct (IH st0 Hpre) as [Hpicks Hpacks].
    destruct (calib_scan_spec prefix st0 Hpre) as [Hstarts _].
    apply calib_step_pack_spec in Hstep as [Hs1 Hp1]. split.
    + intros k. rewrite Hs1, last_counted_pick_snoc.
      destruct (picked_key event) as [k' |].
      * destruct (decide (Some k' = Some k)) as [[= ->] | Hne].
        -- rewrite Hstarts. destruct (last_created k prefix);
             [apply lookup_insert_eq | apply Hpicks].
        -- rewrite <- Hpicks. destruct (order_starts st0 !! k');
             [rewrite lookup_insert_ne by congruence |]; reflexivity.
      * destruct (decide (None = Some k)); [discriminate | apply Hpicks].
    + rewrite Hp1, Hpacks. unfold pack_samples_spec.
      rewrite prefix_flat_map_snoc. f_equal.
      unfold pack_sample_of.
      destruct (packed_key event) as [k |]; [| reflexivity].
      rewrite Hpicks. reflexivity.
Qed.

(** X13: on an input whose order ids can be dictionary keys, the scan
    records one pack-duration sample for every packed status-change event
    that has, before it in the input, a picked event of its order id that
    itself came after a created event of that order: the minutes from the
    latest such picked event to the packed event. Any other packed event
    contributes no sample. *)
Theorem calibration_pack_samples (erp_events : list WarehouseEvent) :
  Forall (fun event => is_Some (as_key (data_get event "order_id")))
         erp_events ->
  exists st,
    calib_scan erp_events = Some st
    /\ cal_pack_times st = pack_samples_spec erp_events.
Proof.
  intros Hall.
  destruct (calib_scan_from_total erp_events calib_init Hall) as [st Hst].
  exists st. split; [exact Hst |].
  apply (calib_scan_pack_spec erp_events st Hst).
Qed.

Lemma calibration_pack_samples_witness :
  exists st,
    calib_scan two_order_trace = Some st
    /\ cal_pack_times st = pack_samples_spec two_order_trace.
Proof.
  apply (calibration_pack_samples two_order_trace).
  repeat constructor; eexists; vm_compute; reflexivity.
Defined.

(** In [two_order_trace] only the order that was picked gives a pack
    sample, of two minutes. *)
Example pack_samples_two_orders :
  pack_samples_spec two_order_trace = [minutes_between 300000000 180000000].
Proof. vm_compute. reflexivity. Qed.
(* ===================================================================== *)
(** * Completion reports do not take part in the calibration *)
(* ===================================================================== *)

Lemma calib_step_forget st event st' :
  calib_step st event = Some st' ->
  if reports_completed event then
    forget_order_times st' = forget_order_times st
  else
    calib_step (forget_order_times st) event = Some (forget_order_times st').
Proof.
  unfold calib_step, reports_completed.
  destruct (decide (event_type event = ORDER_CREATED)) as [Hc | Hc].
  - rewrite bool_decide_eq_false_2 by congruence. simpl.
    destruct (truthy (data_get event "order_id")); [| congruence].
    destruct (as_key (data_get event "order_id")) as [k |]; simpl;
      [| discriminate].
    intros [= <-]. reflexivity.
  - destruct (decide (event_type event = ORDER_STATUS_CHANGED)) as [Hs | Hs].
    2: { rewrite bool_decide_eq_false_2 by exact Hs. simpl. congruence. }
    rewrite bool_decide_eq_true_2 by exact Hs. simpl.
    destruct (truthy (data_get event "order_id")); simpl; [| congruence].
    destruct (data_get event "new_status") as [| | | status | | |]; simpl;
      try congruence.
    destruct (String.eqb status "picked") eqn:Hpicked.
    { apply String.eqb_eq in Hpicked as ->. simpl.
      destruct (as_key (data_get event "order_id")) as [k |]; simpl;
        [| discriminate].
      destruct (order_starts st !! k); intros [= <-]; reflexivity. }
    destruct (String.eqb status "packed") eqn:Hpacked.
    { apply String.eqb_eq in Hpacked as ->. simpl.
      destruct (as_key (data_get event "order_id")) as [k |]; simpl;
        [| discriminate].
      destruct (order_picks st !! k); intros [= <-]; reflexivity. }
    destruct (String.eqb status "completed").
    { destruct (as_key (data_get event "order_id")) as [k |]; simpl;
        [| discriminate].
      destruct (order_starts st !! k); intros [= <-]; reflexivity. }
    congruence.
Qed.

Lemma calib_scan_from_forget erp_events : forall st st',
  calib_scan_from st erp_events = Some st' ->
  calib_scan_from (forget_order_times st)
    (filter (fun event => reports_completed event = false) erp_events)
  = Some (forget_order_times st').
Proof.
  induction erp_events as [| event rest IH]; intros st st' Hscan.
  - injection Hscan as <-. reflexivity.
  - simpl in Hscan. apply bind_Some in Hscan as (st1 & Hstep & Hrest).
    apply calib_step_forget in Hstep. apply IH in Hrest.
    destruct (reports_completed event) eqn:Hrep.
    + rewrite filter_cons_False by (rewrite Hrep; discriminate).
      rewrite <- Hstep. exact Hrest.
    + rewrite filter_cons_True by exact Hrep.
      simpl. rewrite Hstep. exact Hrest.
Qed.

Section CompletionReports.
Variable fsqrt : Q -> Q.

(** X14: the events that report an order as completed take no part in the
    calibration: whenever a calibration returns, the calibration of the
    same list without those events returns the same parameters and leaves
    the same configuration; only the number of events it logs differs. *)
Theorem calibration_ignores_completions (cfg cfg' : SimulationConfig)
    (calibration_data history : list calibration_record) (now : Z)
    (erp_events : list WarehouseEvent) (calibrated : gmap string Q) :
  calibrate_from_erp_logs fsqrt cfg calibration_data now erp_events
  = Some (calibrated, cfg', history) ->
  let others :=
    filter (fun event => reports_completed event = false) erp_events in
  calibrate_from_erp_logs fsqrt cfg calibration_data now others
  = Some (calibrated, cfg',
          calibration_data
            ++ [ {| cr_timestamp := now;
                    cr_num_events := length others;
                    cr_calibrated_params := calibrated |} ]).
Proof.
  intros Hcal others. unfold calibrate_from_erp_logs in *.
  apply bind_Some in Hcal as (st & Hscan & Hret).
  injection Hret as <- <- _.
  unfold calib_scan in *.
  apply calib_scan_from_forget in Hscan.
  change (forget_order_times calib_init) with calib_init in Hscan.
  fold others in Hscan. rewrite Hscan. reflexivity.
Qed.

End CompletionReports.

Lemma calibration_ignores_completions_witness :
  exists result,
    calibrate_from_erp_logs id_sqrt default_config [] 0
      (filter (fun event => reports_completed event = false)
              completed_trace)
    = Some result.
Proof.
  destruct (calib_scan_from_total completed_trace calib_init) as [st Hst].
  { repeat constructor; eexists; vm_compute; reflexivity. }
  eexists.
  eapply (calibration_ignores_completions id_sqrt default_config _
            [] _ 0 completed_trace).
  unfold calibrate_from_erp_logs, calib_scan. rewrite Hst. reflexivity.
Defined.
(* ===================================================================== *)
(** * The stock of a run never grows *)
(* ===================================================================== *)

Lemma item_le_refl item : item_le item item.
Proof. unfold item_le. repeat split; lia. Qed.

Lemma item_le_trans a b c : item_le a b -> item_le b c -> item_le a c.
Proof.
  unfold item_le.
  intros (? & ? & ? & ? & ? & ? & ? & ?) (? & ? & ? & ? & ? & ? & ? & ?).
  repeat split; try congruence; lia.
Qed.

Lemma inventory_le_refl inv : inventory_le inv inv.
Proof.
  intros sku. destruct (inv !! sku); constructor. apply item_le_refl.
Qed.

Lemma inventory_le_trans a b c :
  inventory_le a b -> inventory_le b c -> inventory_le a c.
Proof.
  intros Hab Hbc sku. specialize (Hab sku). specialize (Hbc sku).
  inversion Hab as [x y Hxy Hx Hy | Hx Hy]; rewrite <- ?Hx, <- ?Hy in *;
    inversion Hbc as [y' z Hyz Hy' Hz | Hy' Hz]; subst; constructor.
  eapply item_le_trans; eassumption.
Qed.

Lemma inventory_le_take inv sku item n :
  inv !! sku = Some item -> (0 <= n)%Z ->
  inventory_le inv (<[sku := take_stock n item]> inv).
Proof.
  intros Hsku Hn sku'. destruct (decide (sku = sku')) as [<- | Hne].
  - rewrite lookup_insert_eq, Hsku. constructor.
    unfold item_le, take_stock. simpl. repeat split; lia.
  - rewrite lookup_insert_ne by exact Hne. apply inventory_le_refl.
Qed.

Lemma heap_qty_refl h : heap_qty h h.
Proof. intros r o Ho. exists o. split; [exact Ho | reflexivity]. Qed.

Lemma heap_qty_trans h1 h2 h3 :
  heap_qty h1 h2 -> heap_qty h2 h3 -> heap_qty h1 h3.
Proof.
  intros H1 H2 r o Ho. destruct (H1 r o Ho) as (o' & Ho' & Hq).
  destruct (H2 r o' Ho') as (o'' & Ho'' & Hq').
  exists o''. split; [exact Ho'' | congruence].
Qed.

Lemma heap_qty_alter h r (f : Order -> Order) :
  (forall o, h !! r = Some o -> quantities (f o) = quantities o) ->
  heap_qty h (alter f r h).
Proof.
  intros Hf r' o Ho. destruct (decide (r = r')) as [-> | Hne].
  - exists (f o). rewrite lookup_alter_eq, Ho.
    split; [reflexivity | apply Hf, Ho].
  - exists o. rewrite lookup_alter_ne by done. split; [exact Ho | reflexivity].
Qed.

Lemma heap_qty_insert h r o o' :
  h !! r = Some o -> quantities o' = quantities o ->
  heap_qty h (<[r := o']> h).
Proof.
  intros Hr Hq r' o0 Ho. destruct (decide (r = r')) as [-> | Hne].
  - exists o'. rewrite lookup_insert_eq. split; [reflexivity | congruence].
  - exists o0. rewrite lookup_insert_ne by done.
    split; [exact Ho | reflexivity].
Qed.

Lemma heap_qty_alloc h r o : h !! r = None -> heap_qty h (<[r := o]> h).
Proof.
  intros Hr r' o0 Ho. exists o0. split; [| reflexivity].
  rewrite lookup_insert_ne; [exact Ho | congruence].
Qed.

Lemma quantities_pick o i line :
  lines o !! i = Some line ->
  quantities (set_lines (<[i := pick_all line]> (lines o)) o) = quantities o.
Proof.
  intros Hline. unfold quantities. simpl.
  rewrite list_fmap_insert. apply list_insert_id.
  rewrite list_lookup_fmap, Hline. reflexivity.
Qed.

Lemma proc_qty_ok_heap h h' pr :
  heap_qty h h' -> proc_qty_ok h pr -> proc_qty_ok h' pr.
Proof.
  unfold proc_qty_ok. intros Hh. destruct (proc_pc pr); auto.
  intros (o & line & Ho & Hline & Hq).
  destruct (Hh _ _ Ho) as (o' & Ho' & Hqq).
  assert (Hl : quantities o' !! i = Some (line_quantity line)).
  { rewrite Hqq. unfold quantities. rewrite list_lookup_fmap, Hline.
    reflexivity. }
  unfold quantities in Hl. rewrite list_lookup_fmap in Hl.
  destruct (lines o' !! i) as [line' |] eqn:Hline'; [| discriminate].
  injection Hl as Hl. exists o', line'. rewrite Hl. auto.
Qed.

Lemma qty_inv_step s s' :
  qty_inv s ->
  heap_qty (heap s) (heap s') ->
  (forall p pr, procs s' !! p = Some pr ->
     procs s !! p = Some pr \/ proc_qty_ok (heap s') pr) ->
  qty_inv s'.
Proof.
  intros Hinv Hh Hprocs p pr Hp.
  destruct (Hprocs p pr Hp) as [Hold | Hnew]; [| exact Hnew].
  eapply proc_qty_ok_heap; [exact Hh | exact (Hinv p pr Hold)].
Qed.

Lemma pow_half_nonneg fsqrt n root : pow_half fsqrt n = Some root -> (0 <= n)%Z.
Proof.
  unfold pow_half. destruct (Z.ltb_spec n 0); [discriminate | lia].
Qed.

Lemma heap_qty_pick h r o i line :
  h !! r = Some o -> lines o !! i = Some line ->
  heap_qty h
    (alter (fun o => set_lines (<[i := pick_all line]> (lines o)) o) r h).
Proof.
  intros Ho Hline. apply heap_qty_alter. intros o' Ho'.
  assert (o' = o) as -> by congruence. apply quantities_pick, Hline.
Qed.

Ltac heap_qty_auto :=
  repeat first
    [ apply heap_qty_refl
    | eapply heap_qty_trans;
      [| apply heap_qty_alter; intros ? ?; reflexivity ] ].

Section Stock.

Variable fsqrt : Q -> Q.

Lemma resume_stock s p now wall z s' :
  resume fsqrt s p now wall z = Some s' -> qty_inv s ->
  qty_inv s' /\ inventory_le (inventory s) (inventory s').
Proof.
  unfold resume. intros H Hinv.
  destruct (procs s !! p) as [pr |] eqn:Hp; [| discriminate]. simpl in H.
  pose proof (Hinv p pr Hp) as Hold. unfold proc_qty_ok in Hold.
  destruct (proc_pc pr) eqn:Hpc; seg_cases H.
  all: try (destruct (inventory _ !! _) eqn:Hitem).
  all: try (destruct (active_orders _ !! _)).
  all: repeat match goal with
         | Hh : heap (set_env_now _ _) !! _ = Some _ |- _ => simpl in Hh
         end.
  all: try (destruct Hold as (o & line & Ho & Hline & Hq);
            assert (o = x) as -> by congruence;
            assert (line = x0) as -> by congruence).
  all: split;
    [ apply (qty_inv_step s _ Hinv); twin_fields;
      [| intros q prq Hpq;
         first [ apply lookup_insert_Some in Hpq as [[<- <-] | [_ Hpq]];
                 [right | left; exact Hpq]
               | apply lookup_delete_Some in Hpq as [_ Hpq];
                 left; exact Hpq ] ]
    | twin_fields ].
  all: try (unfold proc_qty_ok; simpl; exact I).
  all: try apply inventory_le_refl.
  all: try (apply inventory_le_take; assumption).
  all: try (heap_qty_auto; fail).
  all: try (eapply heap_qty_pick; eassumption).
  all: try (eapply heap_qty_insert; [eassumption | reflexivity]).
  all: try (eapply heap_qty_trans;
            [eapply heap_qty_pick; eassumption
            | apply heap_qty_alter; intros ? ?; reflexivity]).
  exists x, x0. split; [exact Hx |]. split; [exact Hx0 |].
  eapply pow_half_nonneg, Hx1.
Qed.

Lemma seg_arrival_stock d wall s s' :
  seg_arrival d wall s = Some s' -> twin_inv s -> qty_inv s ->
  qty_inv s' /\ inventory_le (inventory s) (inventory s').
Proof.
  unfold seg_arrival. intros H (Hfresh & _ & _) Hinv. unbind H.
  destruct (available_skus _).
  - injection H as <-. split; [exact Hinv | apply inventory_le_refl].
  - destruct (draws_possible _ _ _); [| discriminate].
    unbind H. injection H as <-.
    split; [| apply inventory_le_refl].
    apply (qty_inv_step s _ Hinv); twin_fields.
    + apply heap_qty_alloc, Hfresh. lia.
    + intros q prq Hpq.
      apply lookup_insert_Some in Hpq as [[<- <-] | [_ Hpq]];
        [right; exact I | left; exact Hpq].
Qed.

Lemma step_stock s a s' :
  step fsqrt s a = Some s' -> twin_inv s -> qty_inv s ->
  qty_inv s' /\ inventory_le (inventory s) (inventory s').
Proof.
  destruct a as [p now wall z | now wall d | o]; simpl.
  - destruct (enabled s p now); [| discriminate].
    intros H _. revert H. apply resume_stock.
  - destruct (Qle_bool (env_now s) now); [| discriminate].
    intros H Ht Hq. apply (seg_arrival_stock d wall _ s' H); assumption.
  - intros [= <-] (Hfresh & _ & _) Hinv.
    split; [| apply inventory_le_refl].
    apply (qty_inv_step s _ Hinv); twin_fields.
    + apply heap_qty_alloc, Hfresh. lia.
    + intros q prq Hpq.
      apply lookup_insert_Some in Hpq as [[<- <-] | [_ Hpq]];
        [right; exact I | left; exact Hpq].
Qed.

Lemma run_stock tr : forall s s',
  run fsqrt s tr = Some s' -> twin_inv s -> qty_inv s ->
  inventory_le (inventory s) (inventory s').
Proof.
  induction tr as [| a tr IH]; intros s s' Hrun Ht Hq; simpl in Hrun.
  - injection Hrun as <-. apply inventory_le_refl.
  - apply bind_Some in Hrun as (s1 & Hstep & Hrun).
    destruct (step_stock _ _ _ Hstep Ht Hq) as [Hq1 Hle].
    eapply inventory_le_trans; [exact Hle |].
    apply (IH s1 s' Hrun); [| exact Hq1].
    eapply step_inv; eassumption.
Qed.

(** X15: a simulation never restocks: in every state a run of the twin
    reaches, the inventory has exactly the SKUs it was initialised with,
    each item has its initial name, location, stock limits, unit cost and
    time of last update, and its quantity is at most the initial one. *)
Theorem run_stock_never_grows (cfg : SimulationConfig)
    (erp_adapter : ERPAdapter) (tr : list action) (s : twin) :
  run fsqrt (init_twin cfg erp_adapter) tr = Some s ->
  inventory_le (inventory (init_twin cfg erp_adapter)) (inventory s).
Proof.
  intros Hrun. apply (run_stock tr _ s Hrun).
  - apply init_twin_inv.
  - intros p pr Hp. simpl in Hp. rewrite lookup_empty in Hp. discriminate.
Qed.

End Stock.

Lemma run_stock_never_grows_witness :
  exists s,
    run id_sqrt (init_twin default_config erp_in_sync) ghost_run = Some s
    /\ inventory_le (fetch_inventory erp_in_sync) (inventory s).
Proof.
  destruct (run id_sqrt (init_twin default_config erp_in_sync) ghost_run)
    as [s |] eqn:Hrun; [| vm_compute in Hrun; discriminate].
  exists s. split; [reflexivity |].
  exact (run_stock_never_grows id_sqrt default_config erp_in_sync
           ghost_run s Hrun).
Defined.
(* ===================================================================== *)
(** * Identifiers: [f"{n:06d}"] can be read back *)
(* ===================================================================== *)

Lemma digit_of_pretty x : (x < 10)%N -> digit_of (pretty_N_char x) = x.
Proof.
  intros Hx.
  assert (x = 0 \/ x = 1 \/ x = 2 \/ x = 3 \/ x = 4 \/ x = 5 \/ x = 6
          \/ x = 7 \/ x = 8 \/ x = 9)%N as Hcases by lia.
  repeat destruct Hcases as [-> | Hcases]; try reflexivity.
  subst. reflexivity.
Qed.

Lemma parse_pretty_go x : forall s,
  parse_digits (pretty_N_go x s) 0 = parse_digits s x.
Proof.
  induction (N.lt_wf_0 x) as [x _ IH]. intros s.
  destruct (N.eq_dec x 0%N) as [-> | Hx]; [reflexivity |].
  rewrite pretty_N_go_step by lia.
  rewrite IH by (apply N.div_lt; lia). simpl.
  rewrite digit_of_pretty by (apply N.mod_lt; lia).
  f_equal. rewrite (N.div_mod x 10) at 3 by lia. lia.
Qed.

Lemma parse_pretty (n : nat) : parse_digits (pretty n) 0 = N.of_nat n.
Proof.
  unfold pretty, pretty_nat, pretty, pretty_N.
  destruct (decide (N.of_nat n = 0%N)) as [-> | _]; [reflexivity |].
  apply parse_pretty_go.
Qed.

Lemma parse_zeros k s :
  parse_digits (String.concat "" (replicate k "0") +:+ s) 0
  = parse_digits s 0.
Proof.
  induction k as [| k IH]; [reflexivity |].
  destruct k as [| k]; [reflexivity |].
  change (replicate (S (S k)) "0") with ("0" :: replicate (S k) "0").
  cbn [String.concat]. change (replicate (S k) "0")
    with ("0" :: replicate k "0") in *.
  exact IH.
Qed.

Lemma parse_format_0d w n : parse_digits (format_0d w n) 0 = N.of_nat n.
Proof. unfold format_0d. rewrite parse_zeros. apply parse_pretty. Qed.

Lemma format_0d_inj w n m : format_0d w n = format_0d w m -> n = m.
Proof.
  intros H. apply (f_equal (fun s => parse_digits s 0)) in H.
  rewrite !parse_format_0d in H. lia.
Qed.

Lemma event_id_inj (prefix : string) n m :
  prefix +:+ format_06d n = prefix +:+ format_06d m -> n = m.
Proof.
  intros H. apply (inj (String.append prefix)) in H.
  eapply format_0d_inj, H.
Qed.

(** X16: the identifiers that a new twin gives to its events are pairwise
    distinct exactly when it has recorded at most one event more than its
    buffer holds. *)
Theorem record_event_ids_unique (cfg : SimulationConfig)
    (calls : list record_call) :
  NoDup (assigned_ids cfg [] calls)
  <-> (length calls <= S (event_buffer_size cfg))%nat.
Proof.
  rewrite assigned_ids_from by (simpl; lia). simpl. split.
  - intros Hnd.
    destruct (le_lt_dec (length calls) (S (event_buffer_size cfg)))
      as [Hle | Hgt]; [exact Hle | exfalso].
    pose proof (proj1 (NoDup_alt _) Hnd (event_buffer_size cfg)
                  (S (event_buffer_size cfg))
                  ("DT-" +:+ format_06d (event_buffer_size cfg))) as Heq.
    rewrite !list_lookup_fmap, !lookup_seq_lt in Heq by lia.
    cbn [fmap option_fmap option_map Nat.add] in Heq.
    rewrite Nat.min_id, Nat.min_r in Heq by lia.
    specialize (Heq eq_refl eq_refl). lia.
  - intros Hle.
    apply NoDup_alt. intros i j x Hi Hj.
    rewrite list_lookup_fmap in Hi, Hj.
    destruct (seq 0 (length calls) !! i) as [a |] eqn:Ha; [| discriminate].
    destruct (seq 0 (length calls) !! j) as [b |] eqn:Hb; [| discriminate].
    apply lookup_seq in Ha as [-> Hia]. apply lookup_seq in Hb as [-> Hjb].
    simpl in Hi, Hj. injection Hi as <-. injection Hj as Hj.
    apply event_id_inj in Hj. lia.
Qed.
(* ===================================================================== *)
(** * The mock adapter *)
(* ===================================================================== *)

Lemma mock_step_inventory a o :
  MockERPAdapter.inventory (MockERPAdapter.step a o).1
  = MockERPAdapter.inventory a.
Proof.
  destruct o; simpl; try reflexivity.
  - unfold MockERPAdapter.update_order_status.
    destruct (dict_get _ _); reflexivity.
  - unfold MockERPAdapter.update_inventory.
    destruct (MockERPAdapter.inventory a !! sku); [| reflexivity].
    destruct (MockERPAdapter.item_at a sku); reflexivity.
Qed.

Lemma mock_step_connected_inventory w o :
  twin_inventory w = ∅
  \/ twin_inventory w = MockERPAdapter.inventory (adapter w) ->
  twin_inventory (world_step w o) = ∅
  \/ twin_inventory (world_step w o)
     = MockERPAdapter.inventory (adapter (world_step w o)).
Proof.
  intros Hinv. destruct o as [o | | sku q]; simpl.
  - rewrite mock_step_inventory. exact Hinv.
  - destruct (MockERPAdapter.connected (adapter w)); [right | exact Hinv].
    reflexivity.
  - destruct (twin_inventory w !! sku); exact Hinv.
Qed.

Lemma world_run_inventory ops : forall w,
  twin_inventory w = ∅
  \/ twin_inventory w = MockERPAdapter.inventory (adapter w) ->
  twin_inventory (world_run w ops) = ∅
  \/ twin_inventory (world_run w ops)
     = MockERPAdapter.inventory (adapter (world_run w ops)).
Proof.
  induction ops as [| o ops IH]; intros w Hinv; simpl; [exact Hinv |].
  apply IH, mock_step_connected_inventory, Hinv.
Qed.

(** X17: against the mock adapter the drift monitor cannot see a
    difference. The twin's inventory holds the very objects of the
    adapter, so whatever the twin picks and whatever stock the adapter
    receives, the drift is 0.0 while the adapter is connected, and 1.0
    while it is not. *)
Theorem mock_drift_is_constant (cfg : SimulationConfig)
    (a : MockERPAdapter.state) (ops : list world_op) (now : Z)
    (buf : list WarehouseEvent) :
  let w := world_run (new_world a) ops in
  ((calculate_sync_drift cfg now (erp_view w) (twin_view w) buf).1
   == if MockERPAdapter.connected (adapter w) then 0 else 1)%Q.
Proof.
  intros w.
  destruct (MockERPAdapter.connected (adapter w)) eqn:Hc.
  - rewrite calculate_sync_drift_value by exact Hc.
    destruct (drift_totals _ _) as [diff total] eqn:Htot.
    assert (diff = 0%Z) as ->; [| apply drift_ratio_zero].
    change diff with (diff, total).1. rewrite <- Htot.
    unfold drift_totals. rewrite drift_fold_equal; [reflexivity |].
    intros sku dt erp Hin Herp.
    apply elem_of_map_to_list in Hin.
    destruct (world_run_inventory ops (new_world a)) as [He | He];
      [left; reflexivity | |]; fold w in He.
    + unfold twin_view in Hin. rewrite He in Hin.
      unfold deref in Hin. rewrite lookup_omap, lookup_empty in Hin.
      discriminate.
    + unfold twin_view in Hin. rewrite He in Hin.
      simpl in Herp. unfold MockERPAdapter.fetch_inventory in Herp.
      congruence.
  - unfold calculate_sync_drift. simpl. rewrite Hc. reflexivity.
Qed.

(** After [oversell_ops] the adapter itself holds one unit of [SKU-0001]:
    the five units that the twin picked from a stock of two are gone from
    the adapter's stock as well. *)
Example mock_adapter_sees_picks :
  let w := world_run
             (new_world (MockERPAdapter.__init__ three_locations
                           (fun _ => 2%Z) (fun _ => 5%Q) tick))
             oversell_ops in
  item_quantity <$> MockERPAdapter.item_at (adapter w) "SKU-0001"
  = Some 1%Z.
Proof. vm_compute. reflexivity. Qed.

(* --------------------------------------------------------------------- *)
(** ** Event identifiers of the adapter *)

Lemma mock_step_emits a o :
  MockERPAdapter._event_counter (MockERPAdapter.step a o).1
  = (MockERPAdapter._event_counter a
     + length (MockERPAdapter.step a o).2)%nat
  /\ emitted_ids (MockERPAdapter.step a o).2
     = (fun k => "ERP-" +:+ format_06d (S (MockERPAdapter._event_counter a + k)))
       <$> seq 0 (length (MockERPAdapter.step a o).2).
Proof.
  destruct o; simpl; try (split; [lia | reflexivity]).
  - unfold MockERPAdapter.update_order_status.
    destruct (dict_get _ _); simpl; rewrite ?Nat.add_0_r;
      (split; [lia | reflexivity]).
  - unfold MockERPAdapter.update_inventory.
    destruct (MockERPAdapter.inventory a !! sku);
      [destruct (MockERPAdapter.item_at a sku) |];
      simpl; rewrite ?Nat.add_0_r; (split; [lia | reflexivity]).
  - rewrite Nat.add_0_r. split; [lia | reflexivity].
Qed.

Lemma mock_run_cons a o ops :
  MockERPAdapter.run a (o :: ops)
  = ((MockERPAdapter.run (MockERPAdapter.step a o).1 ops).1,
     (MockERPAdapter.step a o).2
     ++ (MockERPAdapter.run (MockERPAdapter.step a o).1 ops).2).
Proof.
  simpl. destruct (MockERPAdapter.step a o) as [a1 es1]. simpl.
  destruct (MockERPAdapter.run a1 ops) as [a2 es2]. reflexivity.
Qed.

Lemma fmap_seq_shift {A} (f : nat -> A) a n :
  f <$> seq a n = (fun k => f (a + k)%nat) <$> seq 0 n.
Proof.
  rewrite <- (Nat.add_0_r a) at 1.
  rewrite <- fmap_add_seq, <- list_fmap_compose. reflexivity.
Qed.

Lemma mock_run_emits ops : forall a,
  MockERPAdapter._event_counter (MockERPAdapter.run a ops).1
  = (MockERPAdapter._event_counter a
     + length (MockERPAdapter.run a ops).2)%nat
  /\ emitted_ids (MockERPAdapter.run a ops).2
     = (fun k => "ERP-" +:+ format_06d (S (MockERPAdapter._event_counter a + k)))
       <$> seq 0 (length (MockERPAdapter.run a ops).2).
Proof.
  induction ops as [| o ops IH]; intros a.
  - simpl. split; [lia | reflexivity].
  - rewrite mock_run_cons. simpl.
    destruct (mock_step_emits a o) as [Hc1 Hi1].
    destruct (IH (MockERPAdapter.step a o).1) as [Hc2 Hi2].
    rewrite length_app. split; [lia |].
    unfold emitted_ids in *. rewrite fmap_app, Hi1, Hi2, seq_app, fmap_app.
    rewrite (fmap_seq_shift _ (0 + _)). apply (f_equal (app _)).
    apply list_fmap_ext. intros i k _. simpl. rewrite Hc1.
    do 3 f_equal. lia.
Qed.

Lemma mock_init_fields cfg stock cost wall :
  MockERPAdapter._event_counter (MockERPAdapter.__init__ cfg stock cost wall)
  = 0%nat
  /\ MockERPAdapter.orders (MockERPAdapter.__init__ cfg stock cost wall) = []
  /\ MockERPAdapter.event_callbacks
       (MockERPAdapter.__init__ cfg stock cost wall) = []
  /\ MockERPAdapter.connected (MockERPAdapter.__init__ cfg stock cost wall)
     = false.
Proof.
  unfold MockERPAdapter.__init__, MockERPAdapter._initialize_mock_data.
  generalize (seq 0 (num_storage_locations cfg)). intros l.
  match goal with
  | |- context [foldl _ ?a0 l] =>
      assert (H : MockERPAdapter._event_counter a0 = 0%nat
                  /\ MockERPAdapter.orders a0 = []
                  /\ MockERPAdapter.event_callbacks a0 = []
                  /\ MockERPAdapter.connected a0 = false)
        by (repeat split);
      revert H; generalize a0
  end.
  induction l as [| i l IH]; intros a0 H; simpl; [exact H |].
  apply IH. exact H.
Qed.

(** X18: the events of the mock adapter are numbered by a counter: over
    any sequence of calls on a new adapter, the [k]-th event emitted
    (counting from one) has the identifier [ERP-] followed by [k] on six
    digits, and no two emitted events share an identifier. *)
Theorem mock_event_ids (cfg : SimulationConfig) (stock : nat -> Z)
    (cost : nat -> Q) (wall : nat -> Z) (ops : list MockERPAdapter.op) :
  let es :=
    (MockERPAdapter.run (MockERPAdapter.__init__ cfg stock cost wall) ops).2 in
  emitted_ids es
  = (fun k => "ERP-" +:+ format_06d (S k)) <$> seq 0 (length es)
  /\ NoDup (emitted_ids es).
Proof.
  intros es.
  destruct (mock_run_emits ops (MockERPAdapter.__init__ cfg stock cost wall))
    as [_ Hids].
  destruct (mock_init_fields cfg stock cost wall) as (Hc & _).
  rewrite Hc in Hids. simpl in Hids. fold es in Hids.
  split; [exact Hids |].
  rewrite Hids. apply NoDup_fmap_2_strong; [| apply NoDup_seq].
  intros x y _ _ Hxy. apply event_id_inj in Hxy. lia.
Qed.

(* --------------------------------------------------------------------- *)
(** ** Order identifiers of the adapter *)

Lemma dict_get_elem_of {V} (d : list (string * V)) k v :
  dict_get d k = Some v -> (k, v) ∈ d.
Proof.
  induction d as [| [k' v'] d IH]; simpl; [discriminate |].
  destruct (decide (k' = k)) as [-> | _].
  - intros [= ->]. left.
  - intros H. right. apply IH, H.
Qed.

Lemma dict_get_None {V} (d : list (string * V)) k :
  k ∉ d.*1 -> dict_get d k = None.
Proof.
  induction d as [| [k' v'] d IH]; simpl; [reflexivity |].
  intros Hnot. apply not_elem_of_cons in Hnot as [Hne Hnot].
  destruct (decide (k' = k)) as [-> | _]; [congruence | apply IH, Hnot].
Qed.

Lemma dict_set_fresh {V} (d : list (string * V)) k v :
  k ∉ d.*1 -> dict_set k v d = d ++ [(k, v)].
Proof.
  induction d as [| [k' v'] d IH]; simpl; [reflexivity |].
  intros Hnot. apply not_elem_of_cons in Hnot as [Hne Hnot].
  destruct (decide (k' = k)) as [-> | _]; [congruence |].
  rewrite IH by exact Hnot. reflexivity.
Qed.

Lemma dict_set_keys {V} (d : list (string * V)) k v v0 :
  dict_get d k = Some v0 -> (dict_set k v d).*1 = d.*1.
Proof.
  induction d as [| [k' v'] d IH]; simpl; [discriminate |].
  destruct (decide (k' = k)) as [-> | _]; [reflexivity |].
  intros H. simpl. f_equal. apply IH, H.
Qed.

Lemma dict_set_Forall {V} (P : string * V -> Prop) (d : list (string * V))
    k v :
  P (k, v) -> Forall P d -> Forall P (dict_set k v d).
Proof.
  intros Hkv. induction 1 as [| [k' v'] d Hx Hd IH]; simpl.
  - repeat constructor. exact Hkv.
  - destruct (decide (k' = k)); constructor; assumption.
Qed.

Lemma orders_numbered_fresh a :
  orders_numbered a ->
  "ORD-" +:+ format_06d (length (MockERPAdapter.orders a) + 1)
  ∉ (MockERPAdapter.orders a).*1.
Proof.
  intros [Hkeys _] Hin. rewrite Hkeys in Hin.
  apply list_elem_of_fmap in Hin as (k & Heq & Hk).
  apply elem_of_seq in Hk. apply event_id_inj in Heq. lia.
Qed.

Lemma mock_step_orders a o :
  orders_numbered a ->
  orders_numbered (MockERPAdapter.step a o).1
  /\ length (MockERPAdapter.orders (MockERPAdapter.step a o).1)
     = (length (MockERPAdapter.orders a)
        + if is_create o then 1 else 0)%nat.
Proof.
  intros Hinv. pose proof Hinv as [Hkeys Hids].
  destruct o as [| | oid st now | sku change wall | cb
                 | customer order_items draw wall];
    simpl; try (split; [exact Hinv | lia]).
  - unfold MockERPAdapter.update_order_status.
    destruct (dict_get _ _) as [o |] eqn:Hget; simpl;
      [| split; [exact Hinv | lia]].
    assert (Hlen : length (dict_set oid (set_status st o)
                             (MockERPAdapter.orders a))
                   = length (MockERPAdapter.orders a)).
    { rewrite <- (length_fmap fst), (dict_set_keys _ _ _ o) by exact Hget.
      apply length_fmap. }
    split; [| lia]. split; simpl.
    + rewrite Hlen, (dict_set_keys _ _ _ o) by exact Hget. exact Hkeys.
    + apply dict_set_Forall; [| exact Hids]. simpl.
      apply dict_get_elem_of in Hget.
      rewrite Forall_forall in Hids. apply (Hids _ Hget).
  - unfold MockERPAdapter.update_inventory.
    destruct (MockERPAdapter.inventory a !! sku);
      [destruct (MockERPAdapter.item_at a sku) |];
      simpl; (split; [exact Hinv | lia]).
  - rewrite dict_set_fresh by (apply orders_numbered_fresh, Hinv).
    rewrite length_app. simpl. split; [| lia]. split; simpl.
    + rewrite fmap_app, length_app. simpl.
      rewrite seq_app, fmap_app, <- Hkeys. simpl.
      do 4 f_equal. lia.
    + apply Forall_app. split; [exact Hids | repeat constructor].
Qed.

Lemma mock_run_orders ops : forall a,
  orders_numbered a ->
  orders_numbered (MockERPAdapter.run a ops).1
  /\ length (MockERPAdapter.orders (MockERPAdapter.run a ops).1)
     = (length (MockERPAdapter.orders a) + creations ops)%nat.
Proof.
  induction ops as [| o ops IH]; intros a Hinv.
  - simpl. split; [exact Hinv | unfold creations; simpl; lia].
  - rewrite mock_run_cons. simpl.
    destruct (mock_step_orders a o Hinv) as [Hinv1 Hlen1].
    destruct (IH _ Hinv1) as [Hinv2 Hlen2].
    split; [exact Hinv2 |]. rewrite Hlen2, Hlen1.
    unfold creations. simpl. destruct (is_create o); simpl; lia.
Qed.

(** X19: the mock adapter never loses an order: after any sequence of
    calls on a new adapter, [fetch_orders()] returns one order for every
    call of [create_order], in the order of the calls, the [k]-th
    (counting from one) with the identifier [ORD-] followed by [k] on six
    digits; no two orders share an identifier. *)
Theorem mock_order_ids (cfg : SimulationConfig) (stock : nat -> Z)
    (cost : nat -> Q) (wall : nat -> Z) (ops : list MockERPAdapter.op) :
  let a :=
    (MockERPAdapter.run (MockERPAdapter.__init__ cfg stock cost wall) ops).1 in
  order_id <$> MockERPAdapter.fetch_orders a None
  = (fun k => "ORD-" +:+ format_06d (S k)) <$> seq 0 (creations ops)
  /\ NoDup (order_id <$> MockERPAdapter.fetch_orders a None).
Proof.
  intros a.
  destruct (mock_init_fields cfg stock cost wall) as (_ & Ho & _).
  destruct (mock_run_orders ops
              (MockERPAdapter.__init__ cfg stock cost wall))
    as [[Hkeys Hids] Hlen].
  { unfold orders_numbered. rewrite Ho. split; [reflexivity | constructor]. }
  fold a in Hkeys, Hids, Hlen. rewrite Ho in Hlen. simpl in Hlen.
  assert (Heq : order_id <$> MockERPAdapter.fetch_orders a None
                = (fun k => "ORD-" +:+ format_06d (S k))
                  <$> seq 0 (creations ops)).
  { rewrite <- Hlen, <- Hkeys. simpl. rewrite <- list_fmap_compose.
    apply Forall_fmap_ext. exact Hids. }
  split; [exact Heq |].
  rewrite Heq. apply NoDup_fmap_2_strong; [| apply NoDup_seq].
  intros x y _ _ Hxy. apply event_id_inj in Hxy. lia.
Qed.

(* --------------------------------------------------------------------- *)
(** ** The stock of the adapter *)

Lemma sku_of_inj i j : MockERPAdapter.sku_of i = MockERPAdapter.sku_of j -> i = j.
Proof.
  unfold MockERPAdapter.sku_of. intros H.
  apply (inj (String.append "SKU-")) in H. eapply format_0d_inj, H.
Qed.

Lemma mock_fill_inventory stock cost wall n a sku r :
  MockERPAdapter.inventory
    (foldl (MockERPAdapter.add_mock_item stock cost wall) a (seq 0 n))
  !! sku = Some r
  <-> (sku = MockERPAdapter.sku_of r /\ (r < n)%nat)
      \/ (MockERPAdapter.inventory a !! sku = Some r
          /\ forall i, (i < n)%nat -> sku <> MockERPAdapter.sku_of i).
Proof.
  induction n as [| n IH].
  - simpl. split; [intros H; right; split; [exact H | intros; lia] |].
    intros [[_ H] | [H _]]; [lia | exact H].
  - rewrite seq_S, foldl_app. simpl.
    destruct (decide (sku = MockERPAdapter.sku_of n)) as [-> | Hne].
    + rewrite lookup_insert_eq. split.
      * intros [= <-]. left. split; [reflexivity | lia].
      * intros [[Heq _] | [_ Hall]].
        -- apply sku_of_inj in Heq as ->. reflexivity.
        -- exfalso. apply (Hall n); [lia | reflexivity].
    + rewrite lookup_insert_ne by congruence. rewrite IH. split.
      * intros [[-> Hr] | [Ha Hall]]; [left; split; [reflexivity | lia] |].
        right. split; [exact Ha |]. intros i Hi.
        destruct (decide (i = n)) as [-> | Hin]; [exact Hne |].
        apply Hall. lia.
      * intros [[-> Hr] | [Ha Hall]].
        -- left. split; [reflexivity |].
           destruct (decide (r = n)) as [-> | Hrn]; [congruence | lia].
        -- right. split; [exact Ha |]. intros i Hi. apply Hall. lia.
Qed.

Lemma mock_fill_items stock cost wall n a r :
  (r < n)%nat ->
  MockERPAdapter.items
    (foldl (MockERPAdapter.add_mock_item stock cost wall) a (seq 0 n))
  !! r = Some (MockERPAdapter.mock_item r (stock r) (cost r) (wall r)).
Proof.
  induction n as [| n IH]; [lia |]. intros Hr.
  rewrite seq_S, foldl_app. simpl.
  destruct (decide (r = n)) as [-> | Hne].
  - apply lookup_insert_eq.
  - rewrite lookup_insert_ne by congruence. apply IH. lia.
Qed.

Lemma mock_step_items a o i item :
  MockERPAdapter.inventory a !! MockERPAdapter.sku_of i = Some i ->
  (forall sku, MockERPAdapter.inventory a !! sku = Some i ->
     sku = MockERPAdapter.sku_of i) ->
  MockERPAdapter.items a !! i = Some item ->
  exists item',
    MockERPAdapter.items (MockERPAdapter.step a o).1 !! i = Some item'
    /\ item_quantity item'
       = (item_quantity item
          + sumZ (changes_on (MockERPAdapter.sku_of i) [o]))%Z.
Proof.
  intros Hsku Honly Hitem.
  assert (Hsame : forall its : gmap MockERPAdapter.iref InventoryItem,
            its !! i = Some item ->
            sumZ (changes_on (MockERPAdapter.sku_of i) [o]) = 0%Z ->
            exists item',
              its !! i = Some item'
              /\ item_quantity item'
                 = (item_quantity item
                    + sumZ (changes_on (MockERPAdapter.sku_of i) [o]))%Z).
  { intros its Hits Hz. exists item. split; [exact Hits | lia]. }
  destruct o as [| | oid st now | sku change wall | cb
                 | customer order_items draw wall];
    cbn [MockERPAdapter.step]; try (apply Hsame; [exact Hitem | reflexivity]).
  - unfold MockERPAdapter.update_order_status.
    destruct (dict_get _ _); apply Hsame; (exact Hitem || reflexivity).
  - clear Hsame.
    unfold MockERPAdapter.update_inventory, MockERPAdapter.item_at.
    unfold changes_on. cbn [flat_map]. rewrite app_nil_r.
    destruct (decide (sku = MockERPAdapter.sku_of i)) as [-> | Hne].
    + rewrite Hsku. cbn [mbind option_bind]. rewrite Hitem.
      cbn [fst snd MockERPAdapter._emit_event].
      exists (MockERPAdapter.add_stock change (wall 0%nat) item).
      cbn [MockERPAdapter.items MockERPAdapter.set_items
           MockERPAdapter.set_event_counter].
      rewrite lookup_alter_eq, Hitem. split; [reflexivity |].
      unfold sumZ. simpl. lia.
    + assert (Hz : (item_quantity item
                    = item_quantity item + sumZ [])%Z)
        by (unfold sumZ; simpl; lia).
      destruct (MockERPAdapter.inventory a !! sku) as [r |] eqn:Hr;
        cbn [mbind option_bind fst snd];
        [| exists item; split; [exact Hitem | exact Hz]].
      destruct (MockERPAdapter.items a !! r) eqn:Hir;
        cbn [fst snd MockERPAdapter._emit_event];
        [| exists item; split; [exact Hitem | exact Hz]].
      exists item. split; [| exact Hz].
      cbn [MockERPAdapter.items MockERPAdapter.set_items
           MockERPAdapter.set_event_counter].
      rewrite lookup_alter_ne; [exact Hitem |].
      intros ->. apply Hne, Honly, Hr.
Qed.

Lemma changes_on_cons sku o ops :
  sumZ (changes_on sku (o :: ops))
  = (sumZ (changes_on sku [o]) + sumZ (changes_on sku ops))%Z.
Proof.
  unfold changes_on. simpl. rewrite app_nil_r.
  generalize (match o with
              | MockERPAdapter.UpdateInventory sku' change _ =>
                  if decide (sku' = sku) then [change] else []
              | _ => []
              end).
  intros l. induction l as [| x l IH]; simpl; [reflexivity |].
  unfold sumZ in *. simpl. rewrite IH. lia.
Qed.

Lemma mock_run_items ops : forall a i item,
  MockERPAdapter.inventory a !! MockERPAdapter.sku_of i = Some i ->
  (forall sku, MockERPAdapter.inventory a !! sku = Some i ->
     sku = MockERPAdapter.sku_of i) ->
  MockERPAdapter.items a !! i = Some item ->
  exists item',
    MockERPAdapter.item_at (MockERPAdapter.run a ops).1
      (MockERPAdapter.sku_of i) = Some item'
    /\ item_quantity item'
       = (item_quantity item
          + sumZ (changes_on (MockERPAdapter.sku_of i) ops))%Z.
Proof.
  induction ops as [| o ops IH]; intros a i item Hsku Honly Hitem.
  - exists item. unfold MockERPAdapter.item_at. simpl. rewrite Hsku. simpl.
    split; [exact Hitem | unfold changes_on; simpl; lia].
  - rewrite mock_run_cons. cbn [fst snd].
    destruct (mock_step_items a o i item Hsku Honly Hitem)
      as (item1 & Hitem1 & Hq1).
    destruct (IH (MockERPAdapter.step a o).1 i item1) as (item2 & H2 & Hq2).
    + rewrite mock_step_inventory. exact Hsku.
    + intros sku. rewrite mock_step_inventory. apply Honly.
    + exact Hitem1.
    + exists item2. split; [exact H2 |].
      rewrite changes_on_cons, Hq2, Hq1. lia.
Qed.

(** X20: the stock that the mock adapter holds of one of its SKUs, after
    any sequence of calls on a new adapter, is the initial stock plus the
    sum of the quantity changes of the calls of [update_inventory] for
    that SKU. Nothing else changes it, and nothing keeps it from going
    below zero. *)
Theorem mock_stock_accounting (cfg : SimulationConfig) (stock : nat -> Z)
    (cost : nat -> Q) (wall : nat -> Z) (ops : list MockERPAdapter.op)
    (i : nat) :
  (i < num_storage_locations cfg)%nat ->
  let a :=
    (MockERPAdapter.run (MockERPAdapter.__init__ cfg stock cost wall) ops).1 in
  item_quantity <$> MockERPAdapter.item_at a (MockERPAdapter.sku_of i)
  = Some (stock i + sumZ (changes_on (MockERPAdapter.sku_of i) ops))%Z.
Proof.
  intros Hi a.
  destruct (mock_run_items ops
              (MockERPAdapter.__init__ cfg stock cost wall) i
              (MockERPAdapter.mock_item i (stock i) (cost i) (wall i)))
    as (item & Hitem & Hq).
  - apply mock_fill_inventory. left. split; [reflexivity | exact Hi].
  - intros sku Hsku. apply mock_fill_inventory in Hsku as [[-> _] | [He _]];
      [reflexivity |].
    simpl in He. rewrite lookup_empty in He. discriminate.
  - apply mock_fill_items, Hi.
  - fold a in Hitem. rewrite Hitem. simpl. rewrite Hq. reflexivity.
Qed.

Lemma mock_stock_accounting_witness :
  item_quantity
    <$> MockERPAdapter.item_at
          (MockERPAdapter.run
             (MockERPAdapter.__init__ three_locations (fun _ => 2%Z)
                (fun _ => 5%Q) tick) stock_ops).1
          (MockERPAdapter.sku_of 1)
  = Some (-3)%Z.
Proof.
  apply (mock_stock_accounting three_locations (fun _ => 2%Z)
           (fun _ => 5%Q) tick stock_ops 1).
  simpl. lia.
Defined.
(* ===================================================================== *)
(** * The configuration as a dictionary *)
(* ===================================================================== *)

Lemma field_of_filter {A} (decode : pyval -> option A)
    (data : gmap string pyval) name dflt :
  name ∈ dataclass_fields ->
  field_of decode (filter (fun kv => kv.1 ∈ dataclass_fields) data) name dflt
  = field_of decode data name dflt.
Proof.
  intros Hin. unfold field_of.
  destruct (data !! name) as [v |] eqn:Hv.
  - rewrite (proj2 (map_lookup_filter_Some _ data name v));
      [reflexivity | split; [exact Hv | exact Hin]].
  - rewrite map_lookup_filter_None_2; [reflexivity | left; exact Hv].
Qed.

Lemma field_of_agree {A} (decode : pyval -> option A)
    (data data' : gmap string pyval) name dflt :
  data !! name = data' !! name ->
  field_of decode data name dflt = field_of decode data' name dflt.
Proof. unfold field_of. intros ->. reflexivity. Qed.

Ltac field_name := apply (bool_decide_unpack _); vm_compute; exact I.

(** What [to_dict] writes under the name of each field. *)
Lemma to_dict_fields cfg :
  let d := SimulationConfig_to_dict cfg in
  d !! "simulation_time" = Some (PFloat (simulation_time cfg))
  /\ d !! "time_unit" = Some (PStr (time_unit cfg))
  /\ d !! "random_seed" = Some (PInt (random_seed cfg))
  /\ d !! "num_storage_locations"
     = Some (PInt (Z.of_nat (num_storage_locations cfg)))
  /\ d !! "num_workers" = Some (PInt (Z.of_nat (num_workers cfg)))
  /\ d !! "num_forklifts" = Some (PInt (Z.of_nat (num_forklifts cfg)))
  /\ d !! "pick_time_mean" = Some (PFloat (pick_time_mean cfg))
  /\ d !! "pick_time_std" = Some (PFloat (pick_time_std cfg))
  /\ d !! "pack_time_mean" = Some (PFloat (pack_time_mean cfg))
  /\ d !! "pack_time_std" = Some (PFloat (pack_time_std cfg))
  /\ d !! "transport_time_mean" = Some (PFloat (transport_time_mean cfg))
  /\ d !! "transport_time_std" = Some (PFloat (transport_time_std cfg))
  /\ d !! "order_arrival_rate" = Some (PFloat (order_arrival_rate cfg))
  /\ d !! "items_per_order_mean" = Some (PFloat (items_per_order_mean cfg))
  /\ d !! "items_per_order_std" = Some (PFloat (items_per_order_std cfg))
  /\ d !! "erp_sync_interval" = Some (PFloat (erp_sync_interval cfg))
  /\ d !! "event_buffer_size"
     = Some (PInt (Z.of_nat (event_buffer_size cfg)))
  /\ d !! "sync_threshold" = Some (PFloat (sync_threshold cfg))
  /\ d !! "calibration_window" = Some (PInt (calibration_window cfg)).
Proof.
  destruct cfg. cbv zeta.
  repeat match goal with
         | |- _ /\ _ => split
         end; vm_compute; reflexivity.
Qed.

Lemma as_count_of_nat n : as_count (PInt (Z.of_nat n)) = Some n.
Proof.
  unfold as_count. rewrite (proj2 (Z.leb_le 0 (Z.of_nat n))) by lia.
  rewrite Nat2Z.id. reflexivity.
Qed.

(** X21: a configuration survives the passage through a dictionary:
    [from_dict] gives back the configuration from any dictionary that
    holds, for every field of the dataclass, what [to_dict] wrote;
    whatever else the dictionary holds is dropped. *)
Theorem config_round_trip (cfg : SimulationConfig)
    (data : gmap string pyval) :
  (forall name, name ∈ dataclass_fields ->
     data !! name = SimulationConfig_to_dict cfg !! name) ->
  SimulationConfig_from_dict data = Some cfg.
Proof.
  intros Hagree. unfold SimulationConfig_from_dict.
  assert (Hfield : forall A (decode : pyval -> option A) name dflt,
            name ∈ dataclass_fields ->
            field_of decode
              (filter (fun kv => kv.1 ∈ dataclass_fields) data) name dflt
            = field_of decode (SimulationConfig_to_dict cfg) name dflt).
  { intros A decode name dflt Hin. rewrite field_of_filter by exact Hin.
    apply field_of_agree, Hagree, Hin. }
  cbv zeta.
  rewrite !Hfield by field_name.
  clear Hfield Hagree.
  destruct (to_dict_fields cfg)
    as (E1 & E2 & E3 & E4 & E5 & E6 & E7 & E8 & E9 & E10 & E11 & E12 & E13
        & E14 & E15 & E16 & E17 & E18 & E19).
  unfold field_of.
  rewrite E1, E2, E3, E4, E5, E6, E7, E8, E9, E10, E11, E12, E13, E14, E15,
    E16, E17, E18, E19.
  rewrite !as_count_of_nat.
  cbn [as_float as_int as_str mbind option_bind].
  destruct cfg. reflexivity.
Qed.

Lemma config_round_trip_witness :
  SimulationConfig_from_dict annotated_config = Some small_buffer_config.
Proof.
  apply (config_round_trip small_buffer_config annotated_config).
  intros name Hin. unfold annotated_config.
  apply lookup_insert_ne. intros <-.
  apply (bool_decide_pack _) in Hin. vm_compute in Hin. exact Hin.
Defined.
(* ===================================================================== *)
(** * No generated order is lost *)
(* ===================================================================== *)




Lemma heap_ids_insert h r o o' :
  h !! r = Some o -> order_id o' = order_id o ->
  heap_ids h (<[r := o']> h).
Proof.
  intros Hr Hq r' o0 Ho. destruct (decide (r = r')) as [-> | Hne].
  - exists o'. rewrite lookup_insert_eq. split; [reflexivity | congruence].
  - exists o0. rewrite lookup_insert_ne by done.
    split; [exact Ho | reflexivity].
Qed.




Section Generated.

Variable fsqrt : Q -> Q.








End Generated.

